(** * Decision service and event dispatcher of the Optimizely Python SDK

    A shallow embedding of [optimizely/decision_service.py] and
    [optimizely/event_dispatcher.py].

    - Python dictionaries are stdpp [gmap]s, optional values are [option]s.
    - The project configuration, the bucketer, the audience evaluator and the
      user context are collaborators that live in other modules of the SDK:
      they are record fields and class methods here, and every statement is
      quantified over them.
    - Calls on [self.logger] write to an external sink and return nothing; no
      returned value and no state of the service depends on them, so they are
      left out of the embedding of the decision service.  The dispatcher's
      [logging.error] is the only observable trace of a failed request and is
      kept.
    - The [while] loop of [get_variation_for_rollout] is run with fuel:
      [None] means that the loop is still running when the fuel is spent. *)

From stdpp Require Import base option list strings gmap pretty.

(** ** Strings of the decision trace *)

(** The double quote character of the f-string messages. *)
Definition dq : string := String (Ascii.ascii_of_nat 34) EmptyString.

(** [f'"{s}"'] *)
Definition quoted (s : string) : string := dq +:+ s +:+ dq.

(** ** Entities (optimizely/entities.py) *)

(** A value stored in the attribute dictionary of a user.  [AttrNone] is
    Python's [None]; [AttrOther] stands for any object that is neither a
    string, a boolean nor an integer (a float, a list, ...). *)
Inductive AttributeValue : Type :=
| AttrNone
| AttrStr (s : string)
| AttrBool (b : bool)
| AttrInt (z : Z)
| AttrOther (repr : string).

Abbreviation UserAttributes := (gmap string AttributeValue).

(** An audience condition tree, opaque to the decision service. *)
Inductive Condition : Type :=
| CondAudience (audience_id : string)
| CondNot (c : Condition)
| CondAnd (c1 c2 : Condition)
| CondOr (c1 c2 : Condition).

Module Variation.
Record t : Type := { id : string; key : string }.
End Variation.

Module Experiment.
Record t : Type := {
  id : string;
  key : string;
  status : string;
  audienceIds : list string;
  audienceConditions : option Condition;
  forcedVariations : gmap string string
}.

(** Modelled from the spec: entities.py is not under src/.  An experiment
    carries an "ordered audience-condition expression (or legacy
    audience-id list)"; the expression is used when there is one. *)
Definition get_audience_conditions_or_ids (e : t) : Condition + list string :=
  match audienceConditions e with
  | Some c => inl c
  | None => inr (audienceIds e)
  end.
End Experiment.

Module Layer.
(** A rollout; the service reads its id and hands it back to the config. *)
Record t : Type := { id : string }.
End Layer.

Module FeatureFlag.
Record t : Type := {
  id : string;
  key : string;
  rolloutId : string;
  experimentIds : list string
}.
End FeatureFlag.

(** [enums.DecisionSources] *)
Inductive DecisionSource : Type := EXPERIMENT | FEATURE_TEST | ROLLOUT.

(** [class Decision(NamedTuple)] *)
Record Decision : Type := {
  experiment : option Experiment.t;
  variation : option Variation.t;
  source : option DecisionSource
}.

(** ** The user context (optimizely/optimizely_user_context.py) *)

Module OptimizelyUserContext.
Record OptimizelyDecisionContext : Type := {
  flag_key : string;
  rule_key : option string
}.

Record OptimizelyForcedDecision : Type := { variation_key : string }.

Record t : Type := {
  user_id : string;
  get_user_attributes : UserAttributes;
  get_forced_decision : OptimizelyDecisionContext -> option OptimizelyForcedDecision
}.
End OptimizelyUserContext.

(** ** The project configuration (optimizely/project_config.py)

    Read-only lookups; each of them may answer "not found". *)

Module ProjectConfig.
Record t : Type := {
  get_experiment_from_key : string -> option Experiment.t;
  get_experiment_from_id : string -> option Experiment.t;
  get_variation_from_key : string -> string -> option Variation.t;
  get_variation_from_id : string -> string -> option Variation.t;
  get_rollout_from_id : string -> option Layer.t;
  get_rollout_experiments : Layer.t -> list Experiment.t;
  get_flag_variation : string -> string -> string -> option Variation.t
}.
End ProjectConfig.

(** ** The user profile (optimizely/user_profile.py) *)

Module UserProfile.
(** Modelled from the spec: user_profile.py is not under src/.  A profile
    is a "user id + mapping experiment id -> variation id, representing
    sticky bucketing history". *)
Record t : Type := {
  user_id : string;
  experiment_bucket_map : gmap string string
}.

Definition get_variation_for_experiment (p : t) (experiment_id : string) : option string :=
  experiment_bucket_map p !! experiment_id.

Definition save_variation_for_experiment (p : t) (experiment_id variation_id : string) : t :=
  {| user_id := user_id p;
     experiment_bucket_map := <[experiment_id := variation_id]> (experiment_bucket_map p) |}.
End UserProfile.

Module UserProfileService.
(** The persistence service is seen through the calls made on it. *)
Inductive Call : Type :=
| Lookup (user_id : string)
| Save (profile : UserProfile.t).

(** What [lookup] answers; [None] is "no profile" (or a failed lookup). *)
Record t : Type := { lookup : string -> option UserProfile.t }.

Definition is_lookup (c : Call) : bool :=
  match c with Lookup _ => true | Save _ => false end.

Definition is_save (c : Call) : bool :=
  match c with Lookup _ => false | Save _ => true end.
End UserProfileService.

(** ** Collaborators of the decision service

    The bucketer, the audience evaluator and the helpers whose code is in
    other modules of the SDK. *)

Inductive AudienceLogs : Type :=
| ExperimentAudienceEvaluationLogs
| RolloutRuleAudienceEvaluationLogs.

Class Collaborators : Type := {
  (** [bucketer.Bucketer.bucket(project_config, experiment, user_id, bucketing_id)] *)
  bucket : ProjectConfig.t -> Experiment.t -> string -> string ->
           option Variation.t * list string;
  (** [audience_helper.does_user_meet_audience_conditions] *)
  does_user_meet_audience_conditions :
    ProjectConfig.t -> Condition + list string -> AudienceLogs -> string ->
    OptimizelyUserContext.t -> bool * list string;
  (** [experiment_helper.is_experiment_running] *)
  is_experiment_running : Experiment.t -> bool;
  (** [str(variation)] and [str(experiment)] *)
  str_of_variation : Variation.t -> string;
  str_of_experiment : Experiment.t -> string;
  (** The four templates of [enums.ForcedDecisionLogs], applied to their
      arguments in the order of the [format] calls. *)
  USER_HAS_FORCED_DECISION_WITH_RULE_SPECIFIED : string -> string -> string -> string -> string;
  USER_HAS_FORCED_DECISION_WITHOUT_RULE_SPECIFIED : string -> string -> string -> string;
  USER_HAS_FORCED_DECISION_WITH_RULE_SPECIFIED_BUT_INVALID : string -> string -> string -> string;
  USER_HAS_FORCED_DECISION_WITHOUT_RULE_SPECIFIED_BUT_INVALID : string -> string -> string;
  (** The reasons [UserProfileTracker.load_user_profile] adds to the list it
      is given, as a function of what the lookup answered. *)
  load_user_profile_reasons : option UserProfile.t -> list string
}.

(** [enums.ControlAttributes.BUCKETING_ID] *)
Definition BUCKETING_ID : string := "$opt_bucketing_id".

(** [OptimizelyDecideOption.IGNORE_USER_PROFILE_SERVICE] *)
Definition IGNORE_USER_PROFILE_SERVICE : string := "IGNORE_USER_PROFILE_SERVICE".

(** Modelled from the spec: helpers/validator.py is not under src/.  An
    "empty/malformed variation key" is invalid input; a key is a string
    here, so it is valid when it is not empty. *)
Definition is_non_empty_string (input_id_key : string) : bool :=
  negb (String.eqb input_id_key "").

Module UserProfileTracker.
(** Modelled from the spec: user_profile.py is not under src/.  The
    tracker holds the profile "loaded once per decision batch, saved once
    at the end if mutated": loading asks the service once, an update
    records the pair in the held profile and marks it as mutated, saving
    calls the service only for a mutated profile. *)
Record t : Type := {
  user_id : string;
  user_profile : UserProfile.t;
  profile_updated : bool
}.

Definition new (user_id : string) : t :=
  {| user_id := user_id;
     user_profile := {| UserProfile.user_id := user_id;
                        UserProfile.experiment_bucket_map := ∅ |};
     profile_updated := false |}.

Definition get_user_profile (tr : t) : UserProfile.t := user_profile tr.

Definition load_user_profile `{Collaborators} (service : UserProfileService.t)
    (tr : t) (reasons : list string) : t * list string * list UserProfileService.Call :=
  let found := UserProfileService.lookup service (user_id tr) in
  let tr' :=
    match found with
    | Some p => {| user_id := user_id tr; user_profile := p;
                   profile_updated := profile_updated tr |}
    | None => tr
    end in
  (tr', reasons ++ load_user_profile_reasons found,
   [UserProfileService.Lookup (user_id tr)]).

Definition update_user_profile (tr : t) (e : Experiment.t) (v : Variation.t) : t :=
  {| user_id := user_id tr;
     user_profile :=
       UserProfile.save_variation_for_experiment (user_profile tr)
         (Experiment.id e) (Variation.id v);
     profile_updated := true |}.

Definition save_user_profile (tr : t) : list UserProfileService.Call :=
  if profile_updated tr then [UserProfileService.Save (user_profile tr)] else [].
End UserProfileTracker.

(** ** The decision service *)

Module DecisionService.

(** The fields of [self] that the methods read or write. *)
Record t : Type := {
  user_profile_service : option UserProfileService.t;
  forced_variation_map : gmap string (gmap string string)
}.

Definition with_forced_variation_map (self : t)
    (m : gmap string (gmap string string)) : t :=
  {| user_profile_service := user_profile_service self;
     forced_variation_map := m |}.

(** [_get_bucketing_id]: [attributes or UserAttributes({})], then
    [attributes.get(BUCKETING_ID)]; a key that is absent and a key bound to
    [None] both give [None]. *)
Definition _get_bucketing_id (user_id : string) (attributes : option UserAttributes)
    : string * list string :=
  let decide_reasons : list string := [] in
  let attributes : UserAttributes := default ∅ attributes in
  let bucketing_id : AttributeValue := default AttrNone (attributes !! BUCKETING_ID) in
  match bucketing_id with
  | AttrNone => (user_id, decide_reasons)
  | AttrStr s => (s, decide_reasons)
  | _ =>
      let message := "Bucketing ID attribute is not a string. Defaulted to user_id." in
      (user_id, decide_reasons ++ [message])
  end.

(** [set_forced_variation]: the success flag and the service afterwards. *)
Definition set_forced_variation (self : t) (project_config : ProjectConfig.t)
    (experiment_key user_id : string) (variation_key : option string) : bool * t :=
  match ProjectConfig.get_experiment_from_key project_config experiment_key with
  | None => (false, self)
  | Some experiment =>
      let experiment_id := Experiment.id experiment in
      match variation_key with
      | None =>
          match forced_variation_map self !! user_id with
          | Some experiment_to_variation_map =>
              match experiment_to_variation_map !! experiment_id with
              | Some _ =>
                  (true, with_forced_variation_map self
                           (<[user_id := delete experiment_id experiment_to_variation_map]>
                              (forced_variation_map self)))
              | None => (true, self)
              end
          | None => (true, self)
          end
      | Some variation_key =>
          if negb (is_non_empty_string variation_key) then (false, self)
          else
            match ProjectConfig.get_variation_from_key project_config
                    experiment_key variation_key with
            | None => (false, self)
            | Some forced_variation =>
                let variation_id := Variation.id forced_variation in
                match forced_variation_map self !! user_id with
                | None =>
                    (true, with_forced_variation_map self
                             (<[user_id := {[experiment_id := variation_id]}]>
                                (forced_variation_map self)))
                | Some experiment_to_variation_map =>
                    (true, with_forced_variation_map self
                             (<[user_id := <[experiment_id := variation_id]>
                                             experiment_to_variation_map]>
                                (forced_variation_map self)))
                end
            end
      end
  end.

(** [get_forced_variation] *)
Definition get_forced_variation (self : t) (project_config : ProjectConfig.t)
    (experiment_key user_id : string) : option Variation.t * list string :=
  let decide_reasons : list string := [] in
  match forced_variation_map self !! user_id with
  | None => (None, decide_reasons)
  | Some experiment_to_variation_map =>
      match ProjectConfig.get_experiment_from_key project_config experiment_key with
      | None => (None, decide_reasons)
      | Some experiment =>
          if bool_decide (experiment_to_variation_map = ∅) then (None, decide_reasons)
          else
            match experiment_to_variation_map !! Experiment.id experiment with
            | None => (None, decide_reasons)
            | Some variation_id =>
                match ProjectConfig.get_variation_from_id project_config
                        experiment_key variation_id with
                | None => (None, decide_reasons)
                | Some variation =>
                    let message :=
                      "Variation " +:+ quoted (Variation.key variation) +:+
                      " is mapped to experiment " +:+ quoted experiment_key +:+
                      " and user " +:+ quoted user_id +:+
                      " in the forced variation map" in
                    (Some variation, decide_reasons ++ [message])
                end
            end
      end
  end.

(** Truth value of a Python string: only [''] is falsy. *)
Definition str_truthy (s : string) : bool := negb (String.eqb s "").

(** [if options: X in options else: False] *)
Definition option_in (x : string) (options : option (list string)) : bool :=
  match options with
  | None | Some [] => false
  | Some o => bool_decide (x ∈ o)
  end.

(** A result, or the [IndexError] of a subscript out of range. *)
Inductive Raises (A : Type) : Type :=
| Ok (result : A)
| IndexError.
Arguments Ok {A} result.
Arguments IndexError {A}.

Section Methods.
Context `{Collaborators}.

(** [get_whitelisted_variation] *)
Definition get_whitelisted_variation (project_config : ProjectConfig.t)
    (experiment : Experiment.t) (user_id : string)
    : option Variation.t * list string :=
  let decide_reasons : list string := [] in
  let forced_variations := Experiment.forcedVariations experiment in
  match forced_variations !! user_id with
  | Some forced_variation_key =>
      let forced_variation :=
        ProjectConfig.get_variation_from_key project_config
          (Experiment.key experiment) forced_variation_key in
      match forced_variation with
      | Some _ =>
          let message :=
            "User " +:+ quoted user_id +:+ " is forced in variation " +:+
            quoted forced_variation_key +:+ "." in
          (forced_variation, decide_reasons ++ [message])
      | None => (forced_variation, decide_reasons)
      end
  | None => (None, decide_reasons)
  end.

(** [get_stored_variation] *)
Definition get_stored_variation (project_config : ProjectConfig.t)
    (experiment : Experiment.t) (user_profile : UserProfile.t)
    : option Variation.t :=
  let variation_id :=
    UserProfile.get_variation_for_experiment user_profile (Experiment.id experiment) in
  match variation_id with
  | Some variation_id =>
      if str_truthy variation_id then
        ProjectConfig.get_variation_from_id project_config
          (Experiment.key experiment) variation_id
      else None
  | None => None
  end.

(** [get_variation]: the variation, the decision trace and the tracker
    as the call leaves it. *)
Definition get_variation (self : t) (project_config : ProjectConfig.t)
    (experiment : Experiment.t) (user_context : OptimizelyUserContext.t)
    (user_profile_tracker : option UserProfileTracker.t)
    (reasons : option (list string)) (options : option (list string))
    : option Variation.t * list string * option UserProfileTracker.t :=
  let user_id := OptimizelyUserContext.user_id user_context in
  let ignore_user_profile := option_in IGNORE_USER_PROFILE_SERVICE options in
  let decide_reasons : list string := default [] reasons in
  if negb (is_experiment_running experiment) then
    let message := "Experiment " +:+ quoted (Experiment.key experiment) +:+
                   " is not running." in
    (None, decide_reasons ++ [message], user_profile_tracker)
  else
  let '(variation, reasons_received) :=
    get_forced_variation self project_config (Experiment.key experiment) user_id in
  let decide_reasons := decide_reasons ++ reasons_received in
  match variation with
  | Some _ => (variation, decide_reasons, user_profile_tracker)
  | None =>
  let '(variation, reasons_received) :=
    get_whitelisted_variation project_config experiment user_id in
  let decide_reasons := decide_reasons ++ reasons_received in
  match variation with
  | Some _ => (variation, decide_reasons, user_profile_tracker)
  | None =>
  let stored : option Variation.t :=
    match user_profile_tracker with
    | Some tracker =>
        if negb ignore_user_profile then
          get_stored_variation project_config experiment
            (UserProfileTracker.get_user_profile tracker)
        else None
    | None => None
    end in
  match stored with
  | Some variation =>
      let message :=
        "Returning previously activated variation ID " +:+
        quoted (str_of_variation variation) +:+ " of experiment " +:+
        quoted (str_of_experiment experiment) +:+ " for user " +:+
        quoted user_id +:+ " from user profile." in
      (Some variation, decide_reasons ++ [message], user_profile_tracker)
  | None =>
  let audience_conditions := Experiment.get_audience_conditions_or_ids experiment in
  let '(user_meets_audience_conditions, reasons_received) :=
    does_user_meet_audience_conditions project_config audience_conditions
      ExperimentAudienceEvaluationLogs (Experiment.key experiment) user_context in
  let decide_reasons := decide_reasons ++ reasons_received in
  if negb user_meets_audience_conditions then
    let message :=
      "User " +:+ quoted user_id +:+ " does not meet conditions to be in experiment " +:+
      quoted (Experiment.key experiment) +:+ "." in
    (None, decide_reasons ++ [message], user_profile_tracker)
  else
  let '(bucketing_id, bucketing_id_reasons) :=
    _get_bucketing_id user_id
      (Some (OptimizelyUserContext.get_user_attributes user_context)) in
  let decide_reasons := decide_reasons ++ bucketing_id_reasons in
  let '(variation, bucket_reasons) :=
    bucket project_config experiment user_id bucketing_id in
  let decide_reasons := decide_reasons ++ bucket_reasons in
  match variation with
  | Some v =>
      let message :=
        "User " +:+ quoted user_id +:+ " is in variation " +:+
        quoted (Variation.key v) +:+ " of experiment " +:+
        Experiment.key experiment +:+ "." in
      let decide_reasons := decide_reasons ++ [message] in
      let user_profile_tracker :=
        match user_profile_tracker with
        | Some tracker =>
            if negb ignore_user_profile
            then Some (UserProfileTracker.update_user_profile tracker experiment v)
            else Some tracker
        | None => None
        end in
      (Some v, decide_reasons, user_profile_tracker)
  | None =>
      let message := "User " +:+ quoted user_id +:+ " is in no variation." in
      (None, decide_reasons ++ [message], user_profile_tracker)
  end
  end
  end
  end.

(** [validated_forced_decision] *)
Definition validated_forced_decision (project_config : option ProjectConfig.t)
    (decision_context : OptimizelyUserContext.OptimizelyDecisionContext)
    (user_context : OptimizelyUserContext.t)
    : option Variation.t * list string :=
  let reasons : list string := [] in
  let forced_decision :=
    OptimizelyUserContext.get_forced_decision user_context decision_context in
  let flag_key := OptimizelyUserContext.flag_key decision_context in
  let rule_key := OptimizelyUserContext.rule_key decision_context in
  let rule_given :=
    match rule_key with Some k => str_truthy k | None => false end in
  match forced_decision with
  | Some forced_decision =>
      match project_config with
      | None => (None, reasons)
      | Some project_config =>
          let variation_key :=
            OptimizelyUserContext.variation_key forced_decision in
          let variation :=
            ProjectConfig.get_flag_variation project_config flag_key "key"
              variation_key in
          match variation with
          | Some _ =>
              let user_has_forced_decision :=
                if rule_given then
                  USER_HAS_FORCED_DECISION_WITH_RULE_SPECIFIED variation_key flag_key
                    (default "" rule_key) (OptimizelyUserContext.user_id user_context)
                else
                  USER_HAS_FORCED_DECISION_WITHOUT_RULE_SPECIFIED variation_key flag_key
                    (OptimizelyUserContext.user_id user_context) in
              (variation, reasons ++ [user_has_forced_decision])
          | None =>
              let user_has_forced_decision_but_invalid :=
                if rule_given then
                  USER_HAS_FORCED_DECISION_WITH_RULE_SPECIFIED_BUT_INVALID flag_key
                    (default "" rule_key) (OptimizelyUserContext.user_id user_context)
                else
                  USER_HAS_FORCED_DECISION_WITHOUT_RULE_SPECIFIED_BUT_INVALID flag_key
                    (OptimizelyUserContext.user_id user_context) in
              (None, reasons ++ [user_has_forced_decision_but_invalid])
          end
      end
  | None => (None, reasons)
  end.

(** The terminal decision of the rollout resolver. *)
Definition no_rollout_decision : Decision :=
  {| experiment := None; variation := None; source := Some ROLLOUT |}.

(** What one turn of the [while] loop of [get_variation_for_rollout]
    does: it returns from the method, or it goes back to the loop test
    with an index and the reasons gathered so far. *)
Inductive RuleOutcome : Type :=
| Returns (decision : Decision) (decide_reasons : list string)
| LoopsWith (index : nat) (decide_reasons : list string).

(** The body of the loop at [index], where [rule = rollout_rules[index]]. *)
Definition rollout_rule_body (project_config : ProjectConfig.t)
    (feature : FeatureFlag.t) (user_context : OptimizelyUserContext.t)
    (rollout_rules : list Experiment.t) (index : nat) (rule : Experiment.t)
    (decide_reasons : list string) : RuleOutcome :=
  let user_id := OptimizelyUserContext.user_id user_context in
  let attributes := OptimizelyUserContext.get_user_attributes user_context in
  let optimizely_decision_context :=
    {| OptimizelyUserContext.flag_key := FeatureFlag.key feature;
       OptimizelyUserContext.rule_key := Some (Experiment.key rule) |} in
  let '(forced_decision_variation, reasons_received) :=
    validated_forced_decision (Some project_config) optimizely_decision_context
      user_context in
  let decide_reasons := decide_reasons ++ reasons_received in
  match forced_decision_variation with
  | Some _ =>
      Returns {| experiment := Some rule; variation := forced_decision_variation;
                 source := Some ROLLOUT |} decide_reasons
  | None =>
  let '(bucketing_id, bucket_reasons) := _get_bucketing_id user_id (Some attributes) in
  let decide_reasons := decide_reasons ++ bucket_reasons in
  let everyone_else := bool_decide (index = length rollout_rules - 1) in
  let logging_key := if everyone_else then "Everyone Else" else pretty (index + 1) in
  match ProjectConfig.get_experiment_from_id project_config (Experiment.id rule) with
  | None =>
      (* continue: back to the loop test, the index is not touched *)
      LoopsWith index decide_reasons
  | Some rollout_rule =>
  let audience_conditions := Experiment.get_audience_conditions_or_ids rollout_rule in
  let '(audience_decision_response, reasons_received_audience) :=
    does_user_meet_audience_conditions project_config audience_conditions
      RolloutRuleAudienceEvaluationLogs logging_key user_context in
  let decide_reasons := decide_reasons ++ reasons_received_audience in
  if audience_decision_response then
    let message :=
      "User " +:+ quoted user_id +:+
      " meets audience conditions for targeting rule " +:+ logging_key +:+ "." in
    let decide_reasons := decide_reasons ++ [message] in
    let '(bucketed_variation, bucket_reasons) :=
      bucket project_config rollout_rule user_id bucketing_id in
    let decide_reasons := decide_reasons ++ bucket_reasons in
    match bucketed_variation with
    | Some _ =>
        let message :=
          "User " +:+ quoted user_id +:+ " bucketed into a targeting rule " +:+
          logging_key +:+ "." in
        Returns {| experiment := Some rule; variation := bucketed_variation;
                   source := Some ROLLOUT |} (decide_reasons ++ [message])
    | None =>
        if negb everyone_else then
          let message :=
            "User " +:+ quoted user_id +:+ " not bucketed into a targeting rule " +:+
            logging_key +:+ ". Checking " +:+ quoted "Everyone Else" +:+ " rule now." in
          (* skip_to_everyone_else = True *)
          LoopsWith (length rollout_rules - 1) (decide_reasons ++ [message])
        else
          LoopsWith (index + 1) decide_reasons
    end
  else
    let message :=
      "User " +:+ quoted user_id +:+
      " does not meet audience conditions for targeting rule " +:+ logging_key +:+ "." in
    LoopsWith (index + 1) (decide_reasons ++ [message])
  end
  end.

(** [while index < len(rollout_rules): ...], then the final [return]. *)
Fixpoint rollout_loop (fuel : nat) (project_config : ProjectConfig.t)
    (feature : FeatureFlag.t) (user_context : OptimizelyUserContext.t)
    (rollout_rules : list Experiment.t) (index : nat)
    (decide_reasons : list string) : option (Decision * list string) :=
  match fuel with
  | 0 => None
  | S fuel =>
      match rollout_rules !! index with
      | None => Some (no_rollout_decision, decide_reasons)
      | Some rule =>
          match rollout_rule_body project_config feature user_context
                  rollout_rules index rule decide_reasons with
          | Returns decision decide_reasons => Some (decision, decide_reasons)
          | LoopsWith index decide_reasons =>
              rollout_loop fuel project_config feature user_context
                rollout_rules index decide_reasons
          end
      end
  end.

(** [get_variation_for_rollout] *)
Definition get_variation_for_rollout (fuel : nat) (project_config : ProjectConfig.t)
    (feature : option FeatureFlag.t) (user_context : OptimizelyUserContext.t)
    : option (Decision * list string) :=
  let decide_reasons : list string := [] in
  match feature with
  | None => Some (no_rollout_decision, decide_reasons)
  | Some feature =>
  if negb (str_truthy (FeatureFlag.rolloutId feature)) then
    Some (no_rollout_decision, decide_reasons)
  else
  match ProjectConfig.get_rollout_from_id project_config
          (FeatureFlag.rolloutId feature) with
  | None =>
      let message := "There is no rollout of feature " +:+ FeatureFlag.key feature +:+ "." in
      Some (no_rollout_decision, decide_reasons ++ [message])
  | Some rollout =>
  let rollout_rules := ProjectConfig.get_rollout_experiments project_config rollout in
  match rollout_rules with
  | [] =>
      let message := "Rollout " +:+ Layer.id rollout +:+ " has no experiments." in
      Some (no_rollout_decision, decide_reasons ++ [message])
  | _ :: _ =>
      rollout_loop fuel project_config feature user_context rollout_rules 0
        decide_reasons
  end
  end
  end.

(** The loop over [feature.experimentIds] in
    [get_variations_for_feature_list]: the decision of the first
    experiment that gives a variation, if any, with [feature_reasons] and
    the tracker as the loop leaves them. *)
Fixpoint experiments_loop (self : t) (project_config : ProjectConfig.t)
    (feature : FeatureFlag.t) (user_context : OptimizelyUserContext.t)
    (options : option (list string)) (experimentIds : list string)
    (user_profile_tracker : option UserProfileTracker.t)
    (feature_reasons : list string)
    : option Decision * list string * option UserProfileTracker.t :=
  match experimentIds with
  | [] => (None, feature_reasons, user_profile_tracker)
  | experiment_id :: experimentIds =>
      match ProjectConfig.get_experiment_from_id project_config experiment_id with
      | None =>
          experiments_loop self project_config feature user_context options
            experimentIds user_profile_tracker feature_reasons
      | Some experiment =>
          let optimizely_decision_context :=
            {| OptimizelyUserContext.flag_key := FeatureFlag.key feature;
               OptimizelyUserContext.rule_key := Some (Experiment.key experiment) |} in
          let '(forced_decision_variation, reasons_received) :=
            validated_forced_decision (Some project_config)
              optimizely_decision_context user_context in
          let feature_reasons := feature_reasons ++ reasons_received in
          let '(decision_variation, feature_reasons, user_profile_tracker) :=
            match forced_decision_variation with
            | Some _ => (forced_decision_variation, feature_reasons, user_profile_tracker)
            | None =>
                let '(decision_variation, variation_reasons, user_profile_tracker) :=
                  get_variation self project_config experiment user_context
                    user_profile_tracker (Some feature_reasons) options in
                (decision_variation, feature_reasons ++ variation_reasons,
                 user_profile_tracker)
            end in
          match decision_variation with
          | Some _ =>
              (Some {| experiment := Some experiment; variation := decision_variation;
                       source := Some FEATURE_TEST |},
               feature_reasons, user_profile_tracker)
          | None =>
              experiments_loop self project_config feature user_context options
                experimentIds user_profile_tracker feature_reasons
          end
      end
  end.

(** The body of [for feature in features]: the pair appended to
    [decisions] and the tracker afterwards. *)
Definition feature_body (fuel : nat) (self : t) (project_config : ProjectConfig.t)
    (feature : FeatureFlag.t) (user_context : OptimizelyUserContext.t)
    (options : option (list string))
    (user_profile_tracker : option UserProfileTracker.t)
    (decide_reasons : list string)
    : option ((Decision * list string) * option UserProfileTracker.t) :=
  let feature_reasons := decide_reasons in
  let '(experiment_decision, feature_reasons, user_profile_tracker) :=
    experiments_loop self project_config feature user_context options
      (FeatureFlag.experimentIds feature) user_profile_tracker feature_reasons in
  match experiment_decision with
  | Some decision => Some ((decision, feature_reasons), user_profile_tracker)
  | None =>
      match get_variation_for_rollout fuel project_config (Some feature) user_context with
      | None => None
      | Some (rollout_decision, rollout_reasons) =>
          Some ((rollout_decision, feature_reasons ++ rollout_reasons),
                user_profile_tracker)
      end
  end.

(** [for feature in features: ...] with [decisions] as it grows. *)
Fixpoint features_loop (fuel : nat) (self : t) (project_config : ProjectConfig.t)
    (features : list FeatureFlag.t) (user_context : OptimizelyUserContext.t)
    (options : option (list string))
    (user_profile_tracker : option UserProfileTracker.t)
    (decide_reasons : list string) (decisions : list (Decision * list string))
    : option (list (Decision * list string) * option UserProfileTracker.t) :=
  match features with
  | [] => Some (decisions, user_profile_tracker)
  | feature :: features =>
      match feature_body fuel self project_config feature user_context options
              user_profile_tracker decide_reasons with
      | None => None
      | Some (recorded, user_profile_tracker) =>
          features_loop fuel self project_config features user_context options
            user_profile_tracker decide_reasons (decisions ++ [recorded])
      end
  end.

(** [get_variations_for_feature_list]: the calls made on the user profile
    service, in the order they were made, and the decisions returned
    ([None] when the call is still running as the fuel is spent). *)
Definition get_variations_for_feature_list (fuel : nat) (self : t)
    (project_config : ProjectConfig.t) (features : list FeatureFlag.t)
    (user_context : OptimizelyUserContext.t) (options : option (list string))
    : list UserProfileService.Call * option (list (Decision * list string)) :=
  let decide_reasons : list string := [] in
  let ignore_ups := option_in IGNORE_USER_PROFILE_SERVICE options in
  let '(user_profile_tracker, decide_reasons, calls) :=
    match user_profile_service self with
    | Some service =>
        if negb ignore_ups then
          let '(tracker, decide_reasons, calls) :=
            UserProfileTracker.load_user_profile service
              (UserProfileTracker.new (OptimizelyUserContext.user_id user_context))
              decide_reasons in
          (Some tracker, decide_reasons, calls)
        else (None, decide_reasons, [])
    | None => (None, decide_reasons, [])
    end in
  match features_loop fuel self project_config features user_context options
          user_profile_tracker decide_reasons [] with
  | None => (calls, None)
  | Some (decisions, user_profile_tracker) =>
      let saved :=
        match user_profile_service self, user_profile_tracker with
        | Some _, Some tracker =>
            if negb ignore_ups then UserProfileTracker.save_user_profile tracker else []
        | _, _ => []
        end in
      (calls ++ saved, Some decisions)
  end.

(** [get_variation_for_feature]: the list call on [[feature]], then
    [...[0]]. *)
Definition get_variation_for_feature (fuel : nat) (self : t)
    (project_config : ProjectConfig.t) (feature : FeatureFlag.t)
    (user_context : OptimizelyUserContext.t) (options : option (list string))
    : list UserProfileService.Call * option (Raises (Decision * list string)) :=
  let '(calls, returned) :=
    get_variations_for_feature_list fuel self project_config [feature]
      user_context options in
  match returned with
  | None => (calls, None)
  | Some decisions =>
      match decisions !! 0 with
      | Some first => (calls, Some (Ok first))
      | None => (calls, Some IndexError)
      end
  end.

End Methods.

End DecisionService.


(** ** The event dispatcher (optimizely/event_dispatcher.py) *)

Module EventDispatcher.

(** A JSON value, as [event.params] holds them. *)
Inductive Json : Type :=
| JNull
| JBool (b : bool)
| JNumber (z : Z)
| JString (s : string)
| JArrayNil
| JArrayCons (head tail : Json)
| JObjectNil
| JObjectCons (name : string) (value rest : Json).

(** [event_builder.Event] *)
Record Event : Type := {
  url : string;
  params : Json;
  http_verb : string;
  headers : gmap string string
}.

(** [enums.HTTPVerbs] *)
Definition GET : string := "GET".
Definition POST : string := "POST".

(** [urllib3.util.retry.Retry(total, backoff_factor, status_forcelist)];
    the backoff factor is kept in tenths. *)
Record Retry : Type := {
  total : Z;
  backoff_factor_tenths : Z;
  status_forcelist : list Z
}.

(** The defaults of [urllib3.util.retry.Retry] that stay in force, as the
    code passes neither [allowed_methods] nor [respect_retry_after_header]. *)
Definition DEFAULT_ALLOWED_METHODS : list string :=
  ["HEAD"; "GET"; "PUT"; "DELETE"; "OPTIONS"; "TRACE"].
Definition RETRY_AFTER_STATUS_CODES : list Z := [413; 429; 503]%Z.
Definition respect_retry_after_header : bool := true.

(** [Retry.is_retry(method, status_code, has_retry_after)]: whether the
    policy asks for another attempt after a response.  The verb comes in
    upper case from [session.get] and [session.post].  A verb that is not
    retryable is never retried on a status; a status of [status_forcelist]
    is; a status of [RETRY_AFTER_STATUS_CODES] is when the response has a
    Retry-After header and [total] is not zero. *)
Definition is_retry (retries : Retry) (method : string) (status_code : Z)
    (has_retry_after : bool) : bool :=
  if negb (bool_decide (method ∈ DEFAULT_ALLOWED_METHODS)) then false
  else if bool_decide (status_code ∈ status_forcelist retries) then true
  else bool_decide (total retries ≠ 0%Z) && respect_retry_after_header
       && has_retry_after && bool_decide (status_code ∈ RETRY_AFTER_STATUS_CODES).

(** The call made on the session: [session.get(url, params=..., timeout=...)]
    or [session.post(url, data=..., headers=..., timeout=...)]. *)
Inductive Request : Type :=
| SessionGet (url : string) (query_params : Json) (timeout : Z)
| SessionPost (url : string) (data : string) (headers : gmap string string) (timeout : Z).

(** The verb of a call on the session. *)
Definition request_method (request : Request) : string :=
  match request with
  | SessionGet _ _ _ => "GET"
  | SessionPost _ _ _ _ => "POST"
  end.

(** [requests.exceptions.RequestException] and its subclasses. *)
Inductive RequestException : Type :=
| ConnectionError
| Timeout
| RetryError
| HTTPError (status_code : Z)
| OtherRequestException (name : string).

Inductive Exception : Type :=
| RequestFailure (error : RequestException)
| OtherException (name : string).

(** The network and the libraries that talk to it. *)
Class Transport : Type := {
  (** [EventDispatchConfig.RETRIES] and [EventDispatchConfig.REQUEST_TIMEOUT] *)
  RETRIES : Z;
  REQUEST_TIMEOUT : Z;
  (** [json.dumps] *)
  json_dumps : Json -> string;
  (** A session whose http:// and https:// adapters carry the retry policy
      sends the request: the status code of the response, or the exception
      raised on the way. *)
  send : Retry -> Request -> Z + Exception;
  (** [str(error)] in the log line *)
  str_of_error : RequestException -> string
}.

(** [Response.raise_for_status]: client and server errors raise. *)
Definition raise_for_status (status_code : Z) : option Exception :=
  if bool_decide (400 ≤ status_code < 600)%Z
  then Some (RequestFailure (HTTPError status_code))
  else None.

(** What a call of [dispatch_event] leaves behind: the request made, with
    the retry policy of the adapters it went through, the lines logged and
    the exception that reaches the caller. *)
Record Outcome : Type := {
  sent : option (Retry * Request);
  logged : list string;
  raised : option Exception
}.

Section Dispatch.
Context `{Transport}.

(** [retries = Retry(total=..., backoff_factor=0.1, status_forcelist=[...])] *)
Definition retries : Retry :=
  {| total := RETRIES;
     backoff_factor_tenths := 1;
     status_forcelist := [500; 502; 503; 504]%Z |}.

(** The [try] block: the request made, if any, and the exception that
    leaves the block, if any. *)
Definition try_block (event : Event) : option (Retry * Request) * option Exception :=
  let request : option Request :=
    if String.eqb (http_verb event) GET then
      Some (SessionGet (url event) (params event) REQUEST_TIMEOUT)
    else if String.eqb (http_verb event) POST then
      Some (SessionPost (url event) (json_dumps (params event)) (headers event)
              REQUEST_TIMEOUT)
    else None in
  match request with
  | None => (None, None)
  | Some r =>
      match send retries r with
      | inl status_code => (Some (retries, r), raise_for_status status_code)
      | inr e => (Some (retries, r), Some e)
      end
  end.

(** [dispatch_event]: [except request_exception.RequestException as error]
    logs; any other exception goes on to the caller. *)
Definition dispatch_event (event : Event) : Outcome :=
  let '(request, exception) := try_block event in
  match exception with
  | Some (RequestFailure error) =>
      {| sent := request;
         logged := ["Dispatch event failed. Error: " +:+ str_of_error error];
         raised := None |}
  | Some (OtherException name) =>
      {| sent := request; logged := []; raised := exception |}
  | None => {| sent := request; logged := []; raised := None |}
  end.

End Dispatch.

End EventDispatcher.


(** * Vocabulary of the statements *)

(** ** The bucketing id *)

Definition not_a_string_warning : string :=
  "Bucketing ID attribute is not a string. Defaulted to user_id.".

(** What [attributes.get(BUCKETING_ID)] finds in the dictionary. *)
Definition bucketing_attribute (attributes : option UserAttributes)
    : option AttributeValue :=
  default ∅ attributes !! BUCKETING_ID.

Definition is_str (v : AttributeValue) : bool :=
  match v with AttrStr _ => true | _ => false end.

(** ** The forced-variation store *)

(** The variation id that the store holds for a user and an experiment id. *)
Definition stored_mapping (self : DecisionService.t) (user_id experiment_id : string)
    : option string :=
  DecisionService.forced_variation_map self !! user_id ≫= (.!! experiment_id).

(** ** Layers of the experiment decision resolver *)

(** The first layer of an ordered list of override layers that yields a
    variation. *)
Definition first_hit {A : Type} (layers : list (option A)) : option A :=
  foldr (λ layer rest, match layer with Some v => Some v | None => rest end)
    None layers.

Section Layers.
Context `{Collaborators}.

(** The variation held by the profile of the tracker, when there is a
    tracker and the caller did not ask to ignore the profile service. *)
Definition profile_layer (project_config : ProjectConfig.t)
    (experiment : Experiment.t)
    (user_profile_tracker : option UserProfileTracker.t)
    (options : option (list string)) : option Variation.t :=
  match user_profile_tracker with
  | Some tracker =>
      if DecisionService.option_in IGNORE_USER_PROFILE_SERVICE options then None
      else DecisionService.get_stored_variation project_config experiment
             (UserProfileTracker.get_user_profile tracker)
  | None => None
  end.

(** The variation of the bucketer, when the user meets the audience
    conditions of the experiment. *)
Definition bucketing_layer (project_config : ProjectConfig.t)
    (experiment : Experiment.t)
    (user_context : OptimizelyUserContext.t) : option Variation.t :=
  let user_id := OptimizelyUserContext.user_id user_context in
  if (does_user_meet_audience_conditions project_config
        (Experiment.get_audience_conditions_or_ids experiment)
        ExperimentAudienceEvaluationLogs (Experiment.key experiment) user_context).1
  then
    (bucket project_config experiment user_id
       (DecisionService._get_bucketing_id user_id
          (Some (OptimizelyUserContext.get_user_attributes user_context))).1).1
  else None.

(** ** Rollout rules *)

(** The forced decision of the user for a rule of the rollout of a flag. *)
Definition forced_decision_at (project_config : ProjectConfig.t)
    (feature : FeatureFlag.t) (user_context : OptimizelyUserContext.t)
    (rule : Experiment.t) : option Variation.t :=
  (DecisionService.validated_forced_decision (Some project_config)
     {| OptimizelyUserContext.flag_key := FeatureFlag.key feature;
        OptimizelyUserContext.rule_key := Some (Experiment.key rule) |}
     user_context).1.

(** The id of the rule resolves in the config. *)
Definition rule_resolves (project_config : ProjectConfig.t) (rule : Experiment.t) : Prop :=
  is_Some (ProjectConfig.get_experiment_from_id project_config (Experiment.id rule)).

(** The user meets the audience conditions of a resolved rule, evaluated
    under the given logging key. *)
Definition meets_rule_audience (project_config : ProjectConfig.t)
    (user_context : OptimizelyUserContext.t) (rollout_rule : Experiment.t)
    (logging_key : string) : bool :=
  (does_user_meet_audience_conditions project_config
     (Experiment.get_audience_conditions_or_ids rollout_rule)
     RolloutRuleAudienceEvaluationLogs logging_key user_context).1.

(** The variation the bucketer gives the user in a resolved rule. *)
Definition bucketed_in_rule (project_config : ProjectConfig.t)
    (user_context : OptimizelyUserContext.t) (rollout_rule : Experiment.t)
    : option Variation.t :=
  let user_id := OptimizelyUserContext.user_id user_context in
  (bucket project_config rollout_rule user_id
     (DecisionService._get_bucketing_id user_id
        (Some (OptimizelyUserContext.get_user_attributes user_context))).1).1.

(** A decision of the rollout resolver is well formed: its source is the
    rollout, and it names an experiment exactly when it names a variation. *)
Definition rollout_decision_wf (d : Decision) : Prop :=
  source d = Some ROLLOUT
  ∧ ((is_Some (experiment d) ∧ is_Some (variation d))
     ∨ (experiment d = None ∧ variation d = None)).

(** ** The feature decision orchestrator, in the words of its description *)

(** Trying one experiment id of a feature: the forced decision scoped to
    the feature and the experiment first, the experiment decision resolver
    otherwise.  The answer is the experiment and its variation, if any, and
    the tracker afterwards. *)
Definition try_experiment (self : DecisionService.t)
    (project_config : ProjectConfig.t) (feature : FeatureFlag.t)
    (user_context : OptimizelyUserContext.t) (options : option (list string))
    (user_profile_tracker : option UserProfileTracker.t) (experiment_id : string)
    : option (Experiment.t * Variation.t) * option UserProfileTracker.t :=
  match ProjectConfig.get_experiment_from_id project_config experiment_id with
  | None => (None, user_profile_tracker)
  | Some experiment =>
      match forced_decision_at project_config feature user_context experiment with
      | Some v => (Some (experiment, v), user_profile_tracker)
      | None =>
          let resolved :=
            DecisionService.get_variation self project_config experiment user_context
              user_profile_tracker None options in
          (pair experiment <$> resolved.1.1, resolved.2)
      end
  end.

(** The experiment ids are tried in order and the first one that yields a
    variation decides, with source [FEATURE_TEST]; the ids after it are not
    tried. *)
Inductive first_match (self : DecisionService.t) (project_config : ProjectConfig.t)
    (feature : FeatureFlag.t) (user_context : OptimizelyUserContext.t)
    (options : option (list string))
    : list string → option UserProfileTracker.t → option Decision →
      option UserProfileTracker.t → Prop :=
| first_match_none tracker :
    first_match self project_config feature user_context options [] tracker None tracker
| first_match_hit experiment_id experimentIds tracker e v tracker' :
    try_experiment self project_config feature user_context options tracker experiment_id
    = (Some (e, v), tracker') →
    first_match self project_config feature user_context options
      (experiment_id :: experimentIds) tracker
      (Some {| experiment := Some e; variation := Some v; source := Some FEATURE_TEST |})
      tracker'
| first_match_miss experiment_id experimentIds tracker tracker' decision tracker'' :
    try_experiment self project_config feature user_context options tracker experiment_id
    = (None, tracker') →
    first_match self project_config feature user_context options
      experimentIds tracker' decision tracker'' →
    first_match self project_config feature user_context options
      (experiment_id :: experimentIds) tracker decision tracker''.

(** The decision of one feature: the first matching experiment, or else
    what the rollout resolver returns. *)
Definition feature_decision (fuel : nat) (self : DecisionService.t)
    (project_config : ProjectConfig.t) (user_context : OptimizelyUserContext.t)
    (options : option (list string)) (feature : FeatureFlag.t)
    (tracker : option UserProfileTracker.t) (decision : Decision)
    (tracker' : option UserProfileTracker.t) : Prop :=
  first_match self project_config feature user_context options
    (FeatureFlag.experimentIds feature) tracker (Some decision) tracker'
  ∨ (first_match self project_config feature user_context options
       (FeatureFlag.experimentIds feature) tracker None tracker'
     ∧ ∃ rollout_reasons,
         DecisionService.get_variation_for_rollout fuel project_config (Some feature)
           user_context = Some (decision, rollout_reasons)).

(** One decision per feature, in the order of the features, the tracker
    going from each feature to the next. *)
Inductive batch_decisions (fuel : nat) (self : DecisionService.t)
    (project_config : ProjectConfig.t) (user_context : OptimizelyUserContext.t)
    (options : option (list string))
    : list FeatureFlag.t → option UserProfileTracker.t → list Decision →
      option UserProfileTracker.t → Prop :=
| batch_nil tracker :
    batch_decisions fuel self project_config user_context options [] tracker [] tracker
| batch_cons feature features tracker decision tracker' decisions tracker'' :
    feature_decision fuel self project_config user_context options feature tracker
      decision tracker' →
    batch_decisions fuel self project_config user_context options features tracker'
      decisions tracker'' →
    batch_decisions fuel self project_config user_context options (feature :: features)
      tracker (decision :: decisions) tracker''.

(** The tracker that [get_variations_for_feature_list] starts from. *)
Definition loaded_tracker (self : DecisionService.t)
    (user_context : OptimizelyUserContext.t) (options : option (list string))
    : option UserProfileTracker.t :=
  match DecisionService.user_profile_service self with
  | Some service =>
      if DecisionService.option_in IGNORE_USER_PROFILE_SERVICE options then None
      else
        Some (UserProfileTracker.load_user_profile service
                (UserProfileTracker.new (OptimizelyUserContext.user_id user_context))
                []).1.1
  | None => None
  end.

End Layers.

(** ** The event dispatcher *)

(** A request-level failure: an exception of the [RequestException] family
    on the way, or a response that [raise_for_status] refuses. *)
Definition request_fails (answer : Z + EventDispatcher.Exception) : Prop :=
  match answer with
  | inl status_code => (400 ≤ status_code < 600)%Z
  | inr (EventDispatcher.RequestFailure _) => True
  | inr (EventDispatcher.OtherException _) => False
  end.

(** ** Proof steps *)

(** Unfolds one turn of the loop and splits on everything it inspects. *)
Ltac split_rule_body :=
  unfold DecisionService.rollout_rule_body, forced_decision_at, meets_rule_audience,
    bucketed_in_rule in *;
  repeat case_match; simplify_eq/=.


(** * A sample project

    A small datafile and stand-ins for the collaborators, on which the
    statements below are run. *)

Module Sample.

Definition control : Variation.t :=
  {| Variation.id := "v_control"; Variation.key := "control" |}.

Definition treatment : Variation.t :=
  {| Variation.id := "v_treatment"; Variation.key := "treatment" |}.

Definition make_experiment (id key status : string)
    (forcedVariations : gmap string string) : Experiment.t :=
  {| Experiment.id := id; Experiment.key := key; Experiment.status := status;
     Experiment.audienceIds := []; Experiment.audienceConditions := None;
     Experiment.forcedVariations := forcedVariations |}.

Definition paused : Experiment.t := make_experiment "e0" "paused" "Paused" ∅.

Definition checkout : Experiment.t :=
  make_experiment "e1" "checkout" "Running" {["user_wl" := "control"]}.

Definition rule_1 : Experiment.t := make_experiment "r1" "rule_1" "Running" ∅.
Definition rule_2 : Experiment.t := make_experiment "r2" "rule_2" "Running" ∅.
Definition everyone_else : Experiment.t :=
  make_experiment "r3" "everyone_else" "Running" ∅.

Definition rollout : Layer.t := {| Layer.id := "rollout_1" |}.

Definition flag_a : FeatureFlag.t :=
  {| FeatureFlag.id := "f1"; FeatureFlag.key := "flag_a";
     FeatureFlag.rolloutId := "rollout_1";
     FeatureFlag.experimentIds := ["e0"; "e1"] |}.

Definition flag_b : FeatureFlag.t :=
  {| FeatureFlag.id := "f2"; FeatureFlag.key := "flag_b";
     FeatureFlag.rolloutId := "rollout_1";
     FeatureFlag.experimentIds := [] |}.

Definition variation_of_key (key : string) : option Variation.t :=
  if String.eqb key "control" then Some control
  else if String.eqb key "treatment" then Some treatment
  else None.

Definition variation_of_id (id : string) : option Variation.t :=
  if String.eqb id "v_control" then Some control
  else if String.eqb id "v_treatment" then Some treatment
  else None.

Definition experiment_of_id (id : string) : option Experiment.t :=
  list_find (λ e, Experiment.id e = id)
    [paused; checkout; rule_1; rule_2; everyone_else] ≫= λ found, Some found.2.

Definition config : ProjectConfig.t :=
  {| ProjectConfig.get_experiment_from_key := λ key,
       if String.eqb key "checkout" then Some checkout
       else if String.eqb key "paused" then Some paused
       else None;
     ProjectConfig.get_experiment_from_id := experiment_of_id;
     ProjectConfig.get_variation_from_key := λ _ key, variation_of_key key;
     ProjectConfig.get_variation_from_id := λ _ id, variation_of_id id;
     ProjectConfig.get_rollout_from_id := λ id,
       if String.eqb id "rollout_1" then Some rollout else None;
     ProjectConfig.get_rollout_experiments := λ _, [rule_1; rule_2; everyone_else];
     ProjectConfig.get_flag_variation := λ _ _ key, variation_of_key key |}.

(** The same datafile, except that the id of the first rule of the rollout
    is not in the experiment id map. *)
Definition stale_config : ProjectConfig.t :=
  {| ProjectConfig.get_experiment_from_key :=
       ProjectConfig.get_experiment_from_key config;
     ProjectConfig.get_experiment_from_id := λ id,
       if String.eqb id "r1" then None else experiment_of_id id;
     ProjectConfig.get_variation_from_key := ProjectConfig.get_variation_from_key config;
     ProjectConfig.get_variation_from_id := ProjectConfig.get_variation_from_id config;
     ProjectConfig.get_rollout_from_id := ProjectConfig.get_rollout_from_id config;
     ProjectConfig.get_rollout_experiments :=
       ProjectConfig.get_rollout_experiments config;
     ProjectConfig.get_flag_variation := ProjectConfig.get_flag_variation config |}.

(** The bucketer puts everybody in [treatment] for the experiment and for
    the last rule, in [control] for the second rule, and nobody anywhere
    for the first rule.  Only ["user_in"] is in the audience of
    experiments; every user is in the audience of every rollout rule. *)
Definition collaborators : Collaborators :=
  {| bucket := λ _ e _ _,
       (if String.eqb (Experiment.id e) "e1" then Some treatment
        else if String.eqb (Experiment.id e) "r2" then Some control
        else if String.eqb (Experiment.id e) "r3" then Some treatment
        else None, []);
     does_user_meet_audience_conditions := λ _ _ logs _ user_context,
       (match logs with
        | ExperimentAudienceEvaluationLogs =>
            String.eqb (OptimizelyUserContext.user_id user_context) "user_in"
        | RolloutRuleAudienceEvaluationLogs => true
        end, []);
     is_experiment_running := λ e, String.eqb (Experiment.status e) "Running";
     str_of_variation := Variation.key;
     str_of_experiment := Experiment.key;
     USER_HAS_FORCED_DECISION_WITH_RULE_SPECIFIED := λ v f r u,
       "forced " +:+ v +:+ " " +:+ f +:+ " " +:+ r +:+ " " +:+ u;
     USER_HAS_FORCED_DECISION_WITHOUT_RULE_SPECIFIED := λ v f u,
       "forced " +:+ v +:+ " " +:+ f +:+ " " +:+ u;
     USER_HAS_FORCED_DECISION_WITH_RULE_SPECIFIED_BUT_INVALID := λ f r u,
       "invalid " +:+ f +:+ " " +:+ r +:+ " " +:+ u;
     USER_HAS_FORCED_DECISION_WITHOUT_RULE_SPECIFIED_BUT_INVALID := λ f u,
       "invalid " +:+ f +:+ " " +:+ u;
     load_user_profile_reasons := λ _, [] |}.

Definition user (user_id : string) : OptimizelyUserContext.t :=
  {| OptimizelyUserContext.user_id := user_id;
     OptimizelyUserContext.get_user_attributes := ∅;
     OptimizelyUserContext.get_forced_decision := λ _, None |}.

(** A service with an empty profile store, in which ["user_out"] is forced
    into [control] for the experiment. *)
Definition service : DecisionService.t :=
  {| DecisionService.user_profile_service :=
       Some {| UserProfileService.lookup := λ _, None |};
     DecisionService.forced_variation_map :=
       {["user_out" := {["e1" := "v_control"]}]} |}.

(** The dispatcher's network: every request is answered with the status
    in [answer]. *)
Definition transport (answer : Z + EventDispatcher.Exception)
    : EventDispatcher.Transport :=
  {| EventDispatcher.RETRIES := 3;
     EventDispatcher.REQUEST_TIMEOUT := 10;
     EventDispatcher.json_dumps := λ _, "{}";
     EventDispatcher.send := λ _ _, answer;
     EventDispatcher.str_of_error := λ _, "error" |}.

Definition event (verb : string) : EventDispatcher.Event :=
  {| EventDispatcher.url := "https://logx.optimizely.com/v1/events";
     EventDispatcher.params := EventDispatcher.JObjectNil;
     EventDispatcher.http_verb := verb;
     EventDispatcher.headers := {["Content-Type" := "application/json"]} |}.

End Sample.

(** * Further vocabulary *)

(** The logging key of the rule at an index of a rule list, as the loop of
    [get_variation_for_rollout] computes it. *)
Definition rule_logging_key (rollout_rules : list Experiment.t) (index : nat) : string :=
  if bool_decide (index = length rollout_rules - 1) then "Everyone Else"
  else pretty (index + 1).

(** The feature has a rollout id, the config knows the rollout, and these
    are its rules. *)
Definition rollout_rules_of (project_config : ProjectConfig.t)
    (feature : FeatureFlag.t) (rollout_rules : list Experiment.t) : Prop :=
  FeatureFlag.rolloutId feature ≠ ""
  ∧ ∃ rollout,
      ProjectConfig.get_rollout_from_id project_config (FeatureFlag.rolloutId feature)
      = Some rollout
      ∧ ProjectConfig.get_rollout_experiments project_config rollout = rollout_rules.

(** The user has no forced decision for the rule at the index, the rule
    resolves, and the user is not in its audience. *)
Definition misses_rule `{Collaborators} (project_config : ProjectConfig.t)
    (feature : FeatureFlag.t) (user_context : OptimizelyUserContext.t)
    (rollout_rules : list Experiment.t) (index : nat) (rule : Experiment.t) : Prop :=
  forced_decision_at project_config feature user_context rule = None
  ∧ ∃ rollout_rule,
      ProjectConfig.get_experiment_from_id project_config (Experiment.id rule)
      = Some rollout_rule
      ∧ meets_rule_audience project_config user_context rollout_rule
          (rule_logging_key rollout_rules index) = false.

(** The reasons that [get_variations_for_feature_list] starts every feature
    with: those of the load of the profile, when there is one. *)
Definition loaded_reasons `{Collaborators} (self : DecisionService.t)
    (user_context : OptimizelyUserContext.t) (options : option (list string))
    : list string :=
  match DecisionService.user_profile_service self with
  | Some service =>
      if DecisionService.option_in IGNORE_USER_PROFILE_SERVICE options then []
      else
        (UserProfileTracker.load_user_profile service
           (UserProfileTracker.new (OptimizelyUserContext.user_id user_context))
           []).1.2
  | None => []
  end.

(** The calls that [get_variations_for_feature_list] makes before it looks
    at the first feature. *)
Definition loading_calls (self : DecisionService.t)
    (user_context : OptimizelyUserContext.t) (options : option (list string))
    : list UserProfileService.Call :=
  match DecisionService.user_profile_service self with
  | Some service =>
      if DecisionService.option_in IGNORE_USER_PROFILE_SERVICE options then []
      else [UserProfileService.Lookup (OptimizelyUserContext.user_id user_context)]
  | None => []
  end.

(** No call of the list is a save. *)
Definition never_saves (calls : list UserProfileService.Call) : Prop :=
  ∀ profile, UserProfileService.Save profile ∉ calls.

(** A decision with the given experiment, variation and source. *)
Definition decision_of (e : Experiment.t) (v : Variation.t) (s : DecisionSource)
    : Decision :=
  {| experiment := Some e; variation := Some v; source := Some s |}.

(** A second sample: the collaborators of [Sample], except that the
    bucketer now puts nobody anywhere. *)
Module Scenario.

Definition no_traffic : Collaborators :=
  {| bucket := λ _ _ _ _, (None, []);
     does_user_meet_audience_conditions :=
       @does_user_meet_audience_conditions Sample.collaborators;
     is_experiment_running := @is_experiment_running Sample.collaborators;
     str_of_variation := Variation.key;
     str_of_experiment := Experiment.key;
     USER_HAS_FORCED_DECISION_WITH_RULE_SPECIFIED :=
       @USER_HAS_FORCED_DECISION_WITH_RULE_SPECIFIED Sample.collaborators;
     USER_HAS_FORCED_DECISION_WITHOUT_RULE_SPECIFIED :=
       @USER_HAS_FORCED_DECISION_WITHOUT_RULE_SPECIFIED Sample.collaborators;
     USER_HAS_FORCED_DECISION_WITH_RULE_SPECIFIED_BUT_INVALID :=
       @USER_HAS_FORCED_DECISION_WITH_RULE_SPECIFIED_BUT_INVALID Sample.collaborators;
     USER_HAS_FORCED_DECISION_WITHOUT_RULE_SPECIFIED_BUT_INVALID :=
       @USER_HAS_FORCED_DECISION_WITHOUT_RULE_SPECIFIED_BUT_INVALID Sample.collaborators;
     load_user_profile_reasons := λ _, [] |}.

(** A service without a user profile service and with an empty store. *)
Definition bare_service : DecisionService.t :=
  {| DecisionService.user_profile_service := None;
     DecisionService.forced_variation_map := ∅ |}.

(** A user with a forced decision for one flag and rule. *)
Definition forced_user (user_id flag_key rule_key variation_key : string)
    : OptimizelyUserContext.t :=
  {| OptimizelyUserContext.user_id := user_id;
     OptimizelyUserContext.get_user_attributes := ∅;
     OptimizelyUserContext.get_forced_decision := λ context,
       if bool_decide (OptimizelyUserContext.flag_key context = flag_key
                       ∧ OptimizelyUserContext.rule_key context = Some rule_key)
       then Some {| OptimizelyUserContext.variation_key := variation_key |}
       else None |}.

(** A flag whose only experiment is the paused one. *)
Definition flag_paused : FeatureFlag.t :=
  {| FeatureFlag.id := "f3"; FeatureFlag.key := "flag_paused";
     FeatureFlag.rolloutId := "";
     FeatureFlag.experimentIds := ["e0"] |}.

(** A flag whose experiment ids are not in the datafile. *)
Definition flag_stale : FeatureFlag.t :=
  {| FeatureFlag.id := "f4"; FeatureFlag.key := "flag_stale";
     FeatureFlag.rolloutId := "rollout_1";
     FeatureFlag.experimentIds := ["e8"; "e9"] |}.

(** Collaborators for which nobody is in the audience of any rollout rule. *)
Definition no_audience : Collaborators :=
  {| bucket := @bucket Sample.collaborators;
     does_user_meet_audience_conditions := λ _ _ _ _ _, (false, []);
     is_experiment_running := @is_experiment_running Sample.collaborators;
     str_of_variation := Variation.key;
     str_of_experiment := Experiment.key;
     USER_HAS_FORCED_DECISION_WITH_RULE_SPECIFIED :=
       @USER_HAS_FORCED_DECISION_WITH_RULE_SPECIFIED Sample.collaborators;
     USER_HAS_FORCED_DECISION_WITHOUT_RULE_SPECIFIED :=
       @USER_HAS_FORCED_DECISION_WITHOUT_RULE_SPECIFIED Sample.collaborators;
     USER_HAS_FORCED_DECISION_WITH_RULE_SPECIFIED_BUT_INVALID :=
       @USER_HAS_FORCED_DECISION_WITH_RULE_SPECIFIED_BUT_INVALID Sample.collaborators;
     USER_HAS_FORCED_DECISION_WITHOUT_RULE_SPECIFIED_BUT_INVALID :=
       @USER_HAS_FORCED_DECISION_WITHOUT_RULE_SPECIFIED_BUT_INVALID Sample.collaborators;
     load_user_profile_reasons := λ _, [] |}.

(** Collaborators for which the audience of the second rule of a rollout,
    and of no other rule, has every user in it. *)
Definition second_rule_only : Collaborators :=
  {| bucket := @bucket Sample.collaborators;
     does_user_meet_audience_conditions := λ _ _ _ logging_key _,
       (String.eqb logging_key "2", []);
     is_experiment_running := @is_experiment_running Sample.collaborators;
     str_of_variation := Variation.key;
     str_of_experiment := Experiment.key;
     USER_HAS_FORCED_DECISION_WITH_RULE_SPECIFIED :=
       @USER_HAS_FORCED_DECISION_WITH_RULE_SPECIFIED Sample.collaborators;
     USER_HAS_FORCED_DECISION_WITHOUT_RULE_SPECIFIED :=
       @USER_HAS_FORCED_DECISION_WITHOUT_RULE_SPECIFIED Sample.collaborators;
     USER_HAS_FORCED_DECISION_WITH_RULE_SPECIFIED_BUT_INVALID :=
       @USER_HAS_FORCED_DECISION_WITH_RULE_SPECIFIED_BUT_INVALID Sample.collaborators;
     USER_HAS_FORCED_DECISION_WITHOUT_RULE_SPECIFIED_BUT_INVALID :=
       @USER_HAS_FORCED_DECISION_WITHOUT_RULE_SPECIFIED_BUT_INVALID Sample.collaborators;
     load_user_profile_reasons := λ _, [] |}.

End Scenario.

(** * The override layers, read off the data *)

(** The entry of the forced-variation store for the user and the
    experiment that the key names, resolved in the config. *)
Definition store_entry (self : DecisionService.t) (project_config : ProjectConfig.t)
    (experiment_key user_id : string) : option Variation.t :=
  experiment_to_variation_map ← DecisionService.forced_variation_map self !! user_id;
  experiment ← ProjectConfig.get_experiment_from_key project_config experiment_key;
  variation_id ← experiment_to_variation_map !! Experiment.id experiment;
  ProjectConfig.get_variation_from_id project_config experiment_key variation_id.

(** The entry of the whitelist of the experiment for the user, resolved in
    the config. *)
Definition whitelist_entry (project_config : ProjectConfig.t)
    (experiment : Experiment.t) (user_id : string) : option Variation.t :=
  forced_variation_key ← Experiment.forcedVariations experiment !! user_id;
  ProjectConfig.get_variation_from_key project_config (Experiment.key experiment)
    forced_variation_key.

(** The caller asked to ignore the user profile service. *)
Definition ignores_profile (options : option (list string)) : bool :=
  match options with
  | Some given => bool_decide (IGNORE_USER_PROFILE_SERVICE ∈ given)
  | None => false
  end.

(** The variation id that the profile of the tracker holds for the
    experiment, when it is not empty, resolved in the config; nothing
    without a tracker or for a caller who ignores the profile. *)
Definition profile_entry (project_config : ProjectConfig.t)
    (experiment : Experiment.t) (user_profile_tracker : option UserProfileTracker.t)
    (options : option (list string)) : option Variation.t :=
  tracker ← user_profile_tracker;
  if ignores_profile options then None
  else
    variation_id ← UserProfile.experiment_bucket_map
                      (UserProfileTracker.user_profile tracker)
                    !! Experiment.id experiment;
    if bool_decide (variation_id = "") then None
    else ProjectConfig.get_variation_from_id project_config (Experiment.key experiment)
           variation_id.

(** The bucketing id of the user: the reserved attribute when it is a
    string, the user id otherwise. *)
Definition bucketing_id_of (user_context : OptimizelyUserContext.t) : string :=
  match OptimizelyUserContext.get_user_attributes user_context !! BUCKETING_ID with
  | Some (AttrStr bucketing_id) => bucketing_id
  | _ => OptimizelyUserContext.user_id user_context
  end.

(** What the bucketer gives the user, under the bucketing id, when the
    audience evaluator lets the user in. *)
Definition bucketing_entry `{Collaborators} (project_config : ProjectConfig.t)
    (experiment : Experiment.t) (user_context : OptimizelyUserContext.t)
    : option Variation.t :=
  if (does_user_meet_audience_conditions project_config
        (Experiment.get_audience_conditions_or_ids experiment)
        ExperimentAudienceEvaluationLogs (Experiment.key experiment) user_context).1
  then
    (bucket project_config experiment (OptimizelyUserContext.user_id user_context)
       (bucketing_id_of user_context)).1
  else None.

(** What the last rule of a rollout, resolved in the config, decides for a
    user without a forced decision for it: its bucketed variation when the
    user is in its audience, evaluated as "Everyone Else", and nothing
    otherwise. *)
Definition everyone_else_decision `{Collaborators} (project_config : ProjectConfig.t)
    (user_context : OptimizelyUserContext.t) (last last_rule : Experiment.t)
    : Decision :=
  match
    (if meets_rule_audience project_config user_context last_rule "Everyone Else"
     then bucketed_in_rule project_config user_context last_rule
     else None)
  with
  | Some v => decision_of last v ROLLOUT
  | None => DecisionService.no_rollout_decision
  end.


(** * Properties *)

(** ** The rollout decision resolver *)

Section RolloutResolver.
Context `{Collaborators}.

Implicit Types (project_config : ProjectConfig.t) (feature : FeatureFlag.t)
  (user_context : OptimizelyUserContext.t) (rollout_rules : list Experiment.t)
  (rule : Experiment.t) (decide_reasons : list string).

(** A turn of the loop that returns gives a well-formed decision for the
    rule it looked at. *)
Lemma rollout_rule_body_returns project_config feature user_context rollout_rules
    index rule decide_reasons d decide_reasons' :
  DecisionService.rollout_rule_body project_config feature user_context rollout_rules
    index rule decide_reasons = DecisionService.Returns d decide_reasons' →
  source d = Some ROLLOUT ∧ experiment d = Some rule ∧ is_Some (variation d).
Proof. intros Hbody. split_rule_body; eauto. Qed.

(** A turn of the loop on a rule that resolves moves the index forward:
    by one, or to the last rule from a rule before it. *)
Lemma rollout_rule_body_advances project_config feature user_context rollout_rules
    index rule decide_reasons index' decide_reasons' :
  rule_resolves project_config rule →
  DecisionService.rollout_rule_body project_config feature user_context rollout_rules
    index rule decide_reasons = DecisionService.LoopsWith index' decide_reasons' →
  index' = index + 1
  ∨ (index' = length rollout_rules - 1 ∧ index ≠ length rollout_rules - 1).
Proof.
  intros [rollout_rule Hresolves] Hbody. split_rule_body; eauto.
  right. split; [done|]. by eapply bool_decide_eq_false_1.
Qed.

(** A turn of the loop on a rule that does not resolve, for a user without
    a forced decision for it, comes back to the loop test with the same
    index. *)
Lemma rollout_rule_body_unresolved project_config feature user_context rollout_rules
    index rule decide_reasons :
  forced_decision_at project_config feature user_context rule = None →
  ProjectConfig.get_experiment_from_id project_config (Experiment.id rule) = None →
  ∃ decide_reasons',
    DecisionService.rollout_rule_body project_config feature user_context rollout_rules
      index rule decide_reasons = DecisionService.LoopsWith index decide_reasons'.
Proof. intros Hforced Hunresolved. split_rule_body; eauto. Qed.

(** From such a rule the loop never comes to an end. *)
Lemma rollout_loop_spins project_config feature user_context rollout_rules index rule :
  rollout_rules !! index = Some rule →
  forced_decision_at project_config feature user_context rule = None →
  ProjectConfig.get_experiment_from_id project_config (Experiment.id rule) = None →
  ∀ fuel decide_reasons,
    DecisionService.rollout_loop fuel project_config feature user_context rollout_rules
      index decide_reasons = None.
Proof.
  intros Hrule Hforced Hunresolved fuel.
  induction fuel as [|fuel IH]; intros decide_reasons; [done|].
  simpl. rewrite Hrule.
  destruct (rollout_rule_body_unresolved project_config feature user_context
              rollout_rules index rule decide_reasons Hforced Hunresolved)
    as [decide_reasons' ->].
  apply IH.
Qed.

(** When every rule resolves, the loop is over after at most one turn per
    rule left, plus the turn that finds the index out of range. *)
Lemma rollout_loop_returns project_config feature user_context rollout_rules :
  Forall (rule_resolves project_config) rollout_rules →
  ∀ fuel index decide_reasons,
    length rollout_rules - index < fuel →
    is_Some (DecisionService.rollout_loop fuel project_config feature user_context
               rollout_rules index decide_reasons).
Proof.
  intros Hresolve fuel.
  induction fuel as [|fuel IH]; intros index decide_reasons Hfuel; [lia|].
  simpl. destruct (rollout_rules !! index) as [rule|] eqn:Hrule; [|eauto].
  pose proof (lookup_lt_Some _ _ _ Hrule) as Hindex.
  assert (rule_resolves project_config rule) as Hrule_resolves.
  { eapply Forall_lookup_1; eauto. }
  destruct (DecisionService.rollout_rule_body _ _ _ _ _ _ _)
    as [d r | index' r] eqn:Hbody; [eauto|].
  apply IH.
  destruct (rollout_rule_body_advances _ _ _ _ _ _ _ _ _ Hrule_resolves Hbody)
    as [-> | [-> Hnot_last]]; lia.
Qed.

(** Every decision that leaves the loop is well formed. *)
Lemma rollout_loop_wf project_config feature user_context rollout_rules :
  ∀ fuel index decide_reasons d decide_reasons',
    DecisionService.rollout_loop fuel project_config feature user_context
      rollout_rules index decide_reasons = Some (d, decide_reasons') →
    rollout_decision_wf d.
Proof.
  intros fuel. induction fuel as [|fuel IH]; intros index r d r' Hloop; [done|].
  simpl in Hloop. destruct (rollout_rules !! index) as [rule|].
  - destruct (DecisionService.rollout_rule_body _ _ _ _ _ _ _)
      as [d0 r0 | index' r0] eqn:Hbody.
    + simplify_eq. apply rollout_rule_body_returns in Hbody as (Hsrc & Hexp & Hvar).
      split; [done|]. left. by rewrite Hexp.
    + by eapply IH.
  - simplify_eq. split; [done|]. by right.
Qed.

(** The last rule is looked at in the same way whatever stands before it:
    as the only rule of a rollout. *)
Lemma rollout_rule_body_last project_config feature user_context front last
    decide_reasons :
  rule_resolves project_config last →
  match DecisionService.rollout_rule_body project_config feature user_context
          (front ++ [last]) (length front) last decide_reasons with
  | DecisionService.Returns d r =>
      DecisionService.rollout_rule_body project_config feature user_context
        [last] 0 last decide_reasons = DecisionService.Returns d r
  | DecisionService.LoopsWith index r =>
      index = length front + 1
      ∧ DecisionService.rollout_rule_body project_config feature user_context
          [last] 0 last decide_reasons = DecisionService.LoopsWith 1 r
  end.
Proof.
  intros [rollout_rule Hresolves].
  unfold DecisionService.rollout_rule_body.
  rewrite length_app; simpl.
  rewrite (bool_decide_eq_true_2 (length front = length front + 1 - 1)) by lia.
  rewrite Hresolves.
  repeat case_match; simplify_eq/=; done.
Qed.

Lemma rollout_loop_last project_config feature user_context front last
    decide_reasons fuel :
  rule_resolves project_config last →
  DecisionService.rollout_loop (S (S fuel)) project_config feature user_context
    (front ++ [last]) (length front) decide_reasons
  = DecisionService.rollout_loop (S (S fuel)) project_config feature user_context
      [last] 0 decide_reasons.
Proof.
  intros Hresolves.
  pose proof (rollout_rule_body_last project_config feature user_context front last
                decide_reasons Hresolves) as Hbody.
  cbn [DecisionService.rollout_loop].
  rewrite list_lookup_middle by done. simpl ([last] !! 0).
  destruct (DecisionService.rollout_rule_body _ _ _ (front ++ [last]) _ _ _)
    as [d r | index r].
  - by rewrite Hbody.
  - destruct Hbody as [-> ->].
    rewrite lookup_ge_None_2 by (rewrite length_app; simpl; lia).
    done.
Qed.

Lemma rollout_loop_step fuel project_config feature user_context rollout_rules index
    decide_reasons :
  DecisionService.rollout_loop (S fuel) project_config feature user_context
    rollout_rules index decide_reasons
  = match rollout_rules !! index with
    | None => Some (DecisionService.no_rollout_decision, decide_reasons)
    | Some rule =>
        match DecisionService.rollout_rule_body project_config feature user_context
                rollout_rules index rule decide_reasons with
        | DecisionService.Returns d r => Some (d, r)
        | DecisionService.LoopsWith index' r =>
            DecisionService.rollout_loop fuel project_config feature user_context
              rollout_rules index' r
        end
    end.
Proof. reflexivity. Qed.

(** When the rollout of the feature has rules that all resolve, the
    resolver returns as soon as the fuel exceeds the number of rules. *)
Lemma get_variation_for_rollout_returns fuel project_config
    (feature : option FeatureFlag.t) user_context :
  (∀ rollout,
     Forall (rule_resolves project_config)
       (ProjectConfig.get_rollout_experiments project_config rollout)
     ∧ length (ProjectConfig.get_rollout_experiments project_config rollout) < fuel) →
  is_Some (DecisionService.get_variation_for_rollout fuel project_config feature
             user_context).
Proof.
  intros Hrules. unfold DecisionService.get_variation_for_rollout.
  destruct feature as [feature|]; [|eauto].
  destruct (negb _); [eauto|].
  destruct (ProjectConfig.get_rollout_from_id _ _) as [rollout|]; [|eauto].
  destruct (Hrules rollout) as [Hresolve Hfuel].
  destruct (ProjectConfig.get_rollout_experiments _ _) as [|rule rules] eqn:Hexps;
    [eauto|].
  apply rollout_loop_returns; [done | lia].
Qed.

(** What the loop gives on the last rule alone, for a user without a forced
    decision for it. *)
Lemma rollout_loop_everyone_else project_config feature user_context
    (last last_rule : Experiment.t) :
  forced_decision_at project_config feature user_context last = None →
  ProjectConfig.get_experiment_from_id project_config (Experiment.id last)
  = Some last_rule →
  ∀ (fuel : nat) decide_reasons,
    ∃ decide_reasons',
      DecisionService.rollout_loop (S (S fuel)) project_config feature user_context
        [last] 0 decide_reasons
      = Some (everyone_else_decision project_config user_context last last_rule,
              decide_reasons').
Proof.
  intros Hforced Hresolves fuel decide_reasons.
  rewrite rollout_loop_step. change ([last] !! 0) with (Some last).
  unfold DecisionService.rollout_rule_body, forced_decision_at,
    everyone_else_decision, meets_rule_audience, bucketed_in_rule, decision_of in *.
  destruct (DecisionService.validated_forced_decision _ _ _) as [forced r1].
  simpl in Hforced. subst forced.
  destruct (DecisionService._get_bucketing_id _ _) as [bucketing_id r2].
  rewrite Hresolves. cbn [fst snd length Nat.sub].
  rewrite (bool_decide_eq_true_2 (0 = 0)) by done.
  destruct (does_user_meet_audience_conditions _ _ _ _ _) as [[|] r3];
    cbn [fst snd negb].
  - destruct (bucket _ _ _ _) as [[v|] r4]; cbn [fst snd]; [eauto|].
    rewrite rollout_loop_step. change ([last] !! (0 + 1)) with (@None Experiment.t).
    eauto.
  - rewrite rollout_loop_step. change ([last] !! (0 + 1)) with (@None Experiment.t).
    eauto.
Qed.

(** C2: at a rule that is not the last one, for a user who has no forced
    decision for the rule and meets its audience conditions but is not
    bucketed, the turn of the loop sets the index to that of the last rule,
    and the resolver answers what the last rule alone answers: the rules in
    between, whatever they are and however many, are not looked at.  When
    the user has no forced decision for the last rule either, the decision
    is that of the last rule: its bucketed variation if the user is in its
    audience, evaluated as "Everyone Else", and the decision without
    experiment and variation otherwise. *)
Theorem failed_bucketing_jumps_to_everyone_else :
  ∀ project_config feature user_context (before : list Experiment.t)
    (rule last rollout_rule : Experiment.t) decide_reasons,
    forced_decision_at project_config feature user_context rule = None →
    ProjectConfig.get_experiment_from_id project_config (Experiment.id rule)
    = Some rollout_rule →
    meets_rule_audience project_config user_context rollout_rule
      (pretty (length before + 1)) = true →
    bucketed_in_rule project_config user_context rollout_rule = None →
    rule_resolves project_config last →
    ∃ decide_reasons',
      ∀ (skipped : list Experiment.t) (fuel : nat),
        let rollout_rules := before ++ rule :: skipped ++ [last] in
        DecisionService.rollout_rule_body project_config feature user_context
          rollout_rules (length before) rule decide_reasons
        = DecisionService.LoopsWith (length rollout_rules - 1) decide_reasons'
        ∧ DecisionService.rollout_loop (S (S (S fuel))) project_config feature
            user_context rollout_rules (length before) decide_reasons
          = DecisionService.rollout_loop (S (S fuel)) project_config feature
              user_context [last] 0 decide_reasons'
        ∧ (∀ last_rule,
             forced_decision_at project_config feature user_context last = None →
             ProjectConfig.get_experiment_from_id project_config (Experiment.id last)
             = Some last_rule →
             ∃ returned_reasons,
               DecisionService.rollout_loop (S (S (S fuel))) project_config feature
                 user_context rollout_rules (length before) decide_reasons
               = Some (everyone_else_decision project_config user_context last
                         last_rule,
                       returned_reasons)).
Proof.
  intros project_config feature user_context before rule last rollout_rule
    decide_reasons Hforced Hresolves Haudience Hbucket Hlast.
  unfold forced_decision_at, meets_rule_audience, bucketed_in_rule in *.
  destruct (DecisionService.validated_forced_decision _ _ _) as [fv r1] eqn:E1.
  destruct (DecisionService._get_bucketing_id _ _) as [bid r2] eqn:E2.
  destruct (does_user_meet_audience_conditions _ _ _ _ _) as [meets r3] eqn:E3.
  destruct (bucket _ _ _ _) as [bv r4] eqn:E4.
  simpl in Hforced, Haudience, Hbucket, E4. subst fv meets bv.
  exists
    ((((((decide_reasons ++ r1) ++ r2) ++ r3) ++
        ["User " +:+ quoted (OptimizelyUserContext.user_id user_context) +:+
         " meets audience conditions for targeting rule " +:+
         pretty (length before + 1) +:+ "."]) ++ r4) ++
      ["User " +:+ quoted (OptimizelyUserContext.user_id user_context) +:+
       " not bucketed into a targeting rule " +:+
       pretty (length before + 1) +:+ ". Checking " +:+
       quoted "Everyone Else" +:+ " rule now."]).
  intros skipped fuel.
  set (rollout_rules := before ++ rule :: skipped ++ [last]).
  assert (length rollout_rules = length before + length skipped + 2) as Hlen.
  { subst rollout_rules. rewrite length_app; simpl. rewrite length_app; simpl. lia. }
  match goal with |- ?body ∧ _ => assert body as Hbody end.
  { unfold DecisionService.rollout_rule_body. rewrite E1, E2.
    rewrite bool_decide_eq_false_2 by lia.
    rewrite Hresolves, E3, E4. reflexivity. }
  split; [exact Hbody|].
  match goal with |- ?jump ∧ _ => assert jump as Hjump end.
  { rewrite rollout_loop_step.
    subst rollout_rules. rewrite list_lookup_middle by done. rewrite Hbody.
    replace (before ++ rule :: skipped ++ [last])
      with ((before ++ rule :: skipped) ++ [last]) by by rewrite <- app_assoc.
    replace (length ((before ++ rule :: skipped) ++ [last]) - 1)
      with (length (before ++ rule :: skipped)) by (rewrite !length_app; simpl; lia).
    by apply rollout_loop_last. }
  split; [exact Hjump|].
  intros last_rule Hlast_forced Hlast_resolves. rewrite Hjump.
  by apply rollout_loop_everyone_else.
Qed.

(** C9: a decision returned by [get_variation_for_rollout] has source
    [ROLLOUT]; it names both an experiment and a variation, or neither; it
    never names a variation without an experiment. *)
Theorem rollout_decision_names_both_or_neither :
  ∀ (fuel : nat) project_config (feature : option FeatureFlag.t) user_context
    (d : Decision) decide_reasons,
    DecisionService.get_variation_for_rollout fuel project_config feature user_context
    = Some (d, decide_reasons) →
    source d = Some ROLLOUT
    ∧ ((is_Some (experiment d) ∧ is_Some (variation d))
       ∨ (experiment d = None ∧ variation d = None))
    ∧ ¬ (is_Some (variation d) ∧ experiment d = None).
Proof.
  intros fuel project_config feature user_context d decide_reasons Hreturned.
  assert (rollout_decision_wf d) as [Hsource Hboth].
  { unfold DecisionService.get_variation_for_rollout in Hreturned.
    assert (rollout_decision_wf DecisionService.no_rollout_decision) as Hterminal.
    { split; [done | by right]. }
    repeat case_match; simplify_eq; try done.
    by eapply rollout_loop_wf. }
  split; [done | split; [done|]].
  intros [[v Hv] Hexp]. destruct Hboth as [[[e He] _] | [_ Hnone]]; congruence.
Qed.

End RolloutResolver.

(** ** The bucketing id *)

Section BucketingId.

(** C8, as stated, fails: an attribute dictionary that binds the reserved
    key to [None] has the attribute, its value is not a string, and yet no
    warning reason is appended. *)
Lemma bucketing_id_null_attribute_no_warning :
  ¬ (∀ (user_id : string) (attributes : UserAttributes) (v : AttributeValue),
        attributes !! BUCKETING_ID = Some v →
        is_str v = false →
        (DecisionService._get_bucketing_id user_id (Some attributes)).2
        = [not_a_string_warning]).
Proof.
  intros claim.
  specialize (claim "user_1" {[BUCKETING_ID := AttrNone]} AttrNone).
  rewrite lookup_singleton_eq in claim.
  specialize (claim eq_refl eq_refl).
  vm_compute in claim. discriminate claim.
Qed.

(** C8, amended: the bucketing id is the value of the reserved attribute
    when it is present and a string (no reason is added); otherwise it is
    the user id; the warning is the one reason added when the attribute is
    bound to a value that is neither a string nor [None], and no reason is
    added when it is absent or bound to [None]. *)
Theorem bucketing_id_from_attribute_or_user :
  ∀ (user_id : string) (attributes : option UserAttributes),
    let result := DecisionService._get_bucketing_id user_id attributes in
    (∀ s, bucketing_attribute attributes = Some (AttrStr s) → result = (s, []))
    ∧ ((∀ s, bucketing_attribute attributes ≠ Some (AttrStr s)) → result.1 = user_id)
    ∧ (∀ v, bucketing_attribute attributes = Some v → is_str v = false →
            v ≠ AttrNone → result = (user_id, [not_a_string_warning]))
    ∧ (bucketing_attribute attributes = None ∨
       bucketing_attribute attributes = Some AttrNone → result = (user_id, [])).
Proof.
  intros user_id attributes result. subst result.
  unfold bucketing_attribute, DecisionService._get_bucketing_id.
  destruct (default ∅ attributes !! BUCKETING_ID) as [v|] eqn:Hget; simpl.
  - repeat split.
    + intros s [= ->]. reflexivity.
    + intros Hnot. destruct v; try reflexivity. by destruct (Hnot s).
    + intros v' [= <-] Hstr Hnone. destruct v; try done.
    + intros [Habs | [= ->]]; [discriminate Habs | reflexivity].
  - repeat split; try done.
Qed.

Lemma bucketing_id_from_attribute_or_user_witness :
  DecisionService._get_bucketing_id "user_1"
    (Some {[BUCKETING_ID := AttrStr "bucket_7"]}) = ("bucket_7", [])
  ∧ DecisionService._get_bucketing_id "user_1"
      (Some {[BUCKETING_ID := AttrInt 7]}) = ("user_1", [not_a_string_warning])
  ∧ DecisionService._get_bucketing_id "user_1"
      (Some {[BUCKETING_ID := AttrNone]}) = ("user_1", [])
  ∧ (DecisionService._get_bucketing_id "user_1" None).1 = "user_1".
Proof.
  split; [|split; [|split]].
  - apply (bucketing_id_from_attribute_or_user "user_1"
             (Some {[BUCKETING_ID := AttrStr "bucket_7"]})).
    reflexivity.
  - apply (bucketing_id_from_attribute_or_user "user_1"
             (Some {[BUCKETING_ID := AttrInt 7]}) ) with (v := AttrInt 7);
      [reflexivity | reflexivity | discriminate].
  - apply (bucketing_id_from_attribute_or_user "user_1"
             (Some {[BUCKETING_ID := AttrNone]})).
    right. reflexivity.
  - apply (bucketing_id_from_attribute_or_user "user_1" None).
    intros s. discriminate.
Defined.

End BucketingId.

(** ** The forced-variation store *)

Section ForcedVariationStore.

Implicit Types (self : DecisionService.t) (project_config : ProjectConfig.t).

Lemma stored_mapping_delete self user_id experiment_id m u e :
  DecisionService.forced_variation_map self !! user_id = Some m →
  stored_mapping
    (DecisionService.with_forced_variation_map self
       (<[user_id := delete experiment_id m]> (DecisionService.forced_variation_map self)))
    u e
  = if bool_decide (u = user_id ∧ e = experiment_id) then None
    else stored_mapping self u e.
Proof.
  intros Hm. unfold stored_mapping; simpl.
  destruct (decide (u = user_id)) as [->|Hu].
  - rewrite lookup_insert_eq, Hm; simpl.
    destruct (decide (e = experiment_id)) as [->|He].
    + rewrite bool_decide_eq_true_2 by done. apply lookup_delete_eq.
    + rewrite bool_decide_eq_false_2 by (intros [_ ?]; done).
      by apply lookup_delete_ne.
  - rewrite bool_decide_eq_false_2 by (intros [? _]; done).
    by rewrite lookup_insert_ne.
Qed.

(** C4: an unknown experiment key, and a variation key that is given but
    empty or unknown for the experiment, make [set_forced_variation] answer
    [False] and leave the store as it was; a [None] variation key with a
    known experiment key answers [True], after which the store holds no
    mapping for the user and the experiment, every other mapping is as
    before, and the store is untouched when there was nothing to delete. *)
Theorem set_forced_variation_rejects_and_clears :
  ∀ self project_config (experiment_key user_id : string)
    (variation_key : option string),
    let result :=
      DecisionService.set_forced_variation self project_config experiment_key
        user_id variation_key in
    (ProjectConfig.get_experiment_from_key project_config experiment_key = None →
       result = (false, self))
    ∧ (∀ k, variation_key = Some k →
         k = "" ∨
         ProjectConfig.get_variation_from_key project_config experiment_key k = None →
         result = (false, self))
    ∧ (∀ e, ProjectConfig.get_experiment_from_key project_config experiment_key = Some e →
         variation_key = None →
         result.1 = true
         ∧ stored_mapping result.2 user_id (Experiment.id e) = None
         ∧ (∀ u x, ¬ (u = user_id ∧ x = Experiment.id e) →
              stored_mapping result.2 u x = stored_mapping self u x)
         ∧ (stored_mapping self user_id (Experiment.id e) = None → result.2 = self)).
Proof.
  intros self project_config experiment_key user_id variation_key result.
  subst result. unfold DecisionService.set_forced_variation.
  split; [|split].
  - intros ->. reflexivity.
  - intros k -> Hbad.
    destruct (ProjectConfig.get_experiment_from_key _ _) as [e|]; [|reflexivity].
    destruct Hbad as [-> | Hunknown]; [reflexivity|].
    rewrite Hunknown. by destruct (negb _).
  - intros e -> ->.
    destruct (DecisionService.forced_variation_map self !! user_id) as [m|] eqn:Hm.
    + destruct (m !! Experiment.id e) as [vid|] eqn:Hvid; simpl.
      * repeat split.
        -- rewrite (stored_mapping_delete _ _ _ m) by done.
           by rewrite bool_decide_eq_true_2.
        -- intros u x Hne. rewrite (stored_mapping_delete _ _ _ m) by done.
           by rewrite bool_decide_eq_false_2.
        -- unfold stored_mapping. rewrite Hm; simpl. rewrite Hvid. discriminate.
      * repeat split; try done.
        unfold stored_mapping. rewrite Hm; simpl. done.
    + simpl. repeat split; try done.
      unfold stored_mapping. by rewrite Hm.
Qed.

End ForcedVariationStore.

(** ** The experiment decision resolver *)

Section ExperimentResolver.
Context `{Collaborators}.

Implicit Types (self : DecisionService.t) (project_config : ProjectConfig.t).


(** The layers that [get_variation] consults are the entries of the data. *)
Lemma get_forced_variation_is_store_entry self project_config
    (experiment_key user_id : string) :
  (DecisionService.get_forced_variation self project_config experiment_key user_id).1
  = store_entry self project_config experiment_key user_id.
Proof.
  unfold DecisionService.get_forced_variation, store_entry.
  destruct (DecisionService.forced_variation_map self !! user_id) as [m|]; [|done].
  simpl.
  destruct (ProjectConfig.get_experiment_from_key _ _) as [e|]; [|done]. simpl.
  case_bool_decide as Hempty; [by rewrite Hempty, lookup_empty|].
  destruct (m !! Experiment.id e) as [variation_id|]; [|done]. simpl.
  by destruct (ProjectConfig.get_variation_from_id _ _ _).
Qed.

Lemma get_whitelisted_variation_is_whitelist_entry project_config
    (experiment : Experiment.t) (user_id : string) :
  (DecisionService.get_whitelisted_variation project_config experiment user_id).1
  = whitelist_entry project_config experiment user_id.
Proof.
  unfold DecisionService.get_whitelisted_variation, whitelist_entry.
  destruct (Experiment.forcedVariations experiment !! user_id) as [key|]; [|done].
  simpl. by destruct (ProjectConfig.get_variation_from_key _ _ _).
Qed.

Lemma option_in_is_ignores_profile (options : option (list string)) :
  DecisionService.option_in IGNORE_USER_PROFILE_SERVICE options
  = ignores_profile options.
Proof.
  unfold DecisionService.option_in, ignores_profile.
  destruct options as [[|option given]|]; [|done..].
  symmetry. apply bool_decide_eq_false_2, not_elem_of_nil.
Qed.

Lemma profile_layer_is_profile_entry project_config (experiment : Experiment.t)
    (user_profile_tracker : option UserProfileTracker.t)
    (options : option (list string)) :
  profile_layer project_config experiment user_profile_tracker options
  = profile_entry project_config experiment user_profile_tracker options.
Proof.
  unfold profile_layer, profile_entry, DecisionService.get_stored_variation,
    UserProfile.get_variation_for_experiment, UserProfileTracker.get_user_profile,
    DecisionService.str_truthy.
  rewrite option_in_is_ignores_profile.
  destruct user_profile_tracker as [tracker|]; [|done]. simpl.
  destruct (ignores_profile options); [done|].
  destruct (UserProfile.experiment_bucket_map _ !! _) as [variation_id|]; [|done].
  cbn [mbind option_bind].
  destruct (String.eqb_spec variation_id "") as [->|Hid]; cbn [negb].
  - by rewrite bool_decide_eq_true_2.
  - by rewrite bool_decide_eq_false_2.
Qed.

Lemma bucketing_layer_is_bucketing_entry project_config (experiment : Experiment.t)
    (user_context : OptimizelyUserContext.t) :
  bucketing_layer project_config experiment user_context
  = bucketing_entry project_config experiment user_context.
Proof.
  unfold bucketing_layer, bucketing_entry, bucketing_id_of,
    DecisionService._get_bucketing_id. simpl.
  destruct (does_user_meet_audience_conditions _ _ _ _ _) as [[|] r]; [|done].
  simpl.
  by destruct (OptimizelyUserContext.get_user_attributes user_context !! BUCKETING_ID)
    as [[| | | |]|].
Qed.

(** C1: for a running experiment, [get_variation] returns the variation of
    the first of four layers that yields one, in the order: the entry of
    the forced-variation store for the user and the experiment, the entry of
    the whitelist of the experiment for the user, the decision stored in
    the profile, audience evaluation and bucketing, each read off the data;
    the tracker is written only when the last layer decides.  So a store
    entry that resolves in the config is the variation returned whatever the
    whitelist, the profile and the audience conditions say; without one, a
    whitelist entry that resolves is returned whatever the profile and the
    audience say; without either, a stored decision that resolves is
    returned whatever the audience says. *)
Theorem get_variation_precedence :
  ∀ self project_config (experiment : Experiment.t)
    (user_context : OptimizelyUserContext.t)
    (user_profile_tracker : option UserProfileTracker.t)
    (reasons options : option (list string)),
    is_experiment_running experiment = true →
    let user_id := OptimizelyUserContext.user_id user_context in
    let store :=
      store_entry self project_config (Experiment.key experiment) user_id in
    let whitelist := whitelist_entry project_config experiment user_id in
    let profile := profile_entry project_config experiment user_profile_tracker options in
    let bucketing := bucketing_entry project_config experiment user_context in
    let result :=
      DecisionService.get_variation self project_config experiment user_context
        user_profile_tracker reasons options in
    result.1.1 = first_hit [store; whitelist; profile; bucketing]
    ∧ (is_Some (first_hit [store; whitelist; profile]) → result.2 = user_profile_tracker)
    ∧ (∀ m variation_id v,
         DecisionService.forced_variation_map self !! user_id = Some m →
         ProjectConfig.get_experiment_from_key project_config (Experiment.key experiment)
         = Some experiment →
         m !! Experiment.id experiment = Some variation_id →
         ProjectConfig.get_variation_from_id project_config (Experiment.key experiment)
           variation_id = Some v →
         result.1.1 = Some v)
    ∧ (∀ forced_variation_key v,
         store = None →
         Experiment.forcedVariations experiment !! user_id = Some forced_variation_key →
         ProjectConfig.get_variation_from_key project_config (Experiment.key experiment)
           forced_variation_key = Some v →
         result.1.1 = Some v)
    ∧ (∀ tracker variation_id v,
         store = None →
         whitelist = None →
         user_profile_tracker = Some tracker →
         ignores_profile options = false →
         UserProfile.experiment_bucket_map (UserProfileTracker.user_profile tracker)
         !! Experiment.id experiment = Some variation_id →
         variation_id ≠ "" →
         ProjectConfig.get_variation_from_id project_config (Experiment.key experiment)
           variation_id = Some v →
         result.1.1 = Some v).
Proof.
  intros self project_config experiment user_context user_profile_tracker
    reasons options Hrunning user_id store whitelist profile bucketing result.
  assert (Hfirst : result.1.1 = first_hit [store; whitelist; profile; bucketing]
                   ∧ (is_Some (first_hit [store; whitelist; profile]) →
                      result.2 = user_profile_tracker)).
  { subst result store whitelist profile bucketing.
    rewrite <- get_forced_variation_is_store_entry,
      <- get_whitelisted_variation_is_whitelist_entry,
      <- profile_layer_is_profile_entry, <- bucketing_layer_is_bucketing_entry.
    unfold DecisionService.get_variation, bucketing_layer, profile_layer.
    rewrite Hrunning; simpl. fold user_id.
    destruct (DecisionService.get_forced_variation _ _ _ _) as [[v1|] r1]; simpl;
      [by split|].
    destruct (DecisionService.get_whitelisted_variation _ _ _) as [[v2|] r2]; simpl;
      [by split|].
    set (stored := match user_profile_tracker with Some _ => _ | None => _ end).
    set (stored' := match user_profile_tracker with Some _ => _ | None => _ end).
    assert (stored = stored') as ->.
    { subst stored stored'. destruct user_profile_tracker; [|done].
      by destruct (DecisionService.option_in _ _). }
    destruct stored' as [v3|]; simpl; [by split|].
    destruct (does_user_meet_audience_conditions _ _ _ _ _) as [[|] r4]; simpl.
    - destruct (DecisionService._get_bucketing_id _ _) as [bid r5]; simpl.
      destruct (bucket _ _ _ _) as [[v6|] r6]; simpl;
        (split; [done | by intros [? [=]]]).
    - split; [done | by intros [? [=]]]. }
  destruct Hfirst as [Hfirst Htracker].
  split; [done | split; [done | split; [|split]]].
  - intros m variation_id v Hm He Hid Hv. rewrite Hfirst.
    subst store. unfold store_entry. fold user_id in Hm.
    rewrite Hm. simpl. rewrite He. simpl. rewrite Hid. simpl. by rewrite Hv.
  - intros forced_variation_key v Hstore Hkey Hv. rewrite Hfirst, Hstore.
    subst whitelist. unfold whitelist_entry. rewrite Hkey. simpl. by rewrite Hv.
  - intros tracker variation_id v Hstore Hwhitelist -> Hignore Hstored Hid Hv.
    rewrite Hfirst, Hstore, Hwhitelist.
    subst profile. unfold profile_entry. simpl. rewrite Hignore, Hstored. simpl.
    rewrite bool_decide_eq_false_2 by done. by rewrite Hv.
Qed.

(** The reasons handed to [get_variation] only show up in the reasons
    handed back. *)
Lemma get_variation_reasons_irrelevant self project_config experiment user_context
    user_profile_tracker reasons options :
  let given :=
    DecisionService.get_variation self project_config experiment user_context
      user_profile_tracker reasons options in
  let bare :=
    DecisionService.get_variation self project_config experiment user_context
      user_profile_tracker None options in
  given.1.1 = bare.1.1 ∧ given.2 = bare.2.
Proof.
  unfold DecisionService.get_variation. simpl.
  repeat case_match; simplify_eq/=; done.
Qed.

(** [get_variation] hands back a tracker when it was given one. *)
Lemma get_variation_keeps_tracker self project_config experiment user_context
    user_profile_tracker reasons options :
  is_Some user_profile_tracker →
  is_Some (DecisionService.get_variation self project_config experiment user_context
             user_profile_tracker reasons options).2.
Proof.
  intros [tracker ->]. unfold DecisionService.get_variation.
  repeat case_match; simplify_eq/=; eauto.
Qed.

End ExperimentResolver.

(** ** The feature decision orchestrator *)

Section Orchestrator.
Context `{Collaborators}.

Implicit Types (self : DecisionService.t) (project_config : ProjectConfig.t)
  (feature : FeatureFlag.t) (user_context : OptimizelyUserContext.t)
  (options : option (list string)) (tracker : option UserProfileTracker.t).

(** One turn of the loop over the experiment ids, seen through
    [try_experiment]. *)
Lemma experiments_loop_cons self project_config feature user_context options
    experiment_id experimentIds tracker feature_reasons :
  let tried :=
    try_experiment self project_config feature user_context options tracker
      experiment_id in
  let looped :=
    DecisionService.experiments_loop self project_config feature user_context options
      (experiment_id :: experimentIds) tracker feature_reasons in
  match tried.1 with
  | Some (e, v) =>
      looped.1.1 = Some {| experiment := Some e; variation := Some v;
                           source := Some FEATURE_TEST |}
      ∧ looped.2 = tried.2
  | None =>
      ∃ feature_reasons',
        looped = DecisionService.experiments_loop self project_config feature
                   user_context options experimentIds tried.2 feature_reasons'
  end.
Proof.
  unfold try_experiment, forced_decision_at. simpl.
  destruct (ProjectConfig.get_experiment_from_id _ _) as [e|]; simpl; [|eauto].
  destruct (DecisionService.validated_forced_decision _ _ _) as [[v|] r]; simpl;
    [done|].
  pose proof (get_variation_reasons_irrelevant self project_config e user_context
                tracker (Some (feature_reasons ++ r)) options) as [Hvar Htracker].
  simpl in Hvar, Htracker.
  destruct (DecisionService.get_variation _ _ _ _ _ (Some _) _) as [[v1 r1] t1].
  destruct (DecisionService.get_variation _ _ _ _ _ None _) as [[v2 r2] t2].
  simpl in *. subst v2 t2.
  destruct v1 as [v|]; simpl; eauto.
Qed.

(** The loop over the experiment ids finds the first match. *)
Lemma experiments_loop_first_match self project_config feature user_context options :
  ∀ experimentIds tracker feature_reasons,
    let looped :=
      DecisionService.experiments_loop self project_config feature user_context
        options experimentIds tracker feature_reasons in
    first_match self project_config feature user_context options experimentIds
      tracker looped.1.1 looped.2.
Proof.
  intros experimentIds.
  induction experimentIds as [|experiment_id experimentIds IH];
    intros tracker feature_reasons; cbv zeta.
  - constructor.
  - pose proof (experiments_loop_cons self project_config feature user_context options
                  experiment_id experimentIds tracker feature_reasons) as Hcons.
    cbv zeta in Hcons.
    destruct (try_experiment _ _ _ _ _ _ _) as [[[e v]|] tracker'] eqn:Htry;
      cbn [fst snd] in Hcons.
    + destruct Hcons as [-> ->]. by eapply first_match_hit.
    + destruct Hcons as [feature_reasons' ->].
      eapply first_match_miss; [done|]. apply IH.
Qed.

(** The loop over the experiment ids hands back a tracker when it was given
    one. *)
Lemma experiments_loop_keeps_tracker self project_config feature user_context options :
  ∀ experimentIds tracker feature_reasons,
    is_Some tracker →
    is_Some (DecisionService.experiments_loop self project_config feature user_context
               options experimentIds tracker feature_reasons).2.
Proof.
  intros experimentIds.
  induction experimentIds as [|experiment_id experimentIds IH];
    intros tracker feature_reasons Htracker; [done|].
  simpl. destruct (ProjectConfig.get_experiment_from_id _ _) as [e|]; [|by apply IH].
  destruct (DecisionService.validated_forced_decision _ _ _) as [[v|] r]; [done|].
  pose proof (get_variation_keeps_tracker self project_config e user_context tracker
                (Some (feature_reasons ++ r)) options Htracker) as Hkept.
  destruct (DecisionService.get_variation _ _ _ _ _ _ _) as [[[v|] r1] t1];
    simpl in *; [done | by apply IH].
Qed.

(** The body of the loop over the features decides the feature. *)
Lemma feature_body_decision fuel self project_config feature user_context options
    tracker decide_reasons d feature_reasons tracker' :
  DecisionService.feature_body fuel self project_config feature user_context options
    tracker decide_reasons = Some ((d, feature_reasons), tracker') →
  feature_decision fuel self project_config user_context options feature tracker d
    tracker'
  ∧ (is_Some tracker → is_Some tracker').
Proof.
  unfold DecisionService.feature_body, feature_decision.
  pose proof (experiments_loop_first_match self project_config feature user_context
                options (FeatureFlag.experimentIds feature) tracker decide_reasons)
    as Hmatch.
  pose proof (experiments_loop_keeps_tracker self project_config feature user_context
                options (FeatureFlag.experimentIds feature) tracker decide_reasons)
    as Hkept.
  cbv zeta in Hmatch.
  destruct (DecisionService.experiments_loop _ _ _ _ _ _ _ _) as [[[d0|] r0] t0];
    cbn [fst snd] in *.
  - intros [= -> -> ->]. split; [by left | done].
  - destruct (DecisionService.get_variation_for_rollout fuel project_config
                (Some feature) user_context) as [[d1 r1]|] eqn:Hr; [|done].
    intros [= -> <- ->]. split; [|done]. right. eauto.
Qed.

(** The body of the loop over the features returns when the rollout
    resolver does. *)
Lemma feature_body_returns fuel self project_config feature user_context options
    tracker decide_reasons :
  is_Some (DecisionService.get_variation_for_rollout fuel project_config (Some feature)
             user_context) →
  is_Some (DecisionService.feature_body fuel self project_config feature user_context
             options tracker decide_reasons).
Proof.
  intros [[d r] Hrollout]. unfold DecisionService.feature_body.
  destruct (DecisionService.experiments_loop _ _ _ _ _ _ _ _) as [[[d0|] r0] t0];
    [eauto|].
  rewrite Hrollout. eauto.
Qed.

(** The loop over the features appends one pair per feature, in order. *)
Lemma features_loop_batch fuel self project_config user_context options decide_reasons :
  ∀ (features : list FeatureFlag.t) tracker decisions result tracker',
    DecisionService.features_loop fuel self project_config features user_context
      options tracker decide_reasons decisions = Some (result, tracker') →
    ∃ recorded,
      result = decisions ++ recorded
      ∧ batch_decisions fuel self project_config user_context options features tracker
          recorded.*1 tracker'
      ∧ (is_Some tracker → is_Some tracker').
Proof.
  intros features.
  induction features as [|feature features IH];
    intros tracker decisions result tracker' Hloop; simpl in Hloop.
  - simplify_eq. exists []. rewrite app_nil_r. split; [done|]. split; [constructor|done].
  - destruct (DecisionService.feature_body _ _ _ _ _ _ _ _) as [[[d r] t1]|] eqn:Hbody;
      [|done].
    apply feature_body_decision in Hbody as [Hdecision Hkept].
    apply IH in Hloop as (recorded & -> & Hbatch & Hkept').
    exists ((d, r) :: recorded). rewrite <- app_assoc. split; [done|].
    split; [by econstructor | eauto].
Qed.

Lemma features_loop_returns fuel self project_config user_context options decide_reasons :
  ∀ (features : list FeatureFlag.t) tracker decisions,
    Forall (λ feature,
              is_Some (DecisionService.get_variation_for_rollout fuel project_config
                         (Some feature) user_context)) features →
    is_Some (DecisionService.features_loop fuel self project_config features
               user_context options tracker decide_reasons decisions).
Proof.
  intros features.
  induction features as [|feature features IH]; intros tracker decisions Hrollouts;
    simpl; [eauto|].
  apply Forall_cons in Hrollouts as [Hrollout Hrollouts].
  destruct (feature_body_returns fuel self project_config feature user_context options
              tracker decide_reasons Hrollout) as [[recorded t1] ->].
  by apply IH.
Qed.

Lemma batch_decisions_length fuel self project_config user_context options :
  ∀ (features : list FeatureFlag.t) tracker decisions tracker',
    batch_decisions fuel self project_config user_context options features tracker
      decisions tracker' →
    length decisions = length features.
Proof. induction 1; simpl; congruence. Qed.

(** In a batch the decision at each position is that of the feature at the
    same position. *)
Lemma batch_decisions_lookup fuel self project_config user_context options :
  ∀ (features : list FeatureFlag.t) tracker decisions tracker',
    batch_decisions fuel self project_config user_context options features tracker
      decisions tracker' →
    ∀ i feature,
      features !! i = Some feature →
      ∃ d before after,
        decisions !! i = Some d
        ∧ feature_decision fuel self project_config user_context options feature
            before d after.
Proof.
  induction 1 as [|feature features tracker d tracker' decisions tracker''
                    Hdecision Hbatch IH]; intros i f Hi; [done|].
  destruct i as [|i]; simpl in *.
  - simplify_eq. eauto.
  - by apply IH.
Qed.

(** What a first match says about the decision: it comes from an
    experiment id of the feature that resolves, and it holds a variation. *)
Lemma first_match_decision self project_config feature user_context options :
  ∀ experimentIds tracker d tracker',
    first_match self project_config feature user_context options experimentIds tracker
      (Some d) tracker' →
    source d = Some FEATURE_TEST
    ∧ is_Some (variation d)
    ∧ ∃ experiment_id e,
        experiment_id ∈ experimentIds
        ∧ ProjectConfig.get_experiment_from_id project_config experiment_id = Some e
        ∧ experiment d = Some e.
Proof.
  intros experimentIds tracker d tracker' Hmatch.
  remember (Some d) as found eqn:Hfound.
  induction Hmatch as [| experiment_id experimentIds tracker e v tracker' Htry
                       | experiment_id experimentIds tracker tracker' decision tracker''
                           Htry Hmatch IH].
  - done.
  - simplify_eq. simpl. split; [done|]. split; [eauto|].
    exists experiment_id, e. split; [by left|]. split; [|done].
    unfold try_experiment in Htry. repeat case_match; simplify_eq/=; try done.
    match goal with
    | Hfmap : pair _ <$> _ = Some _ |- _ =>
        apply fmap_Some in Hfmap as (? & _ & [= -> _]); done
    end.
  - destruct (IH Hfound) as (Hsrc & Hvar & id & e & Hin & Hres & Hexp).
    split; [done|]. split; [done|]. exists id, e. split; [by right | done].
Qed.

(** What the list call returns is a batch of decisions that starts from
    the loaded tracker. *)
Lemma feature_list_batch fuel self project_config (features : list FeatureFlag.t)
    user_context options decisions :
  (DecisionService.get_variations_for_feature_list fuel self project_config features
     user_context options).2 = Some decisions →
  length decisions = length features
  ∧ ∃ tracker',
      batch_decisions fuel self project_config user_context options features
        (loaded_tracker self user_context options) decisions.*1 tracker'.
Proof.
  unfold DecisionService.get_variations_for_feature_list, loaded_tracker.
  set (ignore_ups := DecisionService.option_in IGNORE_USER_PROFILE_SERVICE options).
  intros Hresult.
  assert (∃ tracker',
            batch_decisions fuel self project_config user_context options features
              match DecisionService.user_profile_service self with
              | Some service =>
                  if ignore_ups then None
                  else
                    Some (UserProfileTracker.load_user_profile service
                            (UserProfileTracker.new
                               (OptimizelyUserContext.user_id user_context)) []).1.1
              | None => None
              end decisions.*1 tracker') as [tracker' Hbatch].
  { destruct (DecisionService.user_profile_service self) as [service|];
      [destruct ignore_ups|]; simpl in Hresult;
      (destruct (DecisionService.features_loop _ _ _ _ _ _ _ _ _)
         as [[recorded t1]|] eqn:Hloop; [|done]);
      apply features_loop_batch in Hloop as (new & -> & Hbatch & _);
      simplify_eq/=; eauto. }
  split; [|eauto].
  apply batch_decisions_length in Hbatch. by rewrite length_fmap in Hbatch.
Qed.

(** The list call returns when the loop over the features does. *)
Lemma feature_list_returns fuel self project_config (features : list FeatureFlag.t)
    user_context options :
  Forall (λ feature,
            is_Some (DecisionService.get_variation_for_rollout fuel project_config
                       (Some feature) user_context)) features →
  is_Some (DecisionService.get_variations_for_feature_list fuel self project_config
             features user_context options).2.
Proof.
  intros Hrollouts. unfold DecisionService.get_variations_for_feature_list.
  destruct (DecisionService.user_profile_service self) as [service|];
    [destruct (DecisionService.option_in _ _)|]; simpl.
  all: match goal with
       | |- context [DecisionService.features_loop ?f ?s ?c ?fs ?u ?o ?t ?r ?d] =>
           destruct (features_loop_returns f s c u o r fs t d Hrollouts)
             as [[recorded t1] ->]
       end; simpl; eauto.
Qed.

(** X29: when [get_variations_for_feature_list] returns, it returns one
    pair per feature, in the order of the features; the decision of each
    feature is that of the first of its experiment ids, tried in order with
    the forced decision before the experiment resolver, that yields a
    variation, with source [FEATURE_TEST], and otherwise the decision of
    the rollout resolver, whatever it is; and it does return, for every
    list of features, when the rules of the rollouts resolve and the fuel
    exceeds their number. *)
Theorem one_decision_per_feature_first_match_wins :
  ∀ (fuel : nat) self project_config (features : list FeatureFlag.t) user_context
    options,
    let result :=
      DecisionService.get_variations_for_feature_list fuel self project_config
        features user_context options in
    (∀ decisions,
       result.2 = Some decisions →
       length decisions = length features
       ∧ (∃ tracker',
            batch_decisions fuel self project_config user_context options features
              (loaded_tracker self user_context options) decisions.*1 tracker')
       ∧ (∀ i feature,
            features !! i = Some feature →
            ∃ d feature_reasons before after,
              decisions !! i = Some (d, feature_reasons)
              ∧ feature_decision fuel self project_config user_context options
                  feature before d after))
    ∧ ((∀ rollout,
          Forall (rule_resolves project_config)
            (ProjectConfig.get_rollout_experiments project_config rollout)
          ∧ length (ProjectConfig.get_rollout_experiments project_config rollout)
            < fuel) →
       is_Some result.2).
Proof.
  intros fuel self project_config features user_context options result.
  subst result. split.
  - intros decisions Hresult.
    apply feature_list_batch in Hresult as [Hlength [tracker' Hbatch]].
    split; [done|]. split; [eauto|].
    intros i feature Hi.
    destruct (batch_decisions_lookup _ _ _ _ _ _ _ _ _ Hbatch i feature Hi)
      as (d & before & after & Hd & Hdecision).
    rewrite list_lookup_fmap in Hd.
    apply fmap_Some in Hd as ([d' feature_reasons] & Hd & ->).
    eauto 10.
  - intros Hrules. apply feature_list_returns.
    apply Forall_forall. intros feature _.
    by apply get_variation_for_rollout_returns.
Qed.

(** C6: with a user profile service and without the option to ignore it,
    the calls that [get_variations_for_feature_list] makes on the service
    are one lookup of the profile of the user, made first, followed by at
    most one save, made when the loop over the features is over, however
    many features there are and however often the tracker was updated. *)
Theorem profile_loaded_once_saved_at_most_once :
  ∀ (fuel : nat) self project_config (features : list FeatureFlag.t) user_context
    options service,
    DecisionService.user_profile_service self = Some service →
    DecisionService.option_in IGNORE_USER_PROFILE_SERVICE options = false →
    let result :=
      DecisionService.get_variations_for_feature_list fuel self project_config
        features user_context options in
    ∃ saved,
      result.1 = UserProfileService.Lookup (OptimizelyUserContext.user_id user_context)
                 :: saved
      ∧ (saved = [] ∨ ∃ profile, saved = [UserProfileService.Save profile])
      ∧ (result.2 = None → saved = [])
      ∧ length (filter (λ c, UserProfileService.is_lookup c = true) result.1) = 1
      ∧ length (filter (λ c, UserProfileService.is_save c = true) result.1) ≤ 1.
Proof.
  intros fuel self project_config features user_context options service
    Hservice Hignore result. subst result.
  unfold DecisionService.get_variations_for_feature_list.
  rewrite Hservice, Hignore. simpl.
  destruct (DecisionService.features_loop _ _ _ _ _ _ _ _ _)
    as [[recorded tracker']|] eqn:Hloop; simpl.
  - apply features_loop_batch in Hloop as (new & -> & _ & Hkept).
    destruct Hkept as [final ->]; [eauto|].
    exists (UserProfileTracker.save_user_profile final).
    split; [done|].
    unfold UserProfileTracker.save_user_profile.
    destruct (UserProfileTracker.profile_updated final); simpl.
    + split; [right; eauto|]. split; [done|]. split; [done | lia].
    + split; [by left|]. split; [done|]. split; [done | lia].
  - exists []. split; [done|]. split; [by left|]. split; [done|]. simpl.
    split; [done | lia].
Qed.

(** C10: [get_variation_for_feature] makes the calls of the list call on
    the one feature, returns exactly when it returns, never raises
    [IndexError], and gives the first, and only, element of the list. *)
Theorem get_variation_for_feature_is_first_of_singleton :
  ∀ (fuel : nat) self project_config feature user_context options,
    let listed :=
      DecisionService.get_variations_for_feature_list fuel self project_config
        [feature] user_context options in
    let single :=
      DecisionService.get_variation_for_feature fuel self project_config feature
        user_context options in
    single.1 = listed.1
    ∧ match listed.2 with
      | Some decisions =>
          ∃ first, decisions = [first] ∧ single.2 = Some (DecisionService.Ok first)
      | None => single.2 = None
      end.
Proof.
  intros fuel self project_config feature user_context options listed single.
  subst listed single.
  unfold DecisionService.get_variation_for_feature.
  pose proof (feature_list_batch fuel self project_config [feature] user_context
                options) as Hlength.
  destruct (DecisionService.get_variations_for_feature_list _ _ _ _ _ _)
    as [calls [decisions|]]; simpl in *; [|done].
  destruct (Hlength decisions eq_refl) as [Hone _].
  destruct decisions as [|first [|second decisions]]; simplify_eq/=.
  eauto.
Qed.

End Orchestrator.

(** ** The event dispatcher *)

Section Dispatcher.
Context `{EventDispatcher.Transport}.

(** C7, as stated, fails: the retry policy that the code builds keeps the
    default of urllib3 to honour a Retry-After header, so a GET answered
    429 with that header is tried again: a retry on a 4xx response. *)
Lemma retry_after_header_retries_a_429 :
  ¬ (∀ (transport : EventDispatcher.Transport) (method : string) (status_code : Z)
       (has_retry_after : bool),
        (400 ≤ status_code < 500)%Z →
        EventDispatcher.is_retry (@EventDispatcher.retries transport) method
          status_code has_retry_after = false).
Proof.
  intros claim.
  specialize (claim (Sample.transport (inl 429%Z)) "GET" 429%Z true).
  assert (400 ≤ 429 < 500)%Z as Hclient by lia.
  specialize (claim Hclient). vm_compute in claim. discriminate claim.
Qed.

(** C7, amended: no exception of the [RequestException] family leaves
    [dispatch_event]; when the request fails, by such an exception or by a
    response with a client or server error status, nothing is raised and the
    failure is logged; a GET goes out with the params of the event as its
    query parameters and a POST with their JSON text as its body, both
    through adapters with the retry policy of the code.  That policy
    retries on a status only a request with a retryable verb, so the GET
    and never the POST: on 500, 502, 503 and 504, and also on 413, 429 and
    503 when the response has a Retry-After header and the retry count is
    not zero; on no other status. *)
Theorem dispatch_event_contains_request_failures :
  ∀ (event : EventDispatcher.Event),
    let outcome := EventDispatcher.dispatch_event event in
    (∀ error,
       EventDispatcher.raised outcome ≠ Some (EventDispatcher.RequestFailure error))
    ∧ (∀ policy request,
         EventDispatcher.sent outcome = Some (policy, request) →
         request_fails (EventDispatcher.send policy request) →
         EventDispatcher.raised outcome = None
         ∧ ∃ error,
             EventDispatcher.logged outcome
             = ["Dispatch event failed. Error: " +:+ EventDispatcher.str_of_error error])
    ∧ (EventDispatcher.http_verb event = EventDispatcher.GET →
         EventDispatcher.sent outcome
         = Some (EventDispatcher.retries,
                 EventDispatcher.SessionGet (EventDispatcher.url event)
                   (EventDispatcher.params event) EventDispatcher.REQUEST_TIMEOUT))
    ∧ (EventDispatcher.http_verb event = EventDispatcher.POST →
         EventDispatcher.sent outcome
         = Some (EventDispatcher.retries,
                 EventDispatcher.SessionPost (EventDispatcher.url event)
                   (EventDispatcher.json_dumps (EventDispatcher.params event))
                   (EventDispatcher.headers event) EventDispatcher.REQUEST_TIMEOUT))
    ∧ (∀ method status_code has_retry_after,
         EventDispatcher.is_retry EventDispatcher.retries method status_code
           has_retry_after = true
         ↔ method ∈ EventDispatcher.DEFAULT_ALLOWED_METHODS
           ∧ (status_code ∈ [500; 502; 503; 504]%Z
              ∨ (EventDispatcher.RETRIES ≠ 0%Z
                 ∧ has_retry_after = true
                 ∧ status_code ∈ [413; 429; 503]%Z)))
    ∧ (∀ policy request status_code has_retry_after,
         EventDispatcher.sent outcome = Some (policy, request) →
         EventDispatcher.is_retry policy (EventDispatcher.request_method request)
           status_code has_retry_after = true →
         EventDispatcher.http_verb event = EventDispatcher.GET
         ∧ (status_code ∈ [500; 502; 503; 504]%Z
            ∨ (EventDispatcher.RETRIES ≠ 0%Z
               ∧ has_retry_after = true
               ∧ status_code ∈ [413; 429; 503]%Z))).
Proof.
  intros event outcome. subst outcome.
  assert (∀ method status_code has_retry_after,
            EventDispatcher.is_retry EventDispatcher.retries method status_code
              has_retry_after = true
            ↔ method ∈ EventDispatcher.DEFAULT_ALLOWED_METHODS
              ∧ (status_code ∈ [500; 502; 503; 504]%Z
                 ∨ (EventDispatcher.RETRIES ≠ 0%Z
                    ∧ has_retry_after = true
                    ∧ status_code ∈ [413; 429; 503]%Z))) as Hretry.
  { intros method status_code has_retry_after.
    unfold EventDispatcher.is_retry, EventDispatcher.retries,
      EventDispatcher.respect_retry_after_header,
      EventDispatcher.RETRY_AFTER_STATUS_CODES.
    cbn [EventDispatcher.status_forcelist EventDispatcher.total].
    case_bool_decide as Hmethod; cbn [negb].
    - case_bool_decide as Hforced.
      + split; [intros _; split; [done | by left] | done].
      + rewrite andb_true_r.
        rewrite !andb_true_iff, !bool_decide_eq_true.
        split.
        * intros [[Htotal Hheader] Hstatus]. split; [done|]. right. done.
        * intros [_ [Hstatus | (Htotal & Hheader & Hstatus)]]; done.
    - split; [done | by intros [? _]]. }
  unfold EventDispatcher.dispatch_event, EventDispatcher.try_block.
  split; [|split; [|split; [|split; [|split]]]].
  - intros error. repeat case_match; simplify_eq/=; done.
  - intros policy request.
    unfold request_fails, EventDispatcher.raise_for_status.
    destruct (String.eqb (EventDispatcher.http_verb event) EventDispatcher.GET);
      [|destruct (String.eqb (EventDispatcher.http_verb event) EventDispatcher.POST)];
      simpl; [| |done].
    all: destruct (EventDispatcher.send EventDispatcher.retries _)
           as [status_code|[error|name]] eqn:Hsend; simpl;
         [case_bool_decide; simpl| |];
         intros [= <- <-]; rewrite Hsend; simpl; intros Hfails; eauto; done.
  - intros ->. simpl. repeat case_match; simplify_eq/=; done.
  - intros ->. simpl. repeat case_match; simplify_eq/=; done.
  - exact Hretry.
  - intros policy request status_code has_retry_after.
    destruct (String.eqb_spec (EventDispatcher.http_verb event) EventDispatcher.GET)
      as [Hget|Hget].
    + destruct (EventDispatcher.send EventDispatcher.retries _)
        as [answer|[error|name]]; simpl;
        [destruct (EventDispatcher.raise_for_status answer) as [[e|n]|]| |]; simpl;
        intros [= <- <-] Hretried; (split; [done|]);
        by apply Hretry in Hretried as [_ Hstatus].
    + destruct (String.eqb (EventDispatcher.http_verb event) EventDispatcher.POST);
        [|done].
      destruct (EventDispatcher.send EventDispatcher.retries _)
        as [answer|[error|name]]; simpl;
        [destruct (EventDispatcher.raise_for_status answer) as [[e|n]|]| |]; simpl;
        intros [= <- <-] Hretried; exfalso;
        apply Hretry in Hretried as [Hmethod _];
        vm_compute in Hmethod;
        repeat (apply elem_of_cons in Hmethod as [Hmethod|Hmethod];
                [discriminate Hmethod|]);
        by apply elem_of_nil in Hmethod.
Qed.

End Dispatcher.

(** ** Runs on the sample project *)

Section SampleRuns.
#[local] Existing Instance Sample.collaborators.

(** C3: the rule list of the rollout starts with a rule whose id does not
    resolve in the config, and the user has no forced decision.  The turn
    of the loop on that rule comes back to the loop test with the index
    where it was ([continue] comes before the index is moved), so the loop
    does not go on to the next rule and does not end: no amount of fuel lets
    [get_variation_for_rollout] return. *)
Theorem unresolved_rule_never_returns :
  ProjectConfig.get_rollout_experiments Sample.stale_config Sample.rollout
  = [Sample.rule_1; Sample.rule_2; Sample.everyone_else]
  ∧ ProjectConfig.get_experiment_from_id Sample.stale_config
      (Experiment.id Sample.rule_1) = None
  ∧ (∃ decide_reasons',
       DecisionService.rollout_rule_body Sample.stale_config Sample.flag_b
         (Sample.user "user_1") [Sample.rule_1; Sample.rule_2; Sample.everyone_else]
         0 Sample.rule_1 [] = DecisionService.LoopsWith 0 decide_reasons')
  ∧ ∀ fuel : nat,
      DecisionService.get_variation_for_rollout fuel Sample.stale_config
        (Some Sample.flag_b) (Sample.user "user_1") = None.
Proof.
  split; [reflexivity|]. split; [reflexivity|]. split.
  - by apply rollout_rule_body_unresolved.
  - intros fuel. unfold DecisionService.get_variation_for_rollout. simpl.
    by apply (rollout_loop_spins _ _ _ _ 0 Sample.rule_1).
Qed.

Lemma get_variation_precedence_witness :
  (does_user_meet_audience_conditions Sample.config
     (Experiment.get_audience_conditions_or_ids Sample.checkout)
     ExperimentAudienceEvaluationLogs (Experiment.key Sample.checkout)
     (Sample.user "user_out")).1 = false
  ∧ (DecisionService.get_variation Sample.service Sample.config Sample.checkout
       (Sample.user "user_out") None None None).1.1 = Some Sample.control
  ∧ (DecisionService.get_variation Sample.service Sample.config Sample.checkout
       (Sample.user "user_wl") None None None).1.1 = Some Sample.control
  ∧ (DecisionService.get_variation Sample.service Sample.config Sample.checkout
       (Sample.user "user_in")
       (Some (UserProfileTracker.update_user_profile (UserProfileTracker.new "user_in")
                Sample.checkout Sample.control))
       None None).1.1 = Some Sample.control
  ∧ (DecisionService.get_variation Sample.service Sample.config Sample.checkout
       (Sample.user "user_in") None None None).1.1 = Some Sample.treatment.
Proof.
  split; [reflexivity|]. split; [|split; [|split]].
  - destruct (get_variation_precedence Sample.service Sample.config Sample.checkout
                (Sample.user "user_out") None None None)
      as (_ & _ & Hstore & _); [reflexivity|].
    apply Hstore with (m := {["e1" := "v_control"]}) (variation_id := "v_control");
      reflexivity.
  - destruct (get_variation_precedence Sample.service Sample.config Sample.checkout
                (Sample.user "user_wl") None None None)
      as (_ & _ & _ & Hwhitelist & _); [reflexivity|].
    apply Hwhitelist with (forced_variation_key := "control"); reflexivity.
  - destruct (get_variation_precedence Sample.service Sample.config Sample.checkout
                (Sample.user "user_in")
                (Some (UserProfileTracker.update_user_profile
                         (UserProfileTracker.new "user_in") Sample.checkout
                         Sample.control))
                None None)
      as (_ & _ & _ & _ & Hprofile); [reflexivity|].
    apply Hprofile
      with (tracker := UserProfileTracker.update_user_profile
                         (UserProfileTracker.new "user_in") Sample.checkout
                         Sample.control)
           (variation_id := "v_control");
      [reflexivity | reflexivity | reflexivity | reflexivity | reflexivity
      | discriminate | reflexivity].
  - destruct (get_variation_precedence Sample.service Sample.config Sample.checkout
                (Sample.user "user_in") None None None)
      as (Hfirst & _); [reflexivity|].
    rewrite Hfirst. reflexivity.
Defined.

Lemma failed_bucketing_jumps_to_everyone_else_witness :
  bucketed_in_rule Sample.config (Sample.user "user_1") Sample.rule_2
  = Some Sample.control
  ∧ ∃ returned_reasons,
      DecisionService.get_variation_for_rollout 3 Sample.config (Some Sample.flag_b)
        (Sample.user "user_1")
      = Some (decision_of Sample.everyone_else Sample.treatment ROLLOUT,
              returned_reasons).
Proof.
  split; [reflexivity|].
  destruct (failed_bucketing_jumps_to_everyone_else Sample.config Sample.flag_b
              (Sample.user "user_1") [] Sample.rule_1 Sample.everyone_else
              Sample.rule_1 [])
    as [decide_reasons' Hjump].
  - reflexivity.
  - reflexivity.
  - reflexivity.
  - reflexivity.
  - exists Sample.everyone_else. reflexivity.
  - destruct (Hjump [Sample.rule_2] 0) as (_ & _ & Hdecision).
    destruct (Hdecision Sample.everyone_else) as [returned_reasons Hreturned];
      [reflexivity | reflexivity |].
    exists returned_reasons. exact Hreturned.
Defined.

Lemma rollout_decision_names_both_or_neither_witness :
  let d :=
    {| experiment := Some Sample.everyone_else; variation := Some Sample.treatment;
       source := Some ROLLOUT |} in
  source d = Some ROLLOUT
  ∧ ((is_Some (experiment d) ∧ is_Some (variation d))
     ∨ (experiment d = None ∧ variation d = None))
  ∧ ¬ (is_Some (variation d) ∧ experiment d = None).
Proof.
  eapply (rollout_decision_names_both_or_neither 4 Sample.config (Some Sample.flag_b)
            (Sample.user "user_1")).
  vm_compute. reflexivity.
Defined.

Lemma set_forced_variation_rejects_and_clears_witness :
  DecisionService.set_forced_variation Sample.service Sample.config "unknown"
    "user_out" None = (false, Sample.service)
  ∧ DecisionService.set_forced_variation Sample.service Sample.config "checkout"
      "user_out" (Some "") = (false, Sample.service)
  ∧ (DecisionService.set_forced_variation Sample.service Sample.config "checkout"
       "user_out" None).1 = true
  ∧ (DecisionService.set_forced_variation Sample.service Sample.config "checkout"
       "user_2" None).2 = Sample.service.
Proof.
  split; [|split; [|split]].
  - by apply (set_forced_variation_rejects_and_clears Sample.service Sample.config
                "unknown" "user_out" None).
  - apply (set_forced_variation_rejects_and_clears Sample.service Sample.config
             "checkout" "user_out" (Some "")) with (k := ""); [reflexivity | by left].
  - by apply (set_forced_variation_rejects_and_clears Sample.service Sample.config
                "checkout" "user_out" None) with (e := Sample.checkout).
  - by apply (set_forced_variation_rejects_and_clears Sample.service Sample.config
                "checkout" "user_2" None) with (e := Sample.checkout).
Defined.

Lemma one_decision_per_feature_first_match_wins_witness :
  ∃ decisions,
    (DecisionService.get_variations_for_feature_list 4 Sample.service Sample.config
       [Sample.flag_a; Sample.flag_b] (Sample.user "user_in") None).2
    = Some decisions
    ∧ length decisions = 2.
Proof.
  destruct (one_decision_per_feature_first_match_wins 4 Sample.service Sample.config
              [Sample.flag_a; Sample.flag_b] (Sample.user "user_in") None)
    as [Hbatch Hreturns].
  destruct Hreturns as [decisions Hresult].
  - intros rollout. split; [|simpl; lia].
    repeat constructor; eexists; reflexivity.
  - exists decisions. split; [done|].
    by destruct (Hbatch decisions Hresult) as [Hlength _].
Defined.

Lemma profile_loaded_once_saved_at_most_once_witness :
  let calls :=
    (DecisionService.get_variations_for_feature_list 4 Sample.service Sample.config
       [Sample.flag_a; Sample.flag_b] (Sample.user "user_in") None).1 in
  length (filter (λ c, UserProfileService.is_lookup c = true) calls) = 1
  ∧ length (filter (λ c, UserProfileService.is_save c = true) calls) ≤ 1.
Proof.
  destruct (profile_loaded_once_saved_at_most_once 4 Sample.service Sample.config
              [Sample.flag_a; Sample.flag_b] (Sample.user "user_in") None
              {| UserProfileService.lookup := λ _, None |} eq_refl eq_refl)
    as (saved & _ & _ & _ & Hlookups & Hsaves).
  done.
Defined.

Lemma dispatch_event_contains_request_failures_witness :
  let outcome (status_code : Z) :=
    @EventDispatcher.dispatch_event (Sample.transport (inl status_code))
      (Sample.event "POST") in
  EventDispatcher.raised (outcome 400%Z) = None
  ∧ (∃ error,
       EventDispatcher.logged (outcome 400%Z)
       = ["Dispatch event failed. Error: " +:+
          @EventDispatcher.str_of_error (Sample.transport (inl 400%Z)) error])
  ∧ EventDispatcher.is_retry
      (@EventDispatcher.retries (Sample.transport (inl 400%Z))) "GET" 503 false = true.
Proof.
  intros outcome.
  pose proof (@dispatch_event_contains_request_failures
                (Sample.transport (inl 400%Z)) (Sample.event "POST"))
    as (_ & Hlogged & _ & Hpost & Hretry & _).
  specialize (Hpost eq_refl).
  destruct (Hlogged _ _ Hpost) as [Hraised Hlog]; [simpl; lia|].
  split; [exact Hraised|]. split; [exact Hlog|].
  apply Hretry. split.
  - apply list_elem_of_further, list_elem_of_here.
  - left. do 2 apply list_elem_of_further. apply list_elem_of_here.
Defined.

End SampleRuns.

(** ** More on the forced-variation store *)

Section StoreRoundTrips.

Implicit Types (self : DecisionService.t) (project_config : ProjectConfig.t).

Lemma is_non_empty_string_true (k : string) : k ≠ "" → is_non_empty_string k = true.
Proof.
  intros Hk. unfold is_non_empty_string.
  by apply negb_true_iff, String.eqb_neq.
Qed.

(** What a successful [set_forced_variation] with a variation key leaves in
    the store. *)
Lemma set_forced_variation_stores self project_config experiment_key user_id k e v :
  ProjectConfig.get_experiment_from_key project_config experiment_key = Some e →
  k ≠ "" →
  ProjectConfig.get_variation_from_key project_config experiment_key k = Some v →
  ∃ m,
    DecisionService.set_forced_variation self project_config experiment_key user_id
      (Some k)
    = (true,
       DecisionService.with_forced_variation_map self
         (<[user_id := <[Experiment.id e := Variation.id v]> m]>
            (DecisionService.forced_variation_map self)))
    ∧ m = default ∅ (DecisionService.forced_variation_map self !! user_id).
Proof.
  intros He Hk Hv. unfold DecisionService.set_forced_variation.
  rewrite He, (is_non_empty_string_true k Hk), Hv. simpl.
  destruct (DecisionService.forced_variation_map self !! user_id) as [m|]; simpl.
  - by exists m.
  - exists ∅. by rewrite insert_empty.
Qed.

(** X1: a variation set with [set_forced_variation] is the one that
    [get_forced_variation] gives back, when the config resolves the id of
    the variation to the variation. *)
Theorem set_then_get_forced_variation :
  ∀ self project_config (experiment_key user_id k : string) e v,
    ProjectConfig.get_experiment_from_key project_config experiment_key = Some e →
    k ≠ "" →
    ProjectConfig.get_variation_from_key project_config experiment_key k = Some v →
    ProjectConfig.get_variation_from_id project_config experiment_key (Variation.id v)
    = Some v →
    let set :=
      DecisionService.set_forced_variation self project_config experiment_key user_id
        (Some k) in
    set.1 = true
    ∧ (DecisionService.get_forced_variation set.2 project_config experiment_key
         user_id).1 = Some v.
Proof.
  intros self project_config experiment_key user_id k e v He Hk Hv Hid set.
  subst set.
  destruct (set_forced_variation_stores self project_config experiment_key user_id
              k e v He Hk Hv) as (m & -> & _).
  split; [done|]. simpl.
  unfold DecisionService.get_forced_variation. simpl.
  rewrite lookup_insert_eq, He.
  rewrite bool_decide_eq_false_2 by apply insert_non_empty.
  by rewrite lookup_insert_eq, Hid.
Qed.

(** X2: a successful [set_forced_variation] records the id of the
    variation for the user and the experiment, leaves every other mapping
    of the store as it was, and does not touch the user profile service. *)
Theorem set_forced_variation_changes_one_mapping :
  ∀ self project_config (experiment_key user_id k : string) e v,
    ProjectConfig.get_experiment_from_key project_config experiment_key = Some e →
    k ≠ "" →
    ProjectConfig.get_variation_from_key project_config experiment_key k = Some v →
    let set :=
      DecisionService.set_forced_variation self project_config experiment_key user_id
        (Some k) in
    stored_mapping set.2 user_id (Experiment.id e) = Some (Variation.id v)
    ∧ (∀ u x, ¬ (u = user_id ∧ x = Experiment.id e) →
         stored_mapping set.2 u x = stored_mapping self u x)
    ∧ DecisionService.user_profile_service set.2
      = DecisionService.user_profile_service self.
Proof.
  intros self project_config experiment_key user_id k e v He Hk Hv set. subst set.
  destruct (set_forced_variation_stores self project_config experiment_key user_id
              k e v He Hk Hv) as (m & -> & Hm).
  unfold stored_mapping. simpl. split; [|split; [|done]].
  - rewrite lookup_insert_eq. simpl. apply lookup_insert_eq.
  - intros u x Hne. destruct (decide (u = user_id)) as [->|Hu].
    + rewrite lookup_insert_eq. simpl.
      rewrite lookup_insert_ne by (intros <-; by apply Hne).
      subst m. by destruct (DecisionService.forced_variation_map self !! user_id).
    + by rewrite lookup_insert_ne.
Qed.

(** X3: after [set_forced_variation] with [None] for a known experiment,
    [get_forced_variation] finds nothing for the user and the experiment,
    and says nothing. *)
Theorem clear_then_get_forced_variation :
  ∀ self project_config (experiment_key user_id : string) e,
    ProjectConfig.get_experiment_from_key project_config experiment_key = Some e →
    let cleared :=
      DecisionService.set_forced_variation self project_config experiment_key user_id
        None in
    DecisionService.get_forced_variation cleared.2 project_config experiment_key user_id
    = (None, []).
Proof.
  intros self project_config experiment_key user_id e He cleared. subst cleared.
  unfold DecisionService.set_forced_variation. rewrite He.
  destruct (DecisionService.forced_variation_map self !! user_id) as [m|] eqn:Hm.
  - destruct (m !! Experiment.id e) as [vid|] eqn:Hvid; simpl;
      unfold DecisionService.get_forced_variation; simpl.
    + rewrite lookup_insert_eq, He. case_bool_decide; [done|].
      by rewrite lookup_delete_eq.
    + rewrite Hm, He. case_bool_decide; [done|]. by rewrite Hvid.
  - simpl. unfold DecisionService.get_forced_variation. by rewrite Hm.
Qed.

(** X4: [set_forced_variation] answers [True] exactly when the experiment
    key is known and the variation key is [None] or a non-empty key of a
    variation of the experiment; when it answers [False] the service is
    as it was. *)
Theorem set_forced_variation_succeeds_iff :
  ∀ self project_config (experiment_key user_id : string)
    (variation_key : option string),
    let set :=
      DecisionService.set_forced_variation self project_config experiment_key user_id
        variation_key in
    (set.1 = true
     ↔ is_Some (ProjectConfig.get_experiment_from_key project_config experiment_key)
       ∧ (variation_key = None
          ∨ ∃ k, variation_key = Some k ∧ k ≠ ""
                 ∧ is_Some (ProjectConfig.get_variation_from_key project_config
                              experiment_key k)))
    ∧ (set.1 = false → set.2 = self).
Proof.
  intros self project_config experiment_key user_id variation_key set. subst set.
  unfold DecisionService.set_forced_variation.
  destruct (ProjectConfig.get_experiment_from_key _ _) as [e|]; simpl.
  - destruct variation_key as [k|].
    + unfold is_non_empty_string.
      destruct (String.eqb_spec k "") as [->|Hk]; simpl.
      * split; [|done]. split; [done|].
        intros [_ [? | (k & [= <-] & Hk & _)]]; done.
      * destruct (ProjectConfig.get_variation_from_key _ _ _) as [v|] eqn:Hv.
        -- split; [|by repeat case_match].
           split; [|by repeat case_match].
           intros _. split; [eauto|]. right. exists k. eauto.
        -- split; [|done]. split; [done|].
           intros [_ [? | (k' & [= <-] & _ & [? Hsome])]]; [done|].
           rewrite Hv in Hsome. done.
    + split; [|by repeat case_match].
      split; [eauto | by repeat case_match].
  - split; [|done]. split; [done | by intros [[? ?] _]].
Qed.

(** X5: [set_forced_variation] never drops a user from the store:
    clearing a variation leaves the user with a map of their own, possibly
    an empty one. *)
Theorem set_forced_variation_keeps_users :
  ∀ self project_config (experiment_key user_id : string)
    (variation_key : option string),
    dom (DecisionService.forced_variation_map self)
    ⊆ dom (DecisionService.forced_variation_map
             (DecisionService.set_forced_variation self project_config experiment_key
                user_id variation_key).2).
Proof.
  intros self project_config experiment_key user_id variation_key.
  unfold DecisionService.set_forced_variation.
  repeat case_match; simpl; try done; rewrite dom_insert; set_solver.
Qed.

(** X6: [get_forced_variation] gives a variation only for a user with a
    mapping in the store for the experiment that the key names, a mapping
    whose variation id the config resolves to that variation; it then gives
    one reason, and no reason when it gives no variation. *)
Theorem get_forced_variation_sound :
  ∀ self project_config (experiment_key user_id : string),
    let found :=
      DecisionService.get_forced_variation self project_config experiment_key user_id in
    match found.1 with
    | Some v =>
        (∃ e variation_id,
           ProjectConfig.get_experiment_from_key project_config experiment_key = Some e
           ∧ stored_mapping self user_id (Experiment.id e) = Some variation_id
           ∧ ProjectConfig.get_variation_from_id project_config experiment_key
               variation_id = Some v)
        ∧ length found.2 = 1
    | None => found.2 = []
    end.
Proof.
  intros self project_config experiment_key user_id found. subst found.
  unfold DecisionService.get_forced_variation, stored_mapping.
  destruct (DecisionService.forced_variation_map self !! user_id) as [m|]; [|done].
  destruct (ProjectConfig.get_experiment_from_key _ _) as [e|]; [|done].
  case_bool_decide; [done|].
  destruct (m !! Experiment.id e) as [vid|] eqn:Hvid; [|done].
  destruct (ProjectConfig.get_variation_from_id _ _ _) as [v|] eqn:Hv; [|done].
  simpl. split; [|done]. exists e, vid. by rewrite Hvid.
Qed.

End StoreRoundTrips.

(** ** More on the experiment decision resolver *)

Section ExperimentResolverMore.
Context `{Collaborators}.

Implicit Types (self : DecisionService.t) (project_config : ProjectConfig.t)
  (experiment : Experiment.t) (user_context : OptimizelyUserContext.t)
  (tracker : option UserProfileTracker.t).


(** X8: the reasons that [get_variation] gives back start with the reasons
    it was given: it only ever appends. *)
Theorem get_variation_appends_reasons :
  ∀ self project_config experiment user_context tracker
    (reasons options : option (list string)),
    default [] reasons
    `prefix_of` (DecisionService.get_variation self project_config experiment
                   user_context tracker reasons options).1.2.
Proof.
  intros self project_config experiment user_context tracker reasons options.
  unfold DecisionService.get_variation.
  repeat case_match; simpl; repeat apply prefix_app_r; done.
Qed.

(** X9: with the option to ignore the user profile service,
    [get_variation] neither reads nor writes the tracker: it hands the
    tracker back as it was, and decides as it does without a tracker. *)
Theorem get_variation_ignores_profile_on_request :
  ∀ self project_config experiment user_context tracker
    (reasons options : option (list string)),
    DecisionService.option_in IGNORE_USER_PROFILE_SERVICE options = true →
    let decided :=
      DecisionService.get_variation self project_config experiment user_context
        tracker reasons options in
    decided.2 = tracker
    ∧ decided.1
      = (DecisionService.get_variation self project_config experiment user_context
           None reasons options).1.
Proof.
  intros self project_config experiment user_context tracker reasons options
    Hignore decided. subst decided.
  unfold DecisionService.get_variation. rewrite Hignore. simpl.
  destruct tracker as [tr|]; repeat case_match; simplify_eq/=; done.
Qed.

(** The layers of [get_variation] for a running experiment: the variation
    it gives and the tracker it hands back. *)
Lemma get_variation_layers self project_config experiment user_context tracker
    (reasons options : option (list string)) :
  is_experiment_running experiment = true →
  let upper :=
    first_hit
      [(DecisionService.get_forced_variation self project_config
          (Experiment.key experiment) (OptimizelyUserContext.user_id user_context)).1;
       (DecisionService.get_whitelisted_variation project_config experiment
          (OptimizelyUserContext.user_id user_context)).1;
       profile_layer project_config experiment tracker options] in
  let bucketing := bucketing_layer project_config experiment user_context in
  let decided :=
    DecisionService.get_variation self project_config experiment user_context
      tracker reasons options in
  decided.1.1 = first_hit [upper; bucketing]
  ∧ decided.2
    = match upper, bucketing, tracker with
      | None, Some v, Some tr =>
          if DecisionService.option_in IGNORE_USER_PROFILE_SERVICE options then Some tr
          else Some (UserProfileTracker.update_user_profile tr experiment v)
      | _, _, _ => tracker
      end.
Proof.
  intros Hrunning upper bucketing decided. subst upper bucketing decided.
  unfold DecisionService.get_variation, bucketing_layer, profile_layer.
  rewrite Hrunning; simpl.
  destruct (DecisionService.get_forced_variation _ _ _ _) as [[v1|] r1]; simpl;
    [done|].
  destruct (DecisionService.get_whitelisted_variation _ _ _) as [[v2|] r2]; simpl;
    [done|].
  set (stored := match tracker with Some _ => _ | None => _ end).
  set (stored' := match tracker with Some _ => _ | None => _ end).
  assert (stored = stored') as ->.
  { subst stored stored'. destruct tracker; [|done].
    by destruct (DecisionService.option_in _ _). }
  destruct stored' as [v3|]; simpl; [done|].
  destruct (does_user_meet_audience_conditions _ _ _ _ _) as [[|] r4]; simpl;
    [|by destruct tracker].
  destruct (DecisionService._get_bucketing_id _ _) as [bucketing_id r5]; simpl.
  destruct (bucket _ _ _ _) as [[v6|] r6]; simpl; [|by destruct tracker].
  destruct tracker as [tr|]; [|done].
  by destruct (DecisionService.option_in _ _).
Qed.

(** X10: [get_variation] writes to the tracker only when the bucketer
    decides, for a caller that passes a tracker and does not ask to ignore
    the profile, and what it writes is the pair of the experiment and the
    variation it returns; in every other case the tracker is handed back as
    it was. *)
Theorem get_variation_writes_profile_only_when_bucketing :
  ∀ self project_config experiment user_context tracker
    (reasons options : option (list string)),
    let decided :=
      DecisionService.get_variation self project_config experiment user_context
        tracker reasons options in
    decided.2 = tracker
    ∨ ∃ tr v,
        tracker = Some tr
        ∧ DecisionService.option_in IGNORE_USER_PROFILE_SERVICE options = false
        ∧ decided.1.1 = Some v
        ∧ bucketing_layer project_config experiment user_context = Some v
        ∧ decided.2 = Some (UserProfileTracker.update_user_profile tr experiment v).
Proof.
  intros self project_config experiment user_context tracker reasons options decided.
  destruct (is_experiment_running experiment) eqn:Hrunning.
  - destruct (get_variation_layers self project_config experiment user_context tracker
                reasons options Hrunning) as [Hvariation Htracker].
    fold decided in Hvariation, Htracker.
    destruct (first_hit [_; _; _]) as [u|]; [by left|].
    destruct (bucketing_layer _ _ _) as [v|] eqn:Hbucketing; [|by left].
    destruct tracker as [tr|]; [|by left].
    destruct (DecisionService.option_in _ _) eqn:Hignore; [by left|].
    right. exists tr, v. done.
  - left. subst decided. unfold DecisionService.get_variation.
    by rewrite Hrunning.
Qed.

End ExperimentResolverMore.

Section StickyBucketing.

Implicit Types (self : DecisionService.t) (project_config : ProjectConfig.t)
  (experiment : Experiment.t) (user_context : OptimizelyUserContext.t).

(** X11: sticky bucketing.  When [get_variation] has given a variation for
    a running experiment to a caller that passes a tracker and does not ask
    to ignore the profile, a later call with the tracker it handed back
    gives the same variation, whatever the bucketer and the audience
    evaluator answer by then, as long as the id of the variation is not
    empty and the config still resolves it. *)
Theorem get_variation_is_sticky :
  ∀ (first second : Collaborators) self project_config experiment user_context
    (tr : UserProfileTracker.t) (reasons reasons' options : option (list string)) v,
    @is_experiment_running first experiment = true →
    @is_experiment_running second experiment = true →
    DecisionService.option_in IGNORE_USER_PROFILE_SERVICE options = false →
    Variation.id v ≠ "" →
    ProjectConfig.get_variation_from_id project_config (Experiment.key experiment)
      (Variation.id v) = Some v →
    let decided :=
      @DecisionService.get_variation first self project_config experiment user_context
        (Some tr) reasons options in
    decided.1.1 = Some v →
    (@DecisionService.get_variation second self project_config experiment user_context
       decided.2 reasons' options).1.1 = Some v.
Proof.
  intros first second self project_config experiment user_context tr reasons reasons'
    options v Hfirst Hsecond Hignore Hid Hresolves decided Hdecided.
  destruct (@get_variation_layers first self project_config experiment user_context
              (Some tr) reasons options Hfirst) as [Hvariation Htracker].
  fold decided in Hvariation, Htracker.
  rewrite Hdecided in Hvariation.
  destruct (@get_variation_layers second self project_config experiment user_context
              decided.2 reasons' options Hsecond) as [Hagain _].
  rewrite Hagain. clear Hagain.
  destruct (first_hit
              [(DecisionService.get_forced_variation self project_config
                  (Experiment.key experiment)
                  (OptimizelyUserContext.user_id user_context)).1;
               (DecisionService.get_whitelisted_variation project_config experiment
                  (OptimizelyUserContext.user_id user_context)).1;
               profile_layer project_config experiment (Some tr) options])
    as [u|] eqn:Hupper.
  - (* a layer above the bucketer decided: nothing was written *)
    simpl in Hvariation. simplify_eq. rewrite Htracker, Hupper. done.
  - (* the bucketer decided: the pair is in the profile now *)
    simpl in Hvariation.
    destruct (@bucketing_layer first project_config experiment user_context)
      as [b|]; [|done].
    simplify_eq. rewrite Hignore in Htracker. rewrite Htracker.
    simpl in Hupper.
    destruct (DecisionService.get_forced_variation _ _ _ _).1; [done|].
    destruct (DecisionService.get_whitelisted_variation _ _ _).1; [done|].
    simpl. unfold profile_layer. rewrite Hignore.
    unfold DecisionService.get_stored_variation,
      UserProfile.get_variation_for_experiment. simpl.
    rewrite lookup_insert_eq.
    unfold DecisionService.str_truthy.
    rewrite (proj2 (String.eqb_neq _ _) Hid). simpl.
    by rewrite Hresolves.
Qed.

End StickyBucketing.

Section StaleOverrides.
Context `{Collaborators}.

Implicit Types (self : DecisionService.t) (project_config : ProjectConfig.t)
  (experiment : Experiment.t) (user_context : OptimizelyUserContext.t).

(** X27: a decision stored in the profile whose variation id the config no
    longer resolves is not used: when neither the store nor the whitelist
    decides, [get_variation] buckets the user again, and the pair it writes
    to the tracker takes the place of the stale one. *)
Theorem stale_stored_decision_is_rebucketed :
  ∀ self project_config experiment user_context (tr : UserProfileTracker.t)
    (reasons options : option (list string)) (stale : string) v,
    is_experiment_running experiment = true →
    (DecisionService.get_forced_variation self project_config
       (Experiment.key experiment) (OptimizelyUserContext.user_id user_context)).1
    = None →
    (DecisionService.get_whitelisted_variation project_config experiment
       (OptimizelyUserContext.user_id user_context)).1 = None →
    DecisionService.option_in IGNORE_USER_PROFILE_SERVICE options = false →
    UserProfile.get_variation_for_experiment (UserProfileTracker.get_user_profile tr)
      (Experiment.id experiment) = Some stale →
    ProjectConfig.get_variation_from_id project_config (Experiment.key experiment)
      stale = None →
    bucketing_layer project_config experiment user_context = Some v →
    let decided :=
      DecisionService.get_variation self project_config experiment user_context
        (Some tr) reasons options in
    decided.1.1 = Some v
    ∧ ∃ tr',
        decided.2 = Some tr'
        ∧ UserProfile.get_variation_for_experiment
            (UserProfileTracker.get_user_profile tr') (Experiment.id experiment)
          = Some (Variation.id v)
        ∧ UserProfileTracker.profile_updated tr' = true.
Proof.
  intros self project_config experiment user_context tr reasons options stale v
    Hrunning Hstore Hwhitelist Hignore Hstale Hgone Hbucketing decided.
  destruct (get_variation_layers self project_config experiment user_context
              (Some tr) reasons options Hrunning) as [Hvariation Htracker].
  fold decided in Hvariation, Htracker.
  assert (profile_layer project_config experiment (Some tr) options = None)
    as Hprofile.
  { unfold profile_layer, DecisionService.get_stored_variation.
    rewrite Hignore, Hstale, Hgone. by destruct (DecisionService.str_truthy stale). }
  rewrite Hstore, Hwhitelist, Hprofile, Hbucketing in Hvariation, Htracker.
  simpl in Hvariation, Htracker. rewrite Hignore in Htracker.
  split; [done|].
  exists (UserProfileTracker.update_user_profile tr experiment v).
  split; [done|]. split; [|done].
  unfold UserProfile.get_variation_for_experiment. simpl. apply lookup_insert_eq.
Qed.

(** X28: [validated_forced_decision] gives a variation only for a user
    who has a forced decision for the context, and the variation is the one
    that the config resolves for the flag and the variation key of the
    forced decision; it gives one reason whenever the user has a forced
    decision and a config is at hand, whether the key resolves or not, and
    no reason otherwise. *)
Theorem validated_forced_decision_sound :
  ∀ (project_config : option ProjectConfig.t)
    (decision_context : OptimizelyUserContext.OptimizelyDecisionContext)
    user_context,
    let validated :=
      DecisionService.validated_forced_decision project_config decision_context
        user_context in
    validated.1
    = (forced ← OptimizelyUserContext.get_forced_decision user_context decision_context;
       config ← project_config;
       ProjectConfig.get_flag_variation config
         (OptimizelyUserContext.flag_key decision_context) "key"
         (OptimizelyUserContext.variation_key forced))
    ∧ length validated.2
      = (if bool_decide
              (is_Some (OptimizelyUserContext.get_forced_decision user_context
                          decision_context)
               ∧ is_Some project_config)
         then 1 else 0).
Proof.
  intros project_config decision_context user_context validated. subst validated.
  unfold DecisionService.validated_forced_decision.
  destruct (OptimizelyUserContext.get_forced_decision _ _) as [forced|];
    [destruct project_config as [config|]|]; simpl.
  - by destruct (ProjectConfig.get_flag_variation _ _ _ _).
  - done.
  - done.
Qed.

End StaleOverrides.

(** ** More on the rollout decision resolver *)

Section RolloutResolverMore.
Context `{Collaborators}.

Implicit Types (project_config : ProjectConfig.t) (feature : FeatureFlag.t)
  (user_context : OptimizelyUserContext.t) (rollout_rules : list Experiment.t)
  (rule : Experiment.t) (decide_reasons : list string).

(** With a rollout that has rules, the resolver is the loop from index 0. *)
Lemma get_variation_for_rollout_loop fuel project_config feature user_context
    rollout_rules :
  rollout_rules_of project_config feature rollout_rules →
  rollout_rules ≠ [] →
  DecisionService.get_variation_for_rollout fuel project_config (Some feature)
    user_context
  = DecisionService.rollout_loop fuel project_config feature user_context
      rollout_rules 0 [].
Proof.
  intros (Hid & rollout & Hrollout & Hrules) Hnonempty.
  unfold DecisionService.get_variation_for_rollout, DecisionService.str_truthy.
  rewrite (proj2 (String.eqb_neq _ _) Hid). simpl.
  rewrite Hrollout, Hrules. by destruct rollout_rules.
Qed.

(** A turn of the loop on a rule for which the user has a forced decision
    that resolves. *)
Lemma rollout_rule_body_forced project_config feature user_context rollout_rules
    index rule decide_reasons v :
  forced_decision_at project_config feature user_context rule = Some v →
  ∃ decide_reasons',
    DecisionService.rollout_rule_body project_config feature user_context rollout_rules
      index rule decide_reasons
    = DecisionService.Returns (decision_of rule v ROLLOUT) decide_reasons'.
Proof.
  unfold forced_decision_at, DecisionService.rollout_rule_body, decision_of.
  destruct (DecisionService.validated_forced_decision _ _ _) as [forced r]. simpl.
  intros ->. eauto.
Qed.

(** A turn of the loop on a rule that resolves, for a user without a forced
    decision who is not in the audience of the rule. *)
Lemma rollout_rule_body_no_audience project_config feature user_context rollout_rules
    index rule rollout_rule decide_reasons :
  forced_decision_at project_config feature user_context rule = None →
  ProjectConfig.get_experiment_from_id project_config (Experiment.id rule)
  = Some rollout_rule →
  meets_rule_audience project_config user_context rollout_rule
    (rule_logging_key rollout_rules index) = false →
  ∃ decide_reasons',
    DecisionService.rollout_rule_body project_config feature user_context rollout_rules
      index rule decide_reasons
    = DecisionService.LoopsWith (index + 1) decide_reasons'.
Proof.
  unfold forced_decision_at, meets_rule_audience, rule_logging_key,
    DecisionService.rollout_rule_body.
  destruct (DecisionService.validated_forced_decision _ _ _) as [forced r1]. simpl.
  intros -> -> Haudience.
  destruct (DecisionService._get_bucketing_id _ _) as [bucketing_id r2].
  destruct (does_user_meet_audience_conditions _ _ _ _ _) as [meets r3].
  simpl in Haudience. subst meets. eauto.
Qed.

(** A turn of the loop on a rule that resolves, for a user without a forced
    decision who is in the audience of the rule and is bucketed. *)
Lemma rollout_rule_body_bucketed project_config feature user_context rollout_rules
    index rule rollout_rule decide_reasons v :
  forced_decision_at project_config feature user_context rule = None →
  ProjectConfig.get_experiment_from_id project_config (Experiment.id rule)
  = Some rollout_rule →
  meets_rule_audience project_config user_context rollout_rule
    (rule_logging_key rollout_rules index) = true →
  bucketed_in_rule project_config user_context rollout_rule = Some v →
  ∃ decide_reasons',
    DecisionService.rollout_rule_body project_config feature user_context rollout_rules
      index rule decide_reasons
    = DecisionService.Returns (decision_of rule v ROLLOUT) decide_reasons'.
Proof.
  unfold forced_decision_at, meets_rule_audience, bucketed_in_rule, rule_logging_key,
    DecisionService.rollout_rule_body, decision_of.
  destruct (DecisionService.validated_forced_decision _ _ _) as [forced r1]. simpl.
  intros -> -> Haudience Hbucket.
  destruct (DecisionService._get_bucketing_id _ _) as [bucketing_id r2].
  destruct (does_user_meet_audience_conditions _ _ _ _ _) as [meets r3].
  simpl in Haudience, Hbucket. subst meets.
  destruct (bucket _ _ _ _) as [bucketed r4]. simpl in Hbucket. subst bucketed.
  eauto.
Qed.

(** Where the variation of a turn that returns comes from. *)
Lemma rollout_rule_body_variation project_config feature user_context rollout_rules
    index rule decide_reasons d decide_reasons' :
  DecisionService.rollout_rule_body project_config feature user_context rollout_rules
    index rule decide_reasons = DecisionService.Returns d decide_reasons' →
  experiment d = Some rule
  ∧ is_Some (variation d)
  ∧ (variation d = forced_decision_at project_config feature user_context rule
     ∨ ∃ rollout_rule,
         ProjectConfig.get_experiment_from_id project_config (Experiment.id rule)
         = Some rollout_rule
         ∧ variation d = bucketed_in_rule project_config user_context rollout_rule).
Proof.
  unfold forced_decision_at, bucketed_in_rule, DecisionService.rollout_rule_body.
  destruct (DecisionService.validated_forced_decision _ _ _) as [[forced|] r1]; simpl.
  { intros [= <- _]. simpl. eauto. }
  destruct (DecisionService._get_bucketing_id _ _) as [bucketing_id r2]. simpl.
  destruct (ProjectConfig.get_experiment_from_id _ _) as [rollout_rule|]; [|done].
  destruct (does_user_meet_audience_conditions _ _ _ _ _) as [[|] r3]; [|done].
  destruct (bucket _ _ _ _) as [[v|] r4] eqn:Hbucket; [|by destruct (negb _)].
  intros [= <- _]. simpl. split; [done|]. split; [eauto|].
  right. exists rollout_rule. by rewrite Hbucket.
Qed.

(** X12: without a feature, without a rollout id, with a rollout id that
    the config does not know, or with a rollout that has no rules, the
    resolver gives the decision without experiment and variation at once,
    with no reason in the first two cases and one reason in the other
    two. *)
Theorem rollout_without_rules_decides_nothing :
  ∀ (fuel : nat) project_config user_context,
    DecisionService.get_variation_for_rollout fuel project_config None user_context
    = Some (DecisionService.no_rollout_decision, [])
    ∧ ∀ feature,
        let returned :=
          DecisionService.get_variation_for_rollout fuel project_config (Some feature)
            user_context in
        (FeatureFlag.rolloutId feature = "" →
           returned = Some (DecisionService.no_rollout_decision, []))
        ∧ (FeatureFlag.rolloutId feature ≠ "" →
           ProjectConfig.get_rollout_from_id project_config
             (FeatureFlag.rolloutId feature) = None →
           ∃ reason, returned = Some (DecisionService.no_rollout_decision, [reason]))
        ∧ (rollout_rules_of project_config feature [] →
           ∃ reason, returned = Some (DecisionService.no_rollout_decision, [reason])).
Proof.
  intros fuel project_config user_context. split; [done|].
  intros feature returned. subst returned.
  unfold DecisionService.get_variation_for_rollout, DecisionService.str_truthy.
  split; [|split].
  - by intros ->.
  - intros Hid ->. rewrite (proj2 (String.eqb_neq _ _) Hid). simpl. eauto.
  - intros (Hid & rollout & -> & ->).
    rewrite (proj2 (String.eqb_neq _ _) Hid). simpl. eauto.
Qed.

(** X13: a forced decision of the user for the first rule of the rollout,
    when its variation resolves, is the decision of the resolver, whether
    or not the rule resolves and whatever the audience evaluator and the
    bucketer say. *)
Theorem rollout_forced_decision_on_first_rule :
  ∀ (fuel : nat) project_config feature user_context rule
    (rest : list Experiment.t) v,
    rollout_rules_of project_config feature (rule :: rest) →
    forced_decision_at project_config feature user_context rule = Some v →
    ∃ decide_reasons,
      DecisionService.get_variation_for_rollout (S fuel) project_config (Some feature)
        user_context
      = Some (decision_of rule v ROLLOUT, decide_reasons).
Proof.
  intros fuel project_config feature user_context rule rest v Hrules Hforced.
  rewrite (get_variation_for_rollout_loop _ _ _ _ (rule :: rest)) by done.
  rewrite rollout_loop_step. simpl.
  destruct (rollout_rule_body_forced project_config feature user_context
              (rule :: rest) 0 rule [] v Hforced) as [r ->].
  eauto.
Qed.

Lemma rollout_loop_misses project_config feature user_context rollout_rules :
  (∀ i rule, rollout_rules !! i = Some rule →
     misses_rule project_config feature user_context rollout_rules i rule) →
  ∀ fuel index decide_reasons,
    length rollout_rules - index < fuel →
    ∃ decide_reasons',
      DecisionService.rollout_loop fuel project_config feature user_context
        rollout_rules index decide_reasons
      = Some (DecisionService.no_rollout_decision, decide_reasons').
Proof.
  intros Hmisses fuel.
  induction fuel as [|fuel IH]; intros index decide_reasons Hfuel; [lia|].
  rewrite rollout_loop_step.
  destruct (rollout_rules !! index) as [rule|] eqn:Hrule; [|eauto].
  pose proof (lookup_lt_Some _ _ _ Hrule) as Hindex.
  destruct (Hmisses index rule Hrule) as (Hforced & rollout_rule & Hresolves & Haudience).
  destruct (rollout_rule_body_no_audience project_config feature user_context
              rollout_rules index rule rollout_rule decide_reasons Hforced Hresolves
              Haudience) as [r ->].
  apply IH. lia.
Qed.

(** X14: a user who has no forced decision and is in the audience of no
    rule of a rollout whose rules all resolve gets the decision without
    experiment and variation, once every rule has had its turn. *)
Theorem rollout_without_audience_match_decides_nothing :
  ∀ (fuel : nat) project_config feature user_context rollout_rules,
    rollout_rules_of project_config feature rollout_rules →
    (∀ i rule, rollout_rules !! i = Some rule →
       misses_rule project_config feature user_context rollout_rules i rule) →
    length rollout_rules < fuel →
    ∃ decide_reasons,
      DecisionService.get_variation_for_rollout fuel project_config (Some feature)
        user_context
      = Some (DecisionService.no_rollout_decision, decide_reasons).
Proof.
  intros fuel project_config feature user_context rollout_rules Hrules Hmisses Hfuel.
  destruct rollout_rules as [|rule rest].
  - destruct Hrules as (Hid & rollout & Hrollout & Hempty).
    unfold DecisionService.get_variation_for_rollout, DecisionService.str_truthy.
    rewrite (proj2 (String.eqb_neq _ _) Hid). simpl.
    rewrite Hrollout, Hempty. eauto.
  - rewrite (get_variation_for_rollout_loop _ _ _ _ (rule :: rest)) by done.
    apply rollout_loop_misses; [done | lia].
Qed.

Lemma rollout_loop_first_match project_config feature user_context
    (before after : list Experiment.t) rule rollout_rule v :
  let rollout_rules := before ++ rule :: after in
  (∀ i missed, before !! i = Some missed →
     misses_rule project_config feature user_context rollout_rules i missed) →
  forced_decision_at project_config feature user_context rule = None →
  ProjectConfig.get_experiment_from_id project_config (Experiment.id rule)
  = Some rollout_rule →
  meets_rule_audience project_config user_context rollout_rule
    (rule_logging_key rollout_rules (length before)) = true →
  bucketed_in_rule project_config user_context rollout_rule = Some v →
  ∀ k index fuel decide_reasons,
    index + k = length before →
    k < fuel →
    ∃ decide_reasons',
      DecisionService.rollout_loop fuel project_config feature user_context
        rollout_rules index decide_reasons
      = Some (decision_of rule v ROLLOUT, decide_reasons').
Proof.
  intros rollout_rules Hmisses Hforced Hresolves Haudience Hbucket k.
  induction k as [|k IH]; intros index fuel decide_reasons Hindex Hfuel;
    (destruct fuel as [|fuel]; [lia|]); rewrite rollout_loop_step.
  - replace index with (length before) by lia.
    subst rollout_rules. rewrite list_lookup_middle by done.
    destruct (rollout_rule_body_bucketed project_config feature user_context
                (before ++ rule :: after) (length before) rule rollout_rule
                decide_reasons v Hforced Hresolves Haudience Hbucket) as [r ->].
    eauto.
  - assert (index < length before) as Hlt by lia.
    destruct (lookup_lt_is_Some_2 before index Hlt) as [missed Hmissed].
    subst rollout_rules. rewrite lookup_app_l, Hmissed by done.
    destruct (Hmisses index missed Hmissed)
      as (Hforced' & rollout_rule' & Hresolves' & Haudience').
    destruct (rollout_rule_body_no_audience project_config feature user_context
                (before ++ rule :: after) index missed rollout_rule' decide_reasons
                Hforced' Hresolves' Haudience') as [r ->].
    apply IH; lia.
Qed.

(** X15: the first rule whose audience the user is in decides, when the
    bucketer puts the user in one of its variations: the decision names
    that rule and that variation, whatever the rules after it are. *)
Theorem rollout_first_matching_rule_decides :
  ∀ (fuel : nat) project_config feature user_context
    (before after : list Experiment.t) rule rollout_rule v,
    let rollout_rules := before ++ rule :: after in
    rollout_rules_of project_config feature rollout_rules →
    (∀ i missed, before !! i = Some missed →
       misses_rule project_config feature user_context rollout_rules i missed) →
    forced_decision_at project_config feature user_context rule = None →
    ProjectConfig.get_experiment_from_id project_config (Experiment.id rule)
    = Some rollout_rule →
    meets_rule_audience project_config user_context rollout_rule
      (rule_logging_key rollout_rules (length before)) = true →
    bucketed_in_rule project_config user_context rollout_rule = Some v →
    length before < fuel →
    ∃ decide_reasons,
      DecisionService.get_variation_for_rollout fuel project_config (Some feature)
        user_context
      = Some (decision_of rule v ROLLOUT, decide_reasons).
Proof.
  intros fuel project_config feature user_context before after rule rollout_rule v
    rollout_rules Hrules Hmisses Hforced Hresolves Haudience Hbucket Hfuel.
  rewrite (get_variation_for_rollout_loop _ _ _ _ rollout_rules);
    [|done | subst rollout_rules; by destruct before].
  by apply (rollout_loop_first_match project_config feature user_context before after
              rule rollout_rule v Hmisses Hforced Hresolves Haudience Hbucket
              (length before) 0 fuel []).
Qed.

Lemma rollout_loop_variation project_config feature user_context rollout_rules :
  ∀ fuel index decide_reasons d decide_reasons' rule,
    DecisionService.rollout_loop fuel project_config feature user_context
      rollout_rules index decide_reasons = Some (d, decide_reasons') →
    experiment d = Some rule →
    rule ∈ rollout_rules
    ∧ is_Some (variation d)
    ∧ (variation d = forced_decision_at project_config feature user_context rule
       ∨ ∃ rollout_rule,
           ProjectConfig.get_experiment_from_id project_config (Experiment.id rule)
           = Some rollout_rule
           ∧ variation d = bucketed_in_rule project_config user_context rollout_rule).
Proof.
  intros fuel.
  induction fuel as [|fuel IH]; intros index r d r' rule Hloop Hexp; [done|].
  rewrite rollout_loop_step in Hloop.
  destruct (rollout_rules !! index) as [looked|] eqn:Hlooked.
  - destruct (DecisionService.rollout_rule_body _ _ _ _ _ _ _)
      as [d0 r0 | index' r0] eqn:Hbody.
    + simplify_eq.
      apply rollout_rule_body_variation in Hbody as (Hrule & Hvar & Hfrom).
      rewrite Hexp in Hrule. simplify_eq.
      split; [by eapply list_elem_of_lookup_2 | done].
    + by eapply IH.
  - by simplify_eq.
Qed.

(** X16: the experiment of a decision of the rollout resolver is one of the
    rules of the rollout of the feature, and its variation is that of the
    forced decision of the user for this rule or the one the bucketer gives
    for the rule as the config resolves it. *)
Theorem rollout_decision_comes_from_a_rule :
  ∀ (fuel : nat) project_config feature user_context (d : Decision) decide_reasons
    rule,
    DecisionService.get_variation_for_rollout fuel project_config (Some feature)
      user_context = Some (d, decide_reasons) →
    experiment d = Some rule →
    (∃ rollout_rules,
       rollout_rules_of project_config feature rollout_rules ∧ rule ∈ rollout_rules)
    ∧ is_Some (variation d)
    ∧ (variation d = forced_decision_at project_config feature user_context rule
       ∨ ∃ rollout_rule,
           ProjectConfig.get_experiment_from_id project_config (Experiment.id rule)
           = Some rollout_rule
           ∧ variation d = bucketed_in_rule project_config user_context rollout_rule).
Proof.
  intros fuel project_config feature user_context d decide_reasons rule Hreturned Hexp.
  unfold DecisionService.get_variation_for_rollout in Hreturned.
  destruct (negb (DecisionService.str_truthy (FeatureFlag.rolloutId feature)))
    eqn:Hid; [by simplify_eq|].
  destruct (ProjectConfig.get_rollout_from_id _ _) as [rollout|] eqn:Hrollout;
    [|by simplify_eq].
  destruct (ProjectConfig.get_rollout_experiments _ _) as [|first rest] eqn:Hrules;
    [by simplify_eq|].
  destruct (rollout_loop_variation _ _ _ _ _ _ _ _ _ rule Hreturned Hexp)
    as (Hin & Hvar & Hfrom).
  split; [|done].
  exists (first :: rest). split; [|done].
  split; [|eauto].
  intros Hempty. rewrite Hempty in Hid. done.
Qed.

(** X17: when the rules of every rollout of the config resolve, the
    resolver returns for every feature and every user, as soon as the fuel
    exceeds the number of rules. *)
Theorem rollout_resolver_returns_when_rules_resolve :
  ∀ (fuel : nat) project_config (feature : option FeatureFlag.t) user_context,
    (∀ rollout,
       Forall (rule_resolves project_config)
         (ProjectConfig.get_rollout_experiments project_config rollout)
       ∧ length (ProjectConfig.get_rollout_experiments project_config rollout) < fuel) →
    is_Some (DecisionService.get_variation_for_rollout fuel project_config feature
               user_context).
Proof. intros. by apply get_variation_for_rollout_returns. Qed.

(** X18: when the first rule of the rollout does not resolve and the user
    has no forced decision for it, the resolver does not return, whatever
    the other rules are. *)
Theorem rollout_resolver_hangs_on_unresolved_first_rule :
  ∀ project_config feature user_context rule (rest : list Experiment.t),
    rollout_rules_of project_config feature (rule :: rest) →
    forced_decision_at project_config feature user_context rule = None →
    ProjectConfig.get_experiment_from_id project_config (Experiment.id rule) = None →
    ∀ fuel : nat,
      DecisionService.get_variation_for_rollout fuel project_config (Some feature)
        user_context = None.
Proof.
  intros project_config feature user_context rule rest Hrules Hforced Hunresolved fuel.
  rewrite (get_variation_for_rollout_loop _ _ _ _ (rule :: rest)) by done.
  by apply (rollout_loop_spins _ _ _ _ 0 rule).
Qed.

End RolloutResolverMore.

(** ** More on the feature decision orchestrator *)

Section OrchestratorMore.
Context `{Collaborators}.

Implicit Types (self : DecisionService.t) (project_config : ProjectConfig.t)
  (feature : FeatureFlag.t) (user_context : OptimizelyUserContext.t)
  (options : option (list string)) (tracker : option UserProfileTracker.t).

(** The list call, with the load of the profile set apart. *)
Lemma feature_list_unfold fuel self project_config (features : list FeatureFlag.t)
    user_context options :
  DecisionService.get_variations_for_feature_list fuel self project_config features
    user_context options
  = match DecisionService.features_loop fuel self project_config features user_context
            options (loaded_tracker self user_context options)
            (loaded_reasons self user_context options) [] with
    | None => (loading_calls self user_context options, None)
    | Some (decisions, tracker') =>
        (loading_calls self user_context options
         ++ match loaded_tracker self user_context options, tracker' with
            | Some _, Some final => UserProfileTracker.save_user_profile final
            | _, _ => []
            end,
         Some decisions)
    end.
Proof.
  unfold DecisionService.get_variations_for_feature_list, loaded_tracker,
    loaded_reasons, loading_calls.
  destruct (DecisionService.user_profile_service self) as [service|];
    [destruct (DecisionService.option_in _ _)|]; simpl;
    destruct (DecisionService.features_loop _ _ _ _ _ _ _ _ _) as [[ds [t|]]|];
    simpl; done.
Qed.

(** The calls made before the first feature are not saves. *)
Lemma loading_calls_never_save self user_context options :
  never_saves (loading_calls self user_context options).
Proof.
  intros profile. unfold loading_calls.
  destruct (DecisionService.user_profile_service self);
    [destruct (DecisionService.option_in _ _)|];
    try apply not_elem_of_nil.
  apply not_elem_of_cons. split; [done | apply not_elem_of_nil].
Qed.

(** The tracker that the list call starts from has not been written to. *)
Lemma loaded_tracker_clean self user_context options tr :
  loaded_tracker self user_context options = Some tr →
  UserProfileTracker.save_user_profile tr = [].
Proof.
  unfold loaded_tracker, UserProfileTracker.load_user_profile.
  destruct (DecisionService.user_profile_service self) as [service|]; [|done].
  destruct (DecisionService.option_in _ _); [done|]. simpl.
  intros [= <-]. unfold UserProfileTracker.save_user_profile.
  by destruct (UserProfileService.lookup service _).
Qed.

(** X19: without a user profile service, or with the option to ignore it,
    the list call makes no call on a profile service, for any list of
    features. *)
Theorem feature_list_without_profile_makes_no_call :
  ∀ (fuel : nat) self project_config (features : list FeatureFlag.t) user_context
    options,
    DecisionService.user_profile_service self = None
    ∨ DecisionService.option_in IGNORE_USER_PROFILE_SERVICE options = true →
    (DecisionService.get_variations_for_feature_list fuel self project_config features
       user_context options).1 = [].
Proof.
  intros fuel self project_config features user_context options Hnone.
  rewrite feature_list_unfold.
  assert (loaded_tracker self user_context options = None
          ∧ loading_calls self user_context options = []) as [-> ->].
  { unfold loaded_tracker, loading_calls.
    destruct Hnone as [-> | Hignore]; [done|].
    rewrite Hignore. by destruct (DecisionService.user_profile_service self). }
  by destruct (DecisionService.features_loop _ _ _ _ _ _ _ _ _) as [[ds t]|].
Qed.

(** [get_variation] hands the tracker back as it was when it gives no
    variation. *)
Lemma get_variation_none_keeps_tracker self project_config experiment user_context
    tracker (reasons : option (list string)) options :
  let decided :=
    DecisionService.get_variation self project_config experiment user_context tracker
      reasons options in
  decided.1.1 = None → decided.2 = tracker.
Proof.
  unfold DecisionService.get_variation. simpl.
  repeat case_match; simplify_eq/=; done.
Qed.

(** The loop over the experiment ids hands the tracker back as it was when
    no experiment decides, and a decision of the loop has source
    [FEATURE_TEST]. *)
Lemma experiments_loop_outcome self project_config feature user_context options :
  ∀ (experimentIds : list string) tracker feature_reasons,
    let looped :=
      DecisionService.experiments_loop self project_config feature user_context
        options experimentIds tracker feature_reasons in
    match looped.1.1 with
    | Some d => source d = Some FEATURE_TEST
    | None => looped.2 = tracker
    end.
Proof.
  intros experimentIds.
  induction experimentIds as [|experiment_id experimentIds IH];
    intros tracker feature_reasons; cbv zeta; [done|].
  simpl.
  destruct (ProjectConfig.get_experiment_from_id _ _) as [e|]; [|apply IH].
  destruct (DecisionService.validated_forced_decision _ _ _) as [[v|] r]; [done|].
  pose proof (get_variation_none_keeps_tracker self project_config e user_context
                tracker (Some (feature_reasons ++ r)) options) as Hkept.
  cbv zeta in Hkept.
  destruct (DecisionService.get_variation _ _ _ _ _ _ _) as [[[v|] r1] t1];
    simpl in *; [done|].
  rewrite <- (Hkept eq_refl). apply IH.
Qed.

(** The body of the loop over the features hands the tracker back as it
    was unless it records a decision with source [FEATURE_TEST]. *)
Lemma feature_body_outcome fuel self project_config feature user_context options
    tracker decide_reasons d feature_reasons tracker' :
  DecisionService.feature_body fuel self project_config feature user_context options
    tracker decide_reasons = Some ((d, feature_reasons), tracker') →
  tracker' = tracker ∨ source d = Some FEATURE_TEST.
Proof.
  unfold DecisionService.feature_body.
  pose proof (experiments_loop_outcome self project_config feature user_context
                options (FeatureFlag.experimentIds feature) tracker decide_reasons)
    as Houtcome.
  cbv zeta in Houtcome.
  destruct (DecisionService.experiments_loop _ _ _ _ _ _ _ _) as [[[d0|] r0] t0];
    cbn [fst snd] in *.
  - intros [= -> _ _]. by right.
  - destruct (DecisionService.get_variation_for_rollout fuel project_config
                (Some feature) user_context) as [[d1 r1]|]; [|done].
    intros [= _ _ <-]. by left.
Qed.

Lemma features_loop_outcome fuel self project_config user_context options
    decide_reasons :
  ∀ (features : list FeatureFlag.t) tracker decisions result tracker',
    DecisionService.features_loop fuel self project_config features user_context
      options tracker decide_reasons decisions = Some (result, tracker') →
    ∃ recorded,
      result = decisions ++ recorded
      ∧ (tracker' = tracker
         ∨ ∃ d feature_reasons,
             (d, feature_reasons) ∈ recorded ∧ source d = Some FEATURE_TEST).
Proof.
  intros features.
  induction features as [|feature features IH];
    intros tracker decisions result tracker' Hloop; simpl in Hloop.
  - simplify_eq. exists []. rewrite app_nil_r. split; [done | by left].
  - destruct (DecisionService.feature_body _ _ _ _ _ _ _ _) as [[[d r] t1]|] eqn:Hbody;
      [|done].
    apply feature_body_outcome in Hbody.
    apply IH in Hloop as (recorded & -> & Hrest).
    exists ((d, r) :: recorded). rewrite <- app_assoc. split; [done|].
    destruct Hrest as [-> | (d' & r' & Hin & Hsource)].
    + destruct Hbody as [-> | Hsource]; [by left|].
      right. exists d, r. split; [by left | done].
    + right. exists d', r'. split; [by right | done].
Qed.

(** X20: the list call saves the profile only when one of the decisions it
    returns has source [FEATURE_TEST]: a batch in which every feature falls
    through to its rollout leaves the profile service with the lookup
    alone. *)
Theorem feature_list_saves_only_after_feature_test :
  ∀ (fuel : nat) self project_config (features : list FeatureFlag.t) user_context
    options profile,
    let result :=
      DecisionService.get_variations_for_feature_list fuel self project_config
        features user_context options in
    UserProfileService.Save profile ∈ result.1 →
    ∃ decisions d feature_reasons,
      result.2 = Some decisions
      ∧ (d, feature_reasons) ∈ decisions
      ∧ source d = Some FEATURE_TEST.
Proof.
  intros fuel self project_config features user_context options profile result.
  subst result. rewrite feature_list_unfold.
  pose proof (loading_calls_never_save self user_context options profile) as Hloading.
  destruct (DecisionService.features_loop _ _ _ _ _ _ _ _ _)
    as [[decisions tracker']|] eqn:Hloop; simpl; [|done].
  apply features_loop_outcome in Hloop as (recorded & -> & Houtcome).
  rewrite elem_of_app. intros [Hin | Hin]; [done|].
  destruct Houtcome as [-> | (d & r & Hd & Hsource)].
  - destruct (loaded_tracker self user_context options) as [tr|] eqn:Hloaded;
      [|by apply elem_of_nil in Hin].
    rewrite (loaded_tracker_clean self user_context options tr Hloaded) in Hin.
    by apply elem_of_nil in Hin.
  - exists recorded, d, r. done.
Qed.

(** A decision of the rollout resolver is well formed. *)
Lemma get_variation_for_rollout_wf fuel project_config (feature : option FeatureFlag.t)
    user_context d decide_reasons :
  DecisionService.get_variation_for_rollout fuel project_config feature user_context
  = Some (d, decide_reasons) →
  rollout_decision_wf d.
Proof.
  unfold DecisionService.get_variation_for_rollout. intros Hreturned.
  assert (rollout_decision_wf DecisionService.no_rollout_decision) as Hterminal.
  { split; [done | by right]. }
  repeat case_match; simplify_eq; try done.
  by eapply rollout_loop_wf.
Qed.

(** X21: every decision that the list call returns has source
    [FEATURE_TEST], with an experiment and a variation, or is a decision of
    the rollout resolver, with source [ROLLOUT] and with both an experiment
    and a variation or neither; none has source [EXPERIMENT]. *)
Theorem feature_list_decisions_are_feature_tests_or_rollouts :
  ∀ (fuel : nat) self project_config (features : list FeatureFlag.t) user_context
    options decisions d feature_reasons,
    (DecisionService.get_variations_for_feature_list fuel self project_config features
       user_context options).2 = Some decisions →
    (d, feature_reasons) ∈ decisions →
    (source d = Some FEATURE_TEST
     ∧ is_Some (experiment d) ∧ is_Some (variation d))
    ∨ (source d = Some ROLLOUT
       ∧ ((is_Some (experiment d) ∧ is_Some (variation d))
          ∨ (experiment d = None ∧ variation d = None))).
Proof.
  intros fuel self project_config features user_context options decisions d
    feature_reasons Hreturned Hin.
  apply feature_list_batch in Hreturned as [Hlength [tracker' Hbatch]].
  apply list_elem_of_lookup in Hin as [i Hi].
  assert (is_Some (features !! i)) as [feature Hfeature].
  { apply lookup_lt_is_Some. rewrite <- Hlength. by eapply lookup_lt_Some. }
  destruct (batch_decisions_lookup _ _ _ _ _ _ _ _ _ Hbatch i feature Hfeature)
    as (d' & before & after & Hd' & Hdecision).
  rewrite list_lookup_fmap, Hi in Hd'. simpl in Hd'. simplify_eq.
  destruct Hdecision as [Hmatch | [_ [rollout_reasons Hrollout]]].
  - apply first_match_decision in Hmatch as (Hsource & Hvar & _ & e & _ & _ & Hexp).
    left. rewrite Hexp. eauto.
  - right. by apply get_variation_for_rollout_wf in Hrollout.
Qed.

(** The body of the loop over the features when the user has a forced
    decision for the first experiment of the feature. *)
Lemma feature_body_forced fuel self project_config feature user_context options
    tracker decide_reasons experiment_id (rest : list string) e v :
  FeatureFlag.experimentIds feature = experiment_id :: rest →
  ProjectConfig.get_experiment_from_id project_config experiment_id = Some e →
  forced_decision_at project_config feature user_context e = Some v →
  ∃ feature_reasons,
    DecisionService.feature_body fuel self project_config feature user_context options
      tracker decide_reasons
    = Some ((decision_of e v FEATURE_TEST, feature_reasons), tracker).
Proof.
  intros Hids Hresolves. unfold forced_decision_at, DecisionService.feature_body.
  rewrite Hids. simpl. rewrite Hresolves.
  destruct (DecisionService.validated_forced_decision _ _ _) as [forced r]. simpl.
  intros ->. eauto.
Qed.

(** X22: a forced decision of the user for the flag and its first
    experiment, when its variation resolves, decides the feature with
    source [FEATURE_TEST], whether or not the experiment is running and
    whatever the store, the whitelist and the profile hold; the rollout is
    not consulted and the profile is not saved. *)
Theorem forced_decision_decides_feature :
  ∀ (fuel : nat) self project_config feature user_context options
    experiment_id (rest : list string) e v,
    FeatureFlag.experimentIds feature = experiment_id :: rest →
    ProjectConfig.get_experiment_from_id project_config experiment_id = Some e →
    forced_decision_at project_config feature user_context e = Some v →
    let result :=
      DecisionService.get_variations_for_feature_list fuel self project_config
        [feature] user_context options in
    (∃ feature_reasons,
       result.2 = Some [(decision_of e v FEATURE_TEST, feature_reasons)])
    ∧ never_saves result.1.
Proof.
  intros fuel self project_config feature user_context options experiment_id rest e v
    Hids Hresolves Hforced result. subst result.
  rewrite feature_list_unfold. simpl.
  destruct (feature_body_forced fuel self project_config feature user_context options
              (loaded_tracker self user_context options)
              (loaded_reasons self user_context options) experiment_id rest e v
              Hids Hresolves Hforced) as [r ->].
  simpl. split; [eauto|].
  intros profile.
  destruct (loaded_tracker self user_context options) as [tr|] eqn:Hloaded.
  - rewrite (loaded_tracker_clean self user_context options tr Hloaded), app_nil_r.
    apply loading_calls_never_save.
  - rewrite app_nil_r. apply loading_calls_never_save.
Qed.

(** X23: for an empty list of features the list call returns the empty
    list, with any fuel; it still looks the profile up when there is a
    profile service to use, and saves nothing. *)
Theorem feature_list_of_no_feature :
  ∀ (fuel : nat) self project_config user_context options,
    DecisionService.get_variations_for_feature_list fuel self project_config []
      user_context options
    = (loading_calls self user_context options, Some []).
Proof.
  intros fuel self project_config user_context options.
  rewrite feature_list_unfold. simpl.
  destruct (loaded_tracker self user_context options) as [tr|] eqn:Hloaded.
  - by rewrite (loaded_tracker_clean self user_context options tr Hloaded), app_nil_r.
  - by rewrite app_nil_r.
Qed.

(** The loop over experiment ids that do not resolve does nothing. *)
Lemma experiments_loop_unresolved self project_config feature user_context options :
  ∀ (experimentIds : list string) tracker feature_reasons,
    Forall (λ experiment_id,
              ProjectConfig.get_experiment_from_id project_config experiment_id = None)
      experimentIds →
    DecisionService.experiments_loop self project_config feature user_context options
      experimentIds tracker feature_reasons
    = (None, feature_reasons, tracker).
Proof.
  intros experimentIds tracker feature_reasons Hunresolved.
  induction Hunresolved as [|experiment_id experimentIds Hid _ IH]; [done|].
  simpl. by rewrite Hid.
Qed.

(** X24: a feature none of whose experiment ids resolves in the config, a
    feature without experiment ids among them, gets the decision of the
    rollout resolver, with the reasons of the resolver after those of the
    load of the profile; the list call returns exactly when the resolver
    does. *)
Theorem feature_with_unresolved_experiments_falls_to_rollout :
  ∀ (fuel : nat) self project_config feature user_context options,
    Forall (λ experiment_id,
              ProjectConfig.get_experiment_from_id project_config experiment_id = None)
      (FeatureFlag.experimentIds feature) →
    (DecisionService.get_variations_for_feature_list fuel self project_config
       [feature] user_context options).2
    = (λ returned : Decision * list string,
         [(returned.1, loaded_reasons self user_context options ++ returned.2)])
      <$> DecisionService.get_variation_for_rollout fuel project_config (Some feature)
            user_context.
Proof.
  intros fuel self project_config feature user_context options Hunresolved.
  rewrite feature_list_unfold. cbn [DecisionService.features_loop].
  unfold DecisionService.feature_body.
  rewrite (experiments_loop_unresolved _ _ _ _ _ _ _ _ Hunresolved).
  cbv beta iota zeta.
  by destruct (DecisionService.get_variation_for_rollout fuel project_config
                 (Some feature) user_context) as [[d r]|].
Qed.

End OrchestratorMore.

(** ** More on the event dispatcher *)

Section DispatcherMore.
Context `{EventDispatcher.Transport}.

(** X25: for an event whose verb is neither GET nor POST,
    [dispatch_event] sends nothing, logs nothing and raises nothing. *)
Theorem dispatch_event_ignores_other_verbs :
  ∀ (event : EventDispatcher.Event),
    EventDispatcher.http_verb event ≠ EventDispatcher.GET →
    EventDispatcher.http_verb event ≠ EventDispatcher.POST →
    EventDispatcher.dispatch_event event
    = {| EventDispatcher.sent := None; EventDispatcher.logged := [];
         EventDispatcher.raised := None |}.
Proof.
  intros event Hget Hpost.
  unfold EventDispatcher.dispatch_event, EventDispatcher.try_block.
  rewrite (proj2 (String.eqb_neq _ _) Hget), (proj2 (String.eqb_neq _ _) Hpost).
  done.
Qed.

(** X26: [dispatch_event] logs at most one line, and it logs exactly when
    the request it made fails; a response with a status outside 400..599
    passes in silence, and an exception that is not a [RequestException]
    is not logged but reaches the caller. *)
Theorem dispatch_event_logs_exactly_request_failures :
  ∀ (event : EventDispatcher.Event),
    let outcome := EventDispatcher.dispatch_event event in
    length (EventDispatcher.logged outcome) ≤ 1
    ∧ (EventDispatcher.logged outcome ≠ []
       ↔ ∃ policy request,
           EventDispatcher.sent outcome = Some (policy, request)
           ∧ request_fails (EventDispatcher.send policy request))
    ∧ (∀ policy request name,
         EventDispatcher.sent outcome = Some (policy, request) →
         EventDispatcher.send policy request = inr (EventDispatcher.OtherException name) →
         EventDispatcher.raised outcome = Some (EventDispatcher.OtherException name)).
Proof.
  intros event outcome. subst outcome.
  unfold EventDispatcher.dispatch_event, EventDispatcher.try_block, request_fails,
    EventDispatcher.raise_for_status.
  destruct (String.eqb (EventDispatcher.http_verb event) EventDispatcher.GET);
    [|destruct (String.eqb (EventDispatcher.http_verb event) EventDispatcher.POST)];
    simpl.
  3: { split; [lia|]. split; [|done]. split; [done|]. by intros (? & ? & ? & _). }
  all: destruct (EventDispatcher.send EventDispatcher.retries _)
         as [status_code|[error|name]] eqn:Hsend; simpl;
       [case_bool_decide; simpl| |].
  all: (split; [lia|]); split;
       [ split;
         [ intros Hlogged;
           first [ done | eexists _, _; split; [done|]; rewrite Hsend; done ]
         | intros (policy & request & [= <- <-] & Hfails);
           rewrite Hsend in Hfails; done ]
       | intros policy request name' [= <- <-] Hother;
         rewrite Hsend in Hother; by simplify_eq ].
Qed.

End DispatcherMore.

(** ** Further runs on the sample project *)

Section FurtherRuns.
#[local] Existing Instance Sample.collaborators.

Lemma set_then_get_forced_variation_witness :
  (DecisionService.get_forced_variation
     (DecisionService.set_forced_variation Scenario.bare_service Sample.config
        "checkout" "user_9" (Some "treatment")).2
     Sample.config "checkout" "user_9").1 = Some Sample.treatment.
Proof.
  apply (set_then_get_forced_variation Scenario.bare_service Sample.config "checkout"
           "user_9" "treatment" Sample.checkout Sample.treatment);
    [reflexivity | discriminate | reflexivity | reflexivity].
Defined.

Lemma set_forced_variation_changes_one_mapping_witness :
  stored_mapping
    (DecisionService.set_forced_variation Sample.service Sample.config "checkout"
       "user_9" (Some "treatment")).2 "user_9" "e1" = Some "v_treatment"
  ∧ stored_mapping
      (DecisionService.set_forced_variation Sample.service Sample.config "checkout"
         "user_9" (Some "treatment")).2 "user_out" "e1"
    = stored_mapping Sample.service "user_out" "e1".
Proof.
  destruct (set_forced_variation_changes_one_mapping Sample.service Sample.config
              "checkout" "user_9" "treatment" Sample.checkout Sample.treatment)
    as (Hset & Hothers & _); [reflexivity | discriminate | reflexivity |].
  split; [exact Hset|]. apply Hothers. intros [Huser _]. discriminate Huser.
Defined.

Lemma clear_then_get_forced_variation_witness :
  DecisionService.get_forced_variation
    (DecisionService.set_forced_variation Sample.service Sample.config "checkout"
       "user_out" None).2
    Sample.config "checkout" "user_out" = (None, []).
Proof.
  apply (clear_then_get_forced_variation Sample.service Sample.config "checkout"
           "user_out" Sample.checkout).
  reflexivity.
Defined.

Lemma set_forced_variation_succeeds_iff_witness :
  (DecisionService.set_forced_variation Sample.service Sample.config "checkout"
     "user_9" (Some "treatment")).1 = true
  ∧ (DecisionService.set_forced_variation Sample.service Sample.config "checkout"
       "user_9" (Some "blue")).2 = Sample.service.
Proof.
  split.
  - apply (set_forced_variation_succeeds_iff Sample.service Sample.config "checkout"
             "user_9" (Some "treatment")).
    split; [by eexists|]. right. exists "treatment".
    split; [reflexivity|]. split; [discriminate | by eexists].
  - apply (set_forced_variation_succeeds_iff Sample.service Sample.config "checkout"
             "user_9" (Some "blue")).
    reflexivity.
Defined.


Lemma get_variation_ignores_profile_on_request_witness :
  (DecisionService.get_variation Sample.service Sample.config Sample.checkout
     (Sample.user "user_in") (Some (UserProfileTracker.new "user_in")) None
     (Some [IGNORE_USER_PROFILE_SERVICE])).2
  = Some (UserProfileTracker.new "user_in").
Proof.
  apply (get_variation_ignores_profile_on_request Sample.service Sample.config
           Sample.checkout (Sample.user "user_in")
           (Some (UserProfileTracker.new "user_in")) None
           (Some [IGNORE_USER_PROFILE_SERVICE])).
  reflexivity.
Defined.

Lemma get_variation_is_sticky_witness :
  (@DecisionService.get_variation Scenario.no_traffic Sample.service Sample.config
     Sample.checkout (Sample.user "user_in")
     (@DecisionService.get_variation Sample.collaborators Sample.service Sample.config
        Sample.checkout (Sample.user "user_in")
        (Some (UserProfileTracker.new "user_in")) None None).2
     None None).1.1 = Some Sample.treatment
  ∧ (@DecisionService.get_variation Scenario.no_traffic Sample.service Sample.config
       Sample.checkout (Sample.user "user_in")
       (Some (UserProfileTracker.new "user_in")) None None).1.1 = None.
Proof.
  split; [|reflexivity].
  apply (get_variation_is_sticky Sample.collaborators Scenario.no_traffic
           Sample.service Sample.config Sample.checkout (Sample.user "user_in")
           (UserProfileTracker.new "user_in") None None None Sample.treatment);
    [reflexivity | reflexivity | reflexivity | discriminate | reflexivity
    | reflexivity].
Defined.

Lemma rollout_without_rules_decides_nothing_witness :
  DecisionService.get_variation_for_rollout 0 Sample.config
    (Some Scenario.flag_paused) (Sample.user "user_1")
  = Some (DecisionService.no_rollout_decision, []).
Proof.
  destruct (rollout_without_rules_decides_nothing 0 Sample.config
              (Sample.user "user_1")) as [_ Hfeature].
  apply (Hfeature Scenario.flag_paused). reflexivity.
Defined.

Lemma rollout_forced_decision_on_first_rule_witness :
  ∃ decide_reasons,
    DecisionService.get_variation_for_rollout 1 Sample.stale_config
      (Some Sample.flag_b) (Scenario.forced_user "user_f" "flag_b" "rule_1" "control")
    = Some (decision_of Sample.rule_1 Sample.control ROLLOUT, decide_reasons).
Proof.
  apply (rollout_forced_decision_on_first_rule 0 Sample.stale_config Sample.flag_b
           (Scenario.forced_user "user_f" "flag_b" "rule_1" "control") Sample.rule_1
           [Sample.rule_2; Sample.everyone_else] Sample.control).
  - split; [discriminate|]. exists Sample.rollout. split; reflexivity.
  - reflexivity.
Defined.

Lemma rollout_without_audience_match_decides_nothing_witness :
  ∃ decide_reasons,
    @DecisionService.get_variation_for_rollout Scenario.no_audience 4 Sample.config
      (Some Sample.flag_b) (Sample.user "user_1")
    = Some (DecisionService.no_rollout_decision, decide_reasons).
Proof.
  apply (@rollout_without_audience_match_decides_nothing Scenario.no_audience 4
           Sample.config Sample.flag_b (Sample.user "user_1")
           [Sample.rule_1; Sample.rule_2; Sample.everyone_else]).
  - split; [discriminate|]. exists Sample.rollout. split; reflexivity.
  - intros [|[|[|i]]] rule Hrule; simpl in Hrule; [| | |discriminate Hrule];
      injection Hrule as <-; (split; [reflexivity|]);
      eexists; (split; reflexivity).
  - simpl. lia.
Defined.

Lemma rollout_first_matching_rule_decides_witness :
  ∃ decide_reasons,
    @DecisionService.get_variation_for_rollout Scenario.second_rule_only 2
      Sample.config (Some Sample.flag_b) (Sample.user "user_1")
    = Some (decision_of Sample.rule_2 Sample.control ROLLOUT, decide_reasons).
Proof.
  apply (@rollout_first_matching_rule_decides Scenario.second_rule_only 2
           Sample.config Sample.flag_b (Sample.user "user_1") [Sample.rule_1]
           [Sample.everyone_else] Sample.rule_2 Sample.rule_2 Sample.control).
  - split; [discriminate|]. exists Sample.rollout. split; reflexivity.
  - intros [|i] missed Hmissed; simpl in Hmissed; [|discriminate Hmissed].
    injection Hmissed as <-. split; [reflexivity|].
    eexists; split; reflexivity.
  - reflexivity.
  - reflexivity.
  - reflexivity.
  - reflexivity.
  - simpl. lia.
Defined.

Lemma rollout_decision_comes_from_a_rule_witness :
  Sample.everyone_else ∈ [Sample.rule_1; Sample.rule_2; Sample.everyone_else]
  ∧ ∃ rollout_rules,
      rollout_rules_of Sample.config Sample.flag_b rollout_rules
      ∧ Sample.everyone_else ∈ rollout_rules.
Proof.
  split; [by repeat constructor|].
  destruct (DecisionService.get_variation_for_rollout 4 Sample.config
              (Some Sample.flag_b) (Sample.user "user_1")) as [[d r]|] eqn:Hrun;
    [|by vm_compute in Hrun].
  destruct (rollout_decision_comes_from_a_rule 4 Sample.config Sample.flag_b
              (Sample.user "user_1") d r Sample.everyone_else Hrun) as [Hrule _].
  - vm_compute in Hrun. by injection Hrun as <- _.
  - exact Hrule.
Defined.

Lemma rollout_resolver_returns_when_rules_resolve_witness :
  is_Some (DecisionService.get_variation_for_rollout 4 Sample.config
             (Some Sample.flag_b) (Sample.user "user_1")).
Proof.
  apply rollout_resolver_returns_when_rules_resolve.
  intros rollout. split; [|simpl; lia].
  repeat constructor; eexists; reflexivity.
Defined.

Lemma rollout_resolver_hangs_on_unresolved_first_rule_witness :
  DecisionService.get_variation_for_rollout 1000 Sample.stale_config
    (Some Sample.flag_a) (Sample.user "user_2") = None.
Proof.
  apply (rollout_resolver_hangs_on_unresolved_first_rule Sample.stale_config
           Sample.flag_a (Sample.user "user_2") Sample.rule_1
           [Sample.rule_2; Sample.everyone_else]).
  - split; [discriminate|]. exists Sample.rollout. split; reflexivity.
  - reflexivity.
  - reflexivity.
Defined.

Lemma feature_list_without_profile_makes_no_call_witness :
  (DecisionService.get_variations_for_feature_list 4 Scenario.bare_service
     Sample.config [Sample.flag_a; Sample.flag_b] (Sample.user "user_in") None).1 = []
  ∧ (DecisionService.get_variations_for_feature_list 4 Sample.service
       Sample.config [Sample.flag_a; Sample.flag_b] (Sample.user "user_in")
       (Some [IGNORE_USER_PROFILE_SERVICE])).1 = [].
Proof.
  split.
  - apply feature_list_without_profile_makes_no_call. by left.
  - apply feature_list_without_profile_makes_no_call. by right.
Defined.

Lemma feature_list_saves_only_after_feature_test_witness :
  ∃ decisions d feature_reasons,
    (DecisionService.get_variations_for_feature_list 4 Sample.service Sample.config
       [Sample.flag_a; Sample.flag_b] (Sample.user "user_in") None).2 = Some decisions
    ∧ (d, feature_reasons) ∈ decisions
    ∧ source d = Some FEATURE_TEST.
Proof.
  apply (feature_list_saves_only_after_feature_test 4 Sample.service Sample.config
           [Sample.flag_a; Sample.flag_b] (Sample.user "user_in") None
           {| UserProfile.user_id := "user_in";
              UserProfile.experiment_bucket_map := {["e1" := "v_treatment"]} |}).
  vm_compute. apply list_elem_of_further, list_elem_of_here.
Defined.

Lemma feature_list_decisions_are_feature_tests_or_rollouts_witness :
  ∃ d feature_reasons,
    head (default []
            (DecisionService.get_variations_for_feature_list 4 Sample.service
               Sample.config [Sample.flag_a; Sample.flag_b] (Sample.user "user_in")
               None).2) = Some (d, feature_reasons)
    ∧ ((source d = Some FEATURE_TEST
        ∧ is_Some (experiment d) ∧ is_Some (variation d))
       ∨ (source d = Some ROLLOUT
          ∧ ((is_Some (experiment d) ∧ is_Some (variation d))
             ∨ (experiment d = None ∧ variation d = None)))).
Proof.
  destruct (DecisionService.get_variations_for_feature_list 4 Sample.service
              Sample.config [Sample.flag_a; Sample.flag_b] (Sample.user "user_in")
              None).2 as [[|[d r] rest]|] eqn:Hrun;
    [by vm_compute in Hrun | | by vm_compute in Hrun].
  exists d, r. split; [reflexivity|].
  apply (feature_list_decisions_are_feature_tests_or_rollouts 4 Sample.service
           Sample.config [Sample.flag_a; Sample.flag_b] (Sample.user "user_in") None
           ((d, r) :: rest) d r Hrun).
  apply list_elem_of_here.
Defined.

Lemma forced_decision_decides_feature_witness :
  is_experiment_running Sample.paused = false
  ∧ ∃ feature_reasons,
      (DecisionService.get_variations_for_feature_list 0 Sample.service Sample.config
         [Scenario.flag_paused]
         (Scenario.forced_user "user_f" "flag_paused" "paused" "treatment") None).2
      = Some [(decision_of Sample.paused Sample.treatment FEATURE_TEST,
               feature_reasons)].
Proof.
  split; [reflexivity|].
  apply (forced_decision_decides_feature 0 Sample.service Sample.config
           Scenario.flag_paused
           (Scenario.forced_user "user_f" "flag_paused" "paused" "treatment") None
           "e0" [] Sample.paused Sample.treatment);
    reflexivity.
Defined.

Lemma feature_with_unresolved_experiments_falls_to_rollout_witness :
  (DecisionService.get_variations_for_feature_list 4 Sample.service Sample.config
     [Scenario.flag_stale] (Sample.user "user_1") None).2
  = (λ returned : Decision * list string,
       [(returned.1, loaded_reasons Sample.service (Sample.user "user_1") None
                     ++ returned.2)])
    <$> DecisionService.get_variation_for_rollout 4 Sample.config
          (Some Scenario.flag_stale) (Sample.user "user_1").
Proof.
  apply feature_with_unresolved_experiments_falls_to_rollout.
  repeat constructor.
Defined.

Lemma dispatch_event_ignores_other_verbs_witness :
  @EventDispatcher.dispatch_event (Sample.transport (inl 500%Z)) (Sample.event "PUT")
  = {| EventDispatcher.sent := None; EventDispatcher.logged := [];
       EventDispatcher.raised := None |}.
Proof.
  apply (@dispatch_event_ignores_other_verbs (Sample.transport (inl 500%Z))
           (Sample.event "PUT")); discriminate.
Defined.

Lemma dispatch_event_logs_exactly_request_failures_witness :
  EventDispatcher.raised
    (@EventDispatcher.dispatch_event
       (Sample.transport (inr (EventDispatcher.OtherException "TypeError")))
       (Sample.event "GET"))
  = Some (EventDispatcher.OtherException "TypeError")
  ∧ EventDispatcher.logged
      (@EventDispatcher.dispatch_event (Sample.transport (inl 404%Z))
         (Sample.event "GET")) ≠ [].
Proof.
  split.
  - destruct (@dispatch_event_logs_exactly_request_failures
                (Sample.transport (inr (EventDispatcher.OtherException "TypeError")))
                (Sample.event "GET")) as (_ & _ & Hother).
    eapply Hother; reflexivity.
  - destruct (@dispatch_event_logs_exactly_request_failures
                (Sample.transport (inl 404%Z)) (Sample.event "GET"))
      as (_ & Hlogged & _).
    apply Hlogged. eexists _, _. split; [reflexivity|]. simpl. lia.
Defined.

Lemma stale_stored_decision_is_rebucketed_witness :
  let stale_tracker :=
    UserProfileTracker.update_user_profile (UserProfileTracker.new "user_in")
      Sample.checkout {| Variation.id := "v_gone"; Variation.key := "gone" |} in
  (DecisionService.get_variation Sample.service Sample.config Sample.checkout
     (Sample.user "user_in") (Some stale_tracker) None None).1.1
  = Some Sample.treatment.
Proof.
  intros stale_tracker.
  destruct (stale_stored_decision_is_rebucketed Sample.service Sample.config
              Sample.checkout (Sample.user "user_in") stale_tracker None None
              "v_gone" Sample.treatment)
    as [Hdecided _];
    [reflexivity | reflexivity | reflexivity | reflexivity | reflexivity
    | reflexivity | reflexivity |].
  exact Hdecided.
Defined.

(** C5: the list call does not return a pair per feature for every
    input.  The rollout of [flag_b] starts with a rule whose id does not
    resolve in the config and the user has no forced decision: the loop of
    the rollout resolver comes back to its test with the index where it was
    (the defect of C3), so the list call on [[flag_a; flag_b]] returns
    nothing, whatever the fuel, although [flag_a] is decided by its
    experiment. *)
Theorem feature_list_never_returns_on_unresolved_rule :
  ProjectConfig.get_experiment_from_id Sample.stale_config
    (Experiment.id Sample.rule_1) = None
  ∧ (∃ feature_reasons tracker,
       DecisionService.feature_body 0 Sample.service Sample.stale_config Sample.flag_a
         (Sample.user "user_in") None
         (loaded_tracker Sample.service (Sample.user "user_in") None) []
       = Some ((decision_of Sample.checkout Sample.treatment FEATURE_TEST,
                feature_reasons), tracker))
  ∧ ∀ fuel : nat,
      (DecisionService.get_variations_for_feature_list fuel Sample.service
         Sample.stale_config [Sample.flag_a; Sample.flag_b] (Sample.user "user_in")
         None).2 = None.
Proof.
  split; [reflexivity|]. split.
  - eexists _, _. vm_compute. reflexivity.
  - intros fuel. rewrite feature_list_unfold.
    assert (∀ tracker decide_reasons,
              DecisionService.feature_body fuel Sample.service Sample.stale_config
                Sample.flag_b (Sample.user "user_in") None tracker decide_reasons
              = None) as Hhangs.
    { intros tracker decide_reasons. unfold DecisionService.feature_body.
      change (FeatureFlag.experimentIds Sample.flag_b) with (@nil string).
      cbn [DecisionService.experiments_loop].
      rewrite (get_variation_for_rollout_loop fuel Sample.stale_config Sample.flag_b
                 (Sample.user "user_in")
                 [Sample.rule_1; Sample.rule_2; Sample.everyone_else]);
        [| split; [discriminate | exists Sample.rollout; split; reflexivity]
         | discriminate].
      by rewrite (rollout_loop_spins Sample.stale_config Sample.flag_b
                    (Sample.user "user_in")
                    [Sample.rule_1; Sample.rule_2; Sample.everyone_else] 0
                    Sample.rule_1). }
    cbn [DecisionService.features_loop].
    destruct (DecisionService.feature_body fuel Sample.service Sample.stale_config
                Sample.flag_a _ _ _ _) as [[recorded tracker]|]; [|done].
    by rewrite Hhangs.
Qed.

End FurtherRuns.
